(** * Career Roadmap Generator ([app.py]): response parsing and timeline extraction

    A shallow embedding of the routines of [app.py] that carry logic:
    - [generate_roadmap] (lines 32-77): the prompt, the clean-up of the text
      returned by the language-model service and its decoding with
      [json.loads];
    - [plot_timeline] (lines 79-127): the construction of [gantt_data] from a
      decoded roadmap, with the parse of the month range out of a phase label;
    - [main] (lines 129-184): the "Generate Roadmap" button, which stores the
      roadmap in [st.session_state], and the three tabs of the results.

    Python text is modelled by [string]: a sequence of characters whose codes
    lie in U+0000..U+00FF (each [ascii] is read as the code point of that
    number).  Python values are modelled by [pyval]; a raised exception by
    [Raise]; calls into Streamlit and Plotly by a list of [ui_event].

    Module [Spec] holds the steps of the specification the theorems compare
    the code with, written from its words. *)

From Stdlib Require Import Bool Arith ZArith NArith Lia List Ascii String.
From Stdlib Require Import DecimalString.
Import ListNotations.

Local Open Scope string_scope.
Local Open Scope bool_scope.

(* ================================================================== *)
(** * Python values, exceptions and built-ins *)
(* ================================================================== *)

Set Warnings "-register-all".
(** A [float] obtained from a decimal literal is kept as that literal,
    [(-1)^neg * m * 10^e]; the binary rounding Python applies to it is not
    computed, only whether it rounds to zero (see [float_nonzero]). *)
Inductive pyfloat : Type :=
| FNaN
| FInf (neg : bool)
| FDec (neg : bool) (m : N) (e : Z).

(** The values [json.loads] can return, plus nothing else.  A [dict] keeps
    its insertion order, which Python exposes when a dict is iterated. *)
Inductive pyval : Type :=
| PyNone
| PyBool (b : bool)
| PyInt (z : Z)
| PyFloat (f : pyfloat)
| PyStr (s : string)
| PyList (l : list pyval)
| PyDict (d : list (string * pyval)).

Definition pydict : Type := list (string * pyval).

Inductive exn : Type :=
| KeyError | TypeError | AttributeError | ValueError | IndexError.

Inductive result (A : Type) : Type :=
| Ok (a : A)
| Raise (e : exn).
Arguments Ok {A} a.
Arguments Raise {A} e.

Definition bind {A B : Type} (r : result A) (k : A -> result B) : result B :=
  match r with
  | Ok a => k a
  | Raise e => Raise e
  end.

Module Py.

(** ** Characters *)

Definition code (c : ascii) : N := N_of_ascii c.

Definition in_range (lo hi : N) (c : ascii) : bool :=
  (lo <=? code c)%N && (code c <=? hi)%N.

(** [str.isspace] on one character, for code points below 256: the
    characters [str.strip()] removes. *)
Definition isspace (c : ascii) : bool :=
  in_range 9 13 c || in_range 28 32 c
  || (code c =? 133)%N || (code c =? 160)%N.

(** The ten ASCII digits: the only decimal digits below U+0100. *)
Definition isdecimal (c : ascii) : bool := in_range 48 57 c.

(** [str.isdigit] on one character: the decimal digits and the superscripts
    U+00B2, U+00B3 and U+00B9, which [int] does not accept. *)
Definition isdigit (c : ascii) : bool :=
  isdecimal c || (code c =? 178)%N || (code c =? 179)%N || (code c =? 185)%N.

(** ** Text *)

Fixpoint forallb_str (f : ascii -> bool) (s : string) : bool :=
  match s with
  | EmptyString => true
  | String c s' => f c && forallb_str f s'
  end.

(** [''.join(filter(f, s))]. *)
Fixpoint filter (f : ascii -> bool) (s : string) : string :=
  match s with
  | EmptyString => EmptyString
  | String c s' => if f c then String c (filter f s') else filter f s'
  end.

Definition is_empty (s : string) : bool :=
  match s with
  | EmptyString => true
  | String _ _ => false
  end.

(** The text without the characters satisfying [f] at its start, at its
    end. *)
Fixpoint lstrip_by (f : ascii -> bool) (s : string) : string :=
  match s with
  | EmptyString => EmptyString
  | String c s' => if f c then lstrip_by f s' else s
  end.

Fixpoint rstrip_by (f : ascii -> bool) (s : string) : string :=
  match s with
  | EmptyString => EmptyString
  | String c s' =>
      let r := rstrip_by f s' in
      if is_empty r && f c then EmptyString else String c r
  end.

(** [s.strip()]. *)
Definition strip (s : string) : string :=
  rstrip_by isspace (lstrip_by isspace s).

(** [s.startswith(p)]. *)
Definition startswith (s p : string) : bool := prefix p s.

(** A slice bound brought into [0 .. len], a negative one counted from the
    end. *)
Definition slice_index (len i : Z) : Z :=
  let i := if (i <? 0)%Z then (i + len)%Z else i in
  Z.max 0 (Z.min len i).

(** [s[start:stop]]. *)
Definition slice (s : string) (start stop : Z) : string :=
  let len := Z.of_nat (String.length s) in
  let a := slice_index len start in
  let b := slice_index len stop in
  substring (Z.to_nat a) (Z.to_nat (b - a)) s.

(** [s.split(sep)] for a separator of one character, the only kind
    [app.py] uses: the pieces between the occurrences of [sep], never an
    empty list. *)
Fixpoint split (sep : ascii) (s : string) : list string :=
  match s with
  | EmptyString => [EmptyString]
  | String c s' =>
      if (c =? sep)%char then EmptyString :: split sep s'
      else match split sep s' with
           | p :: ps => String c p :: ps
           | [] => [String c EmptyString]
           end
  end.

(** [l[i]] on a list, a negative index counted from the end. *)
Definition getitem_list {A : Type} (l : list A) (i : Z) : result A :=
  let len := Z.of_nat (List.length l) in
  let j := if (i <? 0)%Z then (i + len)%Z else i in
  if (j <? 0)%Z then Raise IndexError
  else match nth_error l (Z.to_nat j) with
       | Some x => Ok x
       | None => Raise IndexError
       end.

(** [sep.join(l)] on a list of text. *)
Definition join (sep : string) (l : list string) : string := concat sep l.

(** ** [int] on text *)

Definition digit_value (c : ascii) : Z := (Z.of_N (code c) - 48)%Z.

Fixpoint decimal_value_from (acc : Z) (s : string) : Z :=
  match s with
  | EmptyString => acc
  | String c s' => decimal_value_from (10 * acc + digit_value c) s'
  end.

(** The number a sequence of decimal digits denotes. *)
Definition decimal_value (s : string) : Z := decimal_value_from 0 s.

(** The digits of a decimal literal with its underscores removed: an
    underscore is allowed only between two digits. *)
Fixpoint digits_of_literal (prev_digit : bool) (s : string) : option string :=
  match s with
  | EmptyString => if prev_digit then Some EmptyString else None
  | String c s' =>
      if isdecimal c then
        option_map (String c) (digits_of_literal true s')
      else if (c =? "_")%char && prev_digit then
        digits_of_literal false s'
      else None
  end.

(** The whitespace [int] accepts around a number: that of [str.strip()]
    but the four separators U+001C..U+001F. *)
Definition int_space (c : ascii) : bool :=
  in_range 9 13 c || (code c =? 32)%N
  || (code c =? 133)%N || (code c =? 160)%N.

(** [sys.int_info.default_max_str_digits]: the number of digits above
    which [int] refuses a decimal literal (CPython 3.11 and later, and the
    security releases of 3.7 to 3.10).  [app.py] leaves the limit as the
    interpreter sets it. *)
Definition int_max_str_digits : N := 4300.

(** [int(s)]: surrounding whitespace, an optional sign, decimal digits.
    The digits are counted without the underscores and with the leading
    zeros; more than [int_max_str_digits] of them raise [ValueError]. *)
Definition int (s : string) : result Z :=
  let s := rstrip_by int_space (lstrip_by int_space s) in
  let '(sign, body) :=
    match s with
    | String c r =>
        if (c =? "-")%char then ((-1)%Z, r)
        else if (c =? "+")%char then (1%Z, r)
        else (1%Z, s)
    | EmptyString => (1%Z, s)
    end in
  match body with
  | EmptyString => Raise ValueError
  | String c _ =>
      if isdecimal c then
        match digits_of_literal false body with
        | Some ds =>
            if (int_max_str_digits <? N.of_nat (String.length ds))%N
            then Raise ValueError
            else Ok (sign * decimal_value ds)%Z
        | None => Raise ValueError
        end
      else Raise ValueError
  end.

(** ** Truth value, dictionaries, iteration *)

(** Whether the float is different from zero.  A decimal literal rounds to
    zero exactly when its magnitude is at most [2^-1075], half the smallest
    positive binary64 number (a tie goes to the even neighbour, zero). *)
Definition float_nonzero (f : pyfloat) : bool :=
  match f with
  | FNaN => true
  | FInf _ => true
  | FDec _ m e =>
      if (m =? 0)%N then false
      else if (0 <=? e)%Z then true
      else negb (Z.of_N m * 2 ^ 1075 <=? 10 ^ (- e))%Z
  end.

(** [bool(v)], the test behind [if v:] and [if not v:]. *)
Definition truthy (v : pyval) : bool :=
  match v with
  | PyNone => false
  | PyBool b => b
  | PyInt z => negb (z =? 0)%Z
  | PyFloat f => float_nonzero f
  | PyStr s => negb (is_empty s)
  | PyList l => match l with [] => false | _ :: _ => true end
  | PyDict d => match d with [] => false | _ :: _ => true end
  end.

Fixpoint dict_get (d : pydict) (k : string) : option pyval :=
  match d with
  | [] => None
  | (k', v) :: d' => if (k' =? k)%string then Some v else dict_get d' k
  end.

(** [d[k] = v]: an existing key keeps its place, a new one goes last. *)
Fixpoint dict_set (d : pydict) (k : string) (v : pyval) : pydict :=
  match d with
  | [] => [(k, v)]
  | (k', v') :: d' =>
      if (k' =? k)%string then (k', v) :: d' else (k', v') :: dict_set d' k v
  end.

(** [dict(pairs)]. *)
Definition dict_of_pairs (pairs : list (string * pyval)) : pydict :=
  fold_left (fun d kv => dict_set d (fst kv) (snd kv)) pairs [].

(** [v.get(k, default)]: only a dict has the method. *)
Definition get (v : pyval) (k : string) (default : pyval) : result pyval :=
  match v with
  | PyDict d =>
      Ok (match dict_get d k with Some x => x | None => default end)
  | _ => Raise AttributeError
  end.

(** [v[k]] with a text key. *)
Definition getitem (v : pyval) (k : string) : result pyval :=
  match v with
  | PyDict d =>
      match dict_get d k with
      | Some x => Ok x
      | None => Raise KeyError
      end
  | _ => Raise TypeError
  end.

Fixpoint chars (s : string) : list pyval :=
  match s with
  | EmptyString => []
  | String c s' => PyStr (String c EmptyString) :: chars s'
  end.

(** The items [for x in v] runs through. *)
Definition iter (v : pyval) : result (list pyval) :=
  match v with
  | PyList l => Ok l
  | PyStr s => Ok (chars s)
  | PyDict d => Ok (map (fun kv => PyStr (fst kv)) d)
  | _ => Raise TypeError
  end.

Fixpoint all_str (l : list pyval) : result (list string) :=
  match l with
  | [] => Ok []
  | PyStr s :: l' => bind (all_str l') (fun ss => Ok (s :: ss))
  | _ :: _ => Raise TypeError
  end.

(** [sep.join(v)]: [v] must be iterable and yield text only. *)
Definition join_val (sep : string) (v : pyval) : result string :=
  bind (iter v) (fun items =>
  bind (all_str items) (fun ss => Ok (join sep ss))).

End Py.

(* ================================================================== *)
(** * [json.loads] *)
(* ================================================================== *)

(** The decoder of Python's [json] package with its default settings
    ([strict], no hooks), after [json/decoder.py] and [json/scanner.py].
    [None] stands for [JSONDecodeError].  The recursion of the decoder is
    bounded by [fuel]; [loads] supplies one unit per character, and more
    fuel would read nothing that this amount does not (lemma
    [scan_once_fuel]).  An escape [\uXXXX] that names a code point above
    U+00FF has no image in [string] and is refused: such texts are outside
    the model, and so are the limits of the interpreter: the depth of its
    recursion, and the number of digits [int] takes, beyond which
    [json.loads] raises [ValueError] on an integer literal. *)
Module Json.

(** [WHITESPACE_STR = ' \t\n\r']. *)
Definition is_ws (c : ascii) : bool :=
  (c =? " ")%char || (c =? "009")%char || (c =? "010")%char
  || (c =? "013")%char.

Fixpoint skip_ws (s : string) : string :=
  match s with
  | EmptyString => EmptyString
  | String c r => if is_ws c then skip_ws r else s
  end.

Definition hex_value (c : ascii) : option N :=
  if Py.in_range 48 57 c then Some (Py.code c - 48)%N
  else if Py.in_range 65 70 c then Some (Py.code c - 55)%N
  else if Py.in_range 97 102 c then Some (Py.code c - 87)%N
  else None.

(** [_decode_uXXXX]: the number four hexadecimal digits denote. *)
Definition decode_uXXXX (h1 h2 h3 h4 : ascii) : option N :=
  match hex_value h1, hex_value h2, hex_value h3, hex_value h4 with
  | Some a, Some b, Some c, Some d => Some (((a * 16 + b) * 16 + c) * 16 + d)%N
  | _, _, _, _ => None
  end.

(** The table [BACKSLASH] of one-letter escapes. *)
Definition BACKSLASH (c : ascii) : option ascii :=
  if (c =? "034")%char then Some "034"%char
  else if (c =? "\")%char then Some "\"%char
  else if (c =? "/")%char then Some "/"%char
  else if (c =? "b")%char then Some "008"%char
  else if (c =? "f")%char then Some "012"%char
  else if (c =? "n")%char then Some "010"%char
  else if (c =? "r")%char then Some "013"%char
  else if (c =? "t")%char then Some "009"%char
  else None.

Definition cons_char (c : ascii) (r : option (string * string))
  : option (string * string) :=
  match r with
  | Some (str, rest) => Some (String c str, rest)
  | None => None
  end.

(** [py_scanstring(s, end)] with [end] just after the opening quote: the
    decoded text and what follows the closing quote. *)
Fixpoint scanstring (s : string) : option (string * string) :=
  match s with
  | EmptyString => None
  | String c r =>
      if (c =? "034")%char then Some (EmptyString, r)
      else if (c =? "\")%char then
        match r with
        | EmptyString => None
        | String esc r1 =>
            if (esc =? "u")%char then
              match r1 with
              | String h1 (String h2 (String h3 (String h4 r2))) =>
                  match decode_uXXXX h1 h2 h3 h4 with
                  | Some uni =>
                      if (uni <? 256)%N
                      then cons_char (ascii_of_N uni) (scanstring r2)
                      else None
                  | None => None
                  end
              | _ => None
              end
            else
              match BACKSLASH esc with
              | Some ch => cons_char ch (scanstring r1)
              | None => None
              end
        end
      else if (Py.code c <? 32)%N then None
      else cons_char c (scanstring r)
  end.

(** The longest run of decimal digits at the start of [s], and the rest. *)
Fixpoint span_digits (s : string) : string * string :=
  match s with
  | EmptyString => (EmptyString, EmptyString)
  | String c r =>
      if Py.isdecimal c
      then let (d, t) := span_digits r in (String c d, t)
      else (EmptyString, s)
  end.

(** The groups of [NUMBER_RE]: an optional minus sign and either a single
    zero or a digit from 1 to 9 followed by digits; optionally a point and
    one digit or more; optionally [e] or [E], a sign, one digit or more. *)
Record number : Type := {
  negative : bool;
  integer : string;
  frac : option string;
  exp : option (bool * string)
}.

Definition match_integer (s : string) : option (bool * string * string) :=
  let (neg, r) :=
    match s with
    | String c r' => if (c =? "-")%char then (true, r') else (false, s)
    | EmptyString => (false, s)
    end in
  match r with
  | EmptyString => None
  | String c r' =>
      if (c =? "0")%char then Some (neg, "0", r')
      else if Py.isdecimal c
      then let (d, t) := span_digits r' in Some (neg, String c d, t)
      else None
  end.

Definition match_frac (s : string) : option string * string :=
  match s with
  | String c r =>
      if (c =? ".")%char then
        match span_digits r with
        | (EmptyString, _) => (None, s)
        | (d, t) => (Some d, t)
        end
      else (None, s)
  | EmptyString => (None, s)
  end.

Definition match_exp (s : string) : option (bool * string) * string :=
  match s with
  | String c r =>
      if (c =? "e")%char || (c =? "E")%char then
        let (neg, r1) :=
          match r with
          | String sg r' =>
              if (sg =? "-")%char then (true, r')
              else if (sg =? "+")%char then (false, r')
              else (false, r)
          | EmptyString => (false, r)
          end in
        match span_digits r1 with
        | (EmptyString, _) => (None, s)
        | (d, t) => (Some (neg, d), t)
        end
      else (None, s)
  | EmptyString => (None, s)
  end.

Definition match_number (s : string) : option (number * string) :=
  match match_integer s with
  | None => None
  | Some (neg, i, r) =>
      let (f, r1) := match_frac r in
      let (e, r2) := match_exp r1 in
      Some ({| negative := neg; integer := i; frac := f; exp := e |}, r2)
  end.

(** [int(integer)] when the literal has neither fraction nor exponent,
    [float(integer + frac + exp)] otherwise. *)
Definition number_value (n : number) : pyval :=
  match frac n, exp n with
  | None, None =>
      let v := Py.decimal_value (integer n) in
      PyInt (if negative n then (- v)%Z else v)
  | f, e =>
      let fd := match f with Some d => d | None => EmptyString end in
      let ev :=
        match e with
        | Some (neg, d) =>
            if neg then (- Py.decimal_value d)%Z else Py.decimal_value d
        | None => 0%Z
        end in
      PyFloat (FDec (negative n)
                    (Z.to_N (Py.decimal_value (integer n ++ fd)))
                    (ev - Z.of_nat (String.length fd)))
  end.

(** [s] without its prefix [p], when it has it. *)
Fixpoint after_prefix (p s : string) : option string :=
  match p, s with
  | EmptyString, _ => Some s
  | String a p', String b s' =>
      if (a =? b)%char then after_prefix p' s' else None
  | String _ _, EmptyString => None
  end.

(** The constants and numbers of [_scan_once], tried in its order. *)
Definition scan_atom (s : string) : option (pyval * string) :=
  match after_prefix "null" s with
  | Some r => Some (PyNone, r)
  | None =>
  match after_prefix "true" s with
  | Some r => Some (PyBool true, r)
  | None =>
  match after_prefix "false" s with
  | Some r => Some (PyBool false, r)
  | None =>
  match match_number s with
  | Some (n, r) => Some (number_value n, r)
  | None =>
  match after_prefix "NaN" s with
  | Some r => Some (PyFloat FNaN, r)
  | None =>
  match after_prefix "Infinity" s with
  | Some r => Some (PyFloat (FInf false), r)
  | None =>
  match after_prefix "-Infinity" s with
  | Some r => Some (PyFloat (FInf true), r)
  | None => None
  end end end end end end end.

(** [JSONObject] up to its loop: [s] follows the opening brace. *)
Definition JSONObject
    (object_pairs : list (string * pyval) -> string -> option (pyval * string))
    (s : string) : option (pyval * string) :=
  match skip_ws s with
  | String c r =>
      if (c =? "}")%char then Some (PyDict [], r)
      else if (c =? "034")%char then object_pairs [] r
      else None
  | EmptyString => None
  end.

(** [JSONArray] up to its loop: [s] follows the opening bracket. *)
Definition JSONArray
    (array_values : list pyval -> string -> option (pyval * string))
    (s : string) : option (pyval * string) :=
  match skip_ws s with
  | String c r =>
      if (c =? "]")%char then Some (PyList [], r)
      else array_values [] (String c r)
  | EmptyString => None
  end.

(** [_scan_once] and the [while True] loops of [JSONObject] (entered just
    after the quote that opens a key) and of [JSONArray] (entered at a
    value). *)
Fixpoint scan_once (fuel : nat) (s : string) {struct fuel}
  : option (pyval * string) :=
  match fuel with
  | O => None
  | S fuel' =>
      match s with
      | EmptyString => None
      | String c r =>
          if (c =? "034")%char then
            match scanstring r with
            | Some (str, r') => Some (PyStr str, r')
            | None => None
            end
          else if (c =? "{")%char then JSONObject (object_pairs fuel') r
          else if (c =? "[")%char then JSONArray (array_values fuel') r
          else scan_atom s
      end
  end

with object_pairs (fuel : nat) (pairs : list (string * pyval)) (s : string)
  {struct fuel} : option (pyval * string) :=
  match fuel with
  | O => None
  | S fuel' =>
      match scanstring s with
      | None => None
      | Some (key, r) =>
          match skip_ws r with
          | String c r1 =>
              if (c =? ":")%char then
                match scan_once fuel' (skip_ws r1) with
                | None => None
                | Some (value, r2) =>
                    let pairs := (pairs ++ [(key, value)])%list in
                    match skip_ws r2 with
                    | String d r3 =>
                        if (d =? "}")%char
                        then Some (PyDict (Py.dict_of_pairs pairs), r3)
                        else if (d =? ",")%char then
                          match skip_ws r3 with
                          | String q r4 =>
                              if (q =? "034")%char
                              then object_pairs fuel' pairs r4
                              else None
                          | EmptyString => None
                          end
                        else None
                    | EmptyString => None
                    end
                end
              else None
          | EmptyString => None
          end
      end
  end

with array_values (fuel : nat) (values : list pyval) (s : string)
  {struct fuel} : option (pyval * string) :=
  match fuel with
  | O => None
  | S fuel' =>
      match scan_once fuel' s with
      | None => None
      | Some (value, r) =>
          let values := (values ++ [value])%list in
          match skip_ws r with
          | String d r1 =>
              if (d =? "]")%char then Some (PyList values, r1)
              else if (d =? ",")%char
              then array_values fuel' values (skip_ws r1)
              else None
          | EmptyString => None
          end
      end
  end.

(** [JSONDecoder.decode]: one value between optional whitespace, and
    nothing else. *)
Definition loads (s : string) : option pyval :=
  let s := skip_ws s in
  match scan_once (String.length s) s with
  | Some (v, r) => if Py.is_empty (skip_ws r) then Some v else None
  | None => None
  end.

End Json.

(* ================================================================== *)
(** * [app.py] *)
(* ================================================================== *)

Definition nl : string := String "010"%char EmptyString.

(** A text written with apostrophes where Python has double quotes. *)
Fixpoint quoted (s : string) : string :=
  match s with
  | EmptyString => EmptyString
  | String c r =>
      String (if (c =? "'")%char then "034"%char else c) (quoted r)
  end.

(** One entry of [gantt_data]: the dict built at lines 99-105. *)
Record TimelineRecord : Type := {
  Task : pyval;
  Phase : pyval;
  Start : Z;
  Finish : Z;
  Milestones : string
}.

(** What the calls into Streamlit and Plotly leave on the page;
    [px.timeline] and [st.plotly_chart] together are one event, the chart
    of the records given.  The event stands for the call: what Plotly does
    with records it cannot draw (a label that is a list, a month that does
    not fit 64 bits) is outside the model. *)
Inductive ui_event : Type :=
| st_error (msg : string)
| st_code (body : string)
| st_warning (msg : string)
| st_plotly_chart (gantt_data : list TimelineRecord).

(** The outcome of [model.generate_content(prompt)] followed by
    [response.text]: either of them raises an exception [e] that the
    clause [except Exception] receives (with [msg = str(e)]), or the text
    is there, possibly [None].  An exception of the class
    [json.JSONDecodeError] raised by the service itself is not among these
    outcomes: the clause of line 71 would receive it, and its call
    [st.code(response.text)] would raise in turn. *)
Inductive api_response : Type :=
| ApiRaises (msg : string)
| ApiText (text : option string).

(** ** [generate_roadmap] *)

Definition str_of_int (z : Z) : string :=
  DecimalString.NilZero.string_of_int (Z.to_int z).

(** Lines 33-53: the f-string. *)
Definition prompt (current_status target_role : string) (experience : Z)
  : string :=
  Py.join nl
    [ "";
      "    Create a detailed JSON roadmap for transitioning from:";
      "    " ++ current_status;
      "    To: " ++ target_role;
      "    With " ++ str_of_int experience ++ " years experience.";
      "";
      "    IMPORTANT: You must return ONLY valid JSON with this exact structure:";
      "    {";
      quoted "        'roadmap_name': 'Roadmap for " ++ target_role
        ++ quoted "',";
      quoted "        'gap_analysis': 'analysis text here',";
      quoted "        'timeline': [";
      "            {";
      quoted "                'phase': 'Phase 1 (0-3 months)',";
      quoted "                'focus_areas': ['area1', 'area2'],";
      quoted "                'milestones': ['milestone1', 'milestone2'],";
      quoted "                'tasks': ['task1', 'task2']";
      "            }";
      "        ],";
      quoted "        'estimated_time': '3-6 months'";
      "    }";
      "    " ].

(** Lines 62-66: "Clean response text to extract JSON". *)
Definition clean_response_text (text : string) : string :=
  let response_text := Py.strip text in
  if Py.startswith response_text "```json"
  then Py.strip (Py.slice response_text 7 (-3))
  else if Py.startswith response_text "```"
  then Py.strip (Py.slice response_text 3 (-3))
  else response_text.

Section Generation.

(** The two services [generate_roadmap] calls: the language model, given
    by what it answers to a prompt, and [json.loads]. *)
Variable model : string -> api_response.
Variable json_loads : string -> option pyval.

(** Lines 32-77.  The value returned and the messages shown. *)
Definition generate_roadmap (current_status target_role : string)
    (experience : Z) : pyval * list ui_event :=
  match model (prompt current_status target_role experience) with
  | ApiRaises msg => (PyNone, [st_error ("API Error: " ++ msg)])
  | ApiText None => (PyNone, [st_error "Empty response from API"])
  | ApiText (Some text) =>
      if Py.is_empty text
      then (PyNone, [st_error "Empty response from API"])
      else
        match json_loads (clean_response_text text) with
        | Some roadmap => (roadmap, [])
        | None =>
            (PyNone,
             [st_error "Failed to parse JSON response. Raw response:";
              st_code text])
        end
  end.

(** ** [main], lines 141-148: the "Generate Roadmap" button

    [st.session_state] before and after, and the messages shown. *)
Definition generate_clicked (current_status target_role : string)
    (experience : Z) (session_state : pydict) : pydict * list ui_event :=
  if negb (Py.is_empty current_status) && negb (Py.is_empty target_role)
  then
    let (roadmap, shown) :=
      generate_roadmap current_status target_role experience in
    if Py.truthy roadmap
    then (Py.dict_set session_state "roadmap" roadmap, shown)
    else (session_state, shown)
  else (session_state, [st_warning "Please fill all fields"]).

End Generation.

(** The three failures of the specification, as [generate_roadmap]
    reports them. *)
Definition EmptyResponse : pyval * list ui_event :=
  (PyNone, [st_error "Empty response from API"]).

Definition MalformedResponse (raw : string) : pyval * list ui_event :=
  (PyNone,
   [st_error "Failed to parse JSON response. Raw response:"; st_code raw]).

Definition ServiceCallError (msg : string) : pyval * list ui_event :=
  (PyNone, [st_error ("API Error: " ++ msg)]).

(** ** [plot_timeline] *)

(** Line 90: [phase_name.split("(")[-1].split(")")[0]]; only text has
    [split]. *)
Definition time_range (phase_name : pyval) : result string :=
  match phase_name with
  | PyStr s =>
      bind (Py.getitem_list (Py.split "(" s) (-1)) (fun tail =>
      Py.getitem_list (Py.split ")" tail) 0)
  | _ => Raise AttributeError
  end.

(** Lines 91-93: the two pieces around the dash, and the number their
    digits make. *)
Definition start_end (time_range : string) : result (Z * Z) :=
  match firstn 2 (Py.split "-" time_range) with
  | [start_str; end_str] =>
      bind (Py.int (Py.filter Py.isdigit start_str)) (fun start =>
      bind (Py.int (Py.filter Py.isdigit end_str)) (fun finish =>
      Ok (start, finish)))
  | _ => Raise ValueError
  end.

(** Lines 90-93, the body of the [try]. *)
Definition parse_range (phase_name : pyval) : result (Z * Z) :=
  bind (time_range phase_name) start_end.

(** Lines 89-96: the [try] with its [except]. *)
Definition month_range (phase_name : pyval) : result (Z * Z) :=
  match parse_range phase_name with
  | Ok r => Ok r
  | Raise ValueError | Raise IndexError | Raise AttributeError =>
      Ok (0, 3)%Z
  | Raise e => Raise e
  end.

(** Lines 98-105: the loop over the focus areas of one phase. *)
Fixpoint area_rows (phase phase_name : pyval) (start finish : Z)
    (areas : list pyval) : result (list TimelineRecord) :=
  match areas with
  | [] => Ok []
  | area :: rest =>
      bind (Py.getitem phase "milestones") (fun milestones =>
      bind (Py.join_val nl milestones) (fun joined =>
      bind (area_rows phase phase_name start finish rest) (fun rows =>
      Ok ({| Task := area; Phase := phase_name; Start := start;
             Finish := finish; Milestones := joined |} :: rows))))
  end.

(** Lines 86-105: the body of the loop over the phases. *)
Definition phase_rows (phase : pyval) : result (list TimelineRecord) :=
  bind (Py.getitem phase "phase") (fun phase_name =>
  bind (month_range phase_name) (fun range =>
  bind (Py.getitem phase "focus_areas") (fun focus_areas =>
  bind (Py.iter focus_areas) (fun areas =>
  area_rows phase phase_name (fst range) (snd range) areas)))).

Fixpoint phases_rows (phases : list pyval) : result (list TimelineRecord) :=
  match phases with
  | [] => Ok []
  | phase :: rest =>
      bind (phase_rows phase) (fun rows =>
      bind (phases_rows rest) (fun rows' => Ok (rows ++ rows')%list))
  end.

(** Lines 84-105: [gantt_data] when the loop ends. *)
Definition gantt_data (roadmap_data : pyval)
  : result (list TimelineRecord) :=
  bind (Py.get roadmap_data "timeline" (PyList [])) (fun timeline =>
  bind (Py.iter timeline) phases_rows).

(** Lines 79-127: what is drawn, or the exception that escapes. *)
Definition plot_timeline (roadmap_data : pyval) : result (list ui_event) :=
  if negb (Py.truthy roadmap_data) then Ok []
  else
    bind (gantt_data roadmap_data) (fun rows =>
    match rows with
    | [] => Ok []
    | _ :: _ => Ok [st_plotly_chart rows]
    end).

(** ** [main], lines 129-184: one run of the page *)

(** One entry of [YoutubeSearch(...).to_dict()]: the library builds each
    entry with these two keys, among others. *)
Record video : Type := {
  title : pyval;
  url_suffix : pyval
}.

(** The outcome of [YoutubeSearch(query, max_results=5).to_dict()]: an
    exception [e] (with [msg = str(e)]) or the entries. *)
Inductive search_response : Type :=
| SearchRaises (msg : string)
| SearchResults (results : list video).

(** What one run of [main] does, in order: the calls into Streamlit with
    their argument, and the two requests the results section sends. *)
Inductive page_event : Type :=
| shown (e : ui_event)
| st_title (body : string)
| st_tabs (labels : list string)
| st_subheader (body : pyval)
| st_markdown (body : pyval)
| st_expander (label : string)
| generate_content (request : string)
| YoutubeSearch (query : string).

(** The events of a piece of code, and the exception that ended it, if
    one escaped. *)
Definition page : Type := (list page_event * option exn)%type.

(** [p] and then, unless an exception escaped [p], [q]. *)
Definition and_then (p q : page) : page :=
  match snd p with
  | Some e => p
  | None => (fst p ++ fst q, snd q)%list
  end.

Section Results.

Variable model : string -> api_response.

(** [YoutubeSearch], given by what it answers to a query. *)
Variable youtube_search : string -> search_response.

(** [str(v)] for a value that is not text; an f-string puts a text as it
    is and any other value as [str] gives it. *)
Variable str_other : pyval -> string.

Definition format_value (v : pyval) : string :=
  match v with
  | PyStr s => s
  | _ => str_other v
  end.

(** Lines 161-165: the listing of one phase. *)
Definition show_phase (phase : pyval) : page :=
  match Py.getitem phase "phase" with
  | Raise e => ([], Some e)
  | Ok phase_name =>
      let heading := [st_markdown (PyStr ("### " ++ format_value phase_name))] in
      match bind (Py.getitem phase "focus_areas") (Py.join_val ", ") with
      | Raise e => (heading, Some e)
      | Ok joined =>
          let lines :=
            (heading
             ++ [st_markdown (PyStr ("**Focus Areas:** " ++ joined));
                 st_markdown (PyStr "**Tasks:**")])%list in
          match bind (Py.getitem phase "tasks") Py.iter with
          | Raise e => (lines, Some e)
          | Ok tasks =>
              ((lines
                ++ map (fun task =>
                          st_markdown (PyStr ("- " ++ format_value task)))
                       tasks)%list,
               None)
          end
      end
  end.

(** Lines 160-165: the loop over the phases. *)
Fixpoint show_phases (phases : list pyval) : page :=
  match phases with
  | [] => ([], None)
  | phase :: rest => and_then (show_phase phase) (show_phases rest)
  end.

(** Lines 154-165: the first tab. *)
Definition show_roadmap (roadmap : pyval) : page :=
  match Py.getitem roadmap "roadmap_name" with
  | Raise e => ([], Some e)
  | Ok name =>
      match Py.getitem roadmap "gap_analysis" with
      | Raise e => ([st_subheader name], Some e)
      | Ok gap =>
          let head :=
            [st_subheader name;
             st_markdown (PyStr ("**Gap Analysis:** " ++ format_value gap))] in
          match plot_timeline roadmap with
          | Raise e => (head, Some e)
          | Ok drawn =>
              let head :=
                (head ++ map shown drawn
                 ++ [st_expander "Detailed Timeline"])%list in
              match bind (Py.getitem roadmap "timeline") Py.iter with
              | Raise e => (head, Some e)
              | Ok phases => and_then (head, None) (show_phases phases)
              end
          end
      end
  end.

(** Lines 167-175: the second tab. *)
Definition show_projects (current_status target_role : string)
  : list page_event :=
  let request :=
    "Suggest 3 hands-on projects for " ++ target_role
    ++ " considering: " ++ current_status in
  [st_subheader (PyStr "Recommended Projects"); generate_content request]
  ++ match model request with
     | ApiRaises msg =>
         [shown (st_error ("Failed to generate projects: " ++ msg))]
     | ApiText (Some projects) => [st_markdown (PyStr projects)]
     | ApiText None => [st_markdown PyNone]
     end.

(** Lines 181-182: the loop over the entries, numbered from [i]. *)
Fixpoint resource_lines (i : Z) (results : list video) : list page_event :=
  match results with
  | [] => []
  | v :: rest =>
      st_markdown
        (PyStr (str_of_int i ++ ". [" ++ format_value (title v)
                ++ "](https://youtube.com" ++ format_value (url_suffix v)
                ++ ")"))
      :: resource_lines (i + 1) rest
  end.

(** Lines 177-184: the third tab. *)
Definition show_resources (target_role : string) : list page_event :=
  let query := target_role ++ " learning resources" in
  [st_subheader (PyStr "Learning Resources"); YoutubeSearch query]
  ++ match youtube_search query with
     | SearchRaises msg =>
         [shown (st_error ("YouTube search failed: " ++ msg))]
     | SearchResults results => resource_lines 1 results
     end.

(** Lines 151-184: the results, for the roadmap of the session. *)
Definition show_results (roadmap : pyval)
    (current_status target_role : string) : page :=
  and_then
    (st_tabs ["Roadmap"; "Projects"; "Resources"] :: fst (show_roadmap roadmap),
     snd (show_roadmap roadmap))
    ((show_projects current_status target_role
      ++ show_resources target_role)%list,
     None).

Variable json_loads : string -> option pyval.

(** Lines 129-184: one run of [main], with the values of the three inputs
    and whether the button was clicked. *)
Definition main (current_status target_role : string) (experience : Z)
    (clicked : bool) (session_state : pydict) : pydict * page :=
  let (state, messages) :=
    if clicked
    then generate_clicked model json_loads
           current_status target_role experience session_state
    else (session_state, []) in
  let results :=
    match Py.dict_get state "roadmap" with
    | Some roadmap => show_results roadmap current_status target_role
    | None => ([], None)
    end in
  (state,
   ((st_title "Career Path Planner" :: map shown messages)
    ++ fst results, snd results)%list).

End Results.

(** ** Vocabulary of the statements *)

(** Whether the character occurs in the text. *)
Fixpoint contains (c : ascii) (s : string) : bool :=
  match s with
  | EmptyString => false
  | String a r => (a =? c)%char || contains c r
  end.

(** A digit sequence: one or more of the characters 0 to 9. *)
Definition digit_sequence (s : string) : bool :=
  negb (Py.is_empty s) && Py.forallb_str Py.isdecimal s.

(** A generation that failed, in one of the three ways [generate_roadmap]
    reports. *)
Definition failed (out : pyval * list ui_event) : Prop :=
  out = EmptyResponse
  \/ (exists raw, out = MalformedResponse raw)
  \/ (exists msg, out = ServiceCallError msg).

(** A phase that carries the keys [phase], [focus_areas] and [milestones]
    with a sequence of focus areas and a sequence of texts as milestones,
    as in the data model. *)
Record PhaseView : Type := {
  label : pyval;
  focusAreas : list pyval;
  milestones : list string
}.

Definition carries (phase : pyval) (v : PhaseView) : Prop :=
  exists d,
    phase = PyDict d
    /\ Py.dict_get d "phase" = Some (label v)
    /\ Py.dict_get d "focus_areas" = Some (PyList (focusAreas v))
    /\ Py.dict_get d "milestones" = Some (PyList (map PyStr (milestones v))).

(** The month range [plot_timeline] gives a label: [month_range] never
    raises (lemma [month_range_total]). *)
Definition month_range_of (phase_name : pyval) : Z * Z :=
  match month_range phase_name with
  | Ok r => r
  | Raise _ => (0, 3)%Z
  end.

(** [n] times the digit 1. *)
Definition ones (n : N) : string := N.iter n (String "1") EmptyString.

(** Whether [int] takes that many digits. *)
Definition within_int_limit (s : string) : bool :=
  (N.of_nat (String.length s) <=? Py.int_max_str_digits)%N.

(** ** The specification's side

    Section 4.2 and steps 1 and 2 of section 4.3 of the specification,
    written from its words and not from [app.py]; the theorems compare
    them with [clean_response_text] and [month_range].  Where the words
    leave a case open or differ from what the amended statements say, both
    readings are given. *)
Module Spec.

(** The text before the ending [p], when the text ends with [p]. *)
Fixpoint before_suffix (p s : string) : option string :=
  if (s =? p)%string then Some EmptyString
  else match s with
       | EmptyString => None
       | String a r => option_map (String a) (before_suffix p r)
       end.

(** Section 4.2: "Strip a leading fence marker (either the generic or
    language-tagged form) and a trailing fence marker if present, trimming
    surrounding whitespace": the text that is then decoded. *)
Definition payload (raw : string) : string :=
  let text := Py.strip raw in
  let text :=
    match Json.after_prefix "```json" text with
    | Some rest => rest
    | None =>
        match Json.after_prefix "```" text with
        | Some rest => rest
        | None => text
        end
    end in
  let text :=
    match before_suffix "```" text with
    | Some body => body
    | None => text
    end in
  Py.strip text.

(** The text after the last [c]; the whole text when [c] does not occur. *)
Fixpoint after_last (c : ascii) (s : string) : string :=
  match s with
  | EmptyString => EmptyString
  | String a r =>
      if contains c r then after_last c r
      else if (a =? c)%char then r
      else s
  end.

(** The text before the first [c]; the whole text when [c] does not
    occur. *)
Fixpoint before_first (c : ascii) (s : string) : string :=
  match s with
  | EmptyString => EmptyString
  | String a r =>
      if (a =? c)%char then EmptyString else String a (before_first c r)
  end.

(** The text after the first [c], when [c] occurs. *)
Fixpoint after_first (c : ascii) (s : string) : option string :=
  match s with
  | EmptyString => None
  | String a r => if (a =? c)%char then Some r else after_first c r
  end.

(** "Take the substring after the last [(], then the substring before the
    next [)]", in the amended reading: a parenthesis that is missing leaves
    the text whole. *)
Definition range_text (label : string) : string :=
  before_first ")" (after_last "(" label).


(** "Split on [-], take the first two pieces"; a text without dash has
    fewer than two. *)
Definition pieces (t : string) : option (string * string) :=
  match after_first "-" t with
  | Some rest => Some (before_first "-" t, before_first "-" rest)
  | None => None
  end.

(** "From each piece keep only digit characters and convert to an
    integer".  The digit characters are those of [str.isdigit]; the
    conversion fails when none is kept, when one of those kept is not among
    0 to 9, and when more are kept than [int] takes. *)
Definition number (piece : string) : option Z :=
  let kept := Py.filter Py.isdigit piece in
  if Py.is_empty kept then None
  else if negb (Py.forallb_str Py.isdecimal kept) then None
  else if negb (within_int_limit kept) then None
  else Some (Py.decimal_value kept).

(** Steps 1 and 2 on a range text. *)
Definition months (t : string) : Z * Z :=
  match pieces t with
  | Some (x, y) =>
      match number x, number y with
      | Some a, Some b => (a, b)
      | _, _ => (0, 3)%Z
      end
  | None => (0, 3)%Z
  end.

(** Steps 1 and 2 on the label of a phase; a label that is no text has no
    range. *)
Definition month_range (label : pyval) : Z * Z :=
  match label with
  | PyStr s => months (range_text s)
  | _ => (0, 3)%Z
  end.


End Spec.

(** Step 3 of section 4.3: the records the specification asks for one
    phase, given the months of a label. *)
Definition records_with (range : pyval -> Z * Z) (v : PhaseView)
  : list TimelineRecord :=
  map (fun area =>
         {| Task := area;
            Phase := label v;
            Start := fst (range (label v));
            Finish := snd (range (label v));
            Milestones := Py.join nl (milestones v) |})
      (focusAreas v).

(** With the months of [Spec.month_range], and with those of steps 1 and
    2 as they are worded. *)
Definition records_of : PhaseView -> list TimelineRecord :=
  records_with Spec.month_range.


(** Whether the first character of the text satisfies [f]. *)
Definition head_is (f : ascii -> bool) (s : string) : bool :=
  match s with
  | EmptyString => false
  | String c _ => f c
  end.

(** Whether the text ends with a character [str.strip()] keeps. *)
Fixpoint ends_solid (s : string) : bool :=
  match s with
  | EmptyString => false
  | String c r => if Py.is_empty r then negb (Py.isspace c) else ends_solid r
  end.

(** A character that can continue a number: a digit, the point or the
    letter of the exponent. *)
Definition number_char (c : ascii) : bool :=
  Py.isdecimal c || (c =? ".")%char || (c =? "e")%char || (c =? "E")%char.

(** The first character of a number: a digit or the minus sign. *)
Definition number_start (c : ascii) : bool :=
  Py.isdecimal c || (c =? "-")%char.

(** What the decoder functions owe to the text they read: the text is the
    part read, [body], followed by the part left, [rest]; [body] neither
    starts nor ends with a character [str.strip()] removes, nor starts
    with a backquote; and the same [body] is read the same way in front of
    a continuation [t] (for [scan_once], which may have read a number:
    [rest] itself or a text that cannot continue a number), with any fuel
    of at least its length. *)
Definition scan_once_reads (n : nat) : Prop :=
  forall s v rest,
    Json.scan_once n s = Some (v, rest) ->
    exists body,
      s = body ++ rest
      /\ head_is Py.isspace body = false
      /\ head_is (fun c => (c =? "`")%char) body = false
      /\ ends_solid body = true
      /\ forall n' t,
           String.length body <= n' ->
           head_is number_char t = false \/ t = rest ->
           Json.scan_once n' (body ++ t) = Some (v, t).

Definition object_pairs_reads (n : nat) : Prop :=
  forall pairs s v rest,
    Json.object_pairs n pairs s = Some (v, rest) ->
    exists body,
      s = body ++ rest
      /\ ends_solid body = true
      /\ forall n' t,
           String.length body <= n' ->
           Json.object_pairs n' pairs (body ++ t) = Some (v, t).

Definition array_values_reads (n : nat) : Prop :=
  forall values s v rest,
    Json.array_values n values s = Some (v, rest) ->
    exists body,
      s = body ++ rest
      /\ ends_solid body = true
      /\ forall n' t,
           String.length body <= n' ->
           Json.array_values n' values (body ++ t) = Some (v, t).

(** The first character of a JSON value, as [scan_once] accepts them. *)
Definition value_start (c : ascii) : bool :=
  number_start c
  || (c =? "034")%char || (c =? "{")%char || (c =? "[")%char
  || (c =? "n")%char || (c =? "t")%char || (c =? "f")%char
  || (c =? "N")%char || (c =? "I")%char.

(** A value that cannot be iterated: no list, no text, no dict. *)
Definition scalar (v : pyval) : bool :=
  match v with
  | PyNone | PyBool _ | PyInt _ | PyFloat _ => true
  | PyStr _ | PyList _ | PyDict _ => false
  end.

Definition is_dict (v : pyval) : bool :=
  match v with
  | PyDict _ => true
  | _ => false
  end.

(** A run of [main] sent a request to a service. *)
Definition is_request (e : page_event) : bool :=
  match e with
  | generate_content _ | YoutubeSearch _ => true
  | _ => false
  end.

(** A phase as the detailed listing needs it: the keys [phase],
    [focus_areas] with a list of texts, and [tasks] with a list. *)
Record Listing : Type := {
  heading : pyval;
  areas : list string;
  tasks : list pyval
}.

Definition listed (phase : pyval) (v : Listing) : Prop :=
  exists d,
    phase = PyDict d
    /\ Py.dict_get d "phase" = Some (heading v)
    /\ Py.dict_get d "focus_areas" = Some (PyList (map PyStr (areas v)))
    /\ Py.dict_get d "tasks" = Some (PyList (tasks v)).

(** The lines of the detailed listing for one phase. *)
Definition listing_of (str_other : pyval -> string) (v : Listing)
  : list page_event :=
  [st_markdown (PyStr ("### " ++ format_value str_other (heading v)));
   st_markdown (PyStr ("**Focus Areas:** " ++ Py.join ", " (areas v)));
   st_markdown (PyStr "**Tasks:**")]
  ++ map (fun task =>
            st_markdown (PyStr ("- " ++ format_value str_other task)))
         (tasks v).

(** A video search that finds nothing, and a stand-in for [str] on
    values that are not text, for the examples. *)
Definition no_results : string -> search_response :=
  fun _ => SearchResults [].

Definition unnamed : pyval -> string := fun _ => "?".

(** Lines 40-52: the example of a response that the prompt shows. *)
Definition schema_example (target_role : string) : string :=
  Py.join nl
    [ "    {";
      quoted "        'roadmap_name': 'Roadmap for " ++ target_role
        ++ quoted "',";
      quoted "        'gap_analysis': 'analysis text here',";
      quoted "        'timeline': [";
      "            {";
      quoted "                'phase': 'Phase 1 (0-3 months)',";
      quoted "                'focus_areas': ['area1', 'area2'],";
      quoted "                'milestones': ['milestone1', 'milestone2'],";
      quoted "                'tasks': ['task1', 'task2']";
      "            }";
      "        ],";
      quoted "        'estimated_time': '3-6 months'";
      "    }" ].

(** The roadmap that example describes. *)
Definition example_roadmap (target_role : string) : pyval :=
  PyDict
    [("roadmap_name", PyStr ("Roadmap for " ++ target_role));
     ("gap_analysis", PyStr "analysis text here");
     ("timeline",
      PyList
        [PyDict
           [("phase", PyStr "Phase 1 (0-3 months)");
            ("focus_areas", PyList [PyStr "area1"; PyStr "area2"]);
            ("milestones", PyList [PyStr "milestone1"; PyStr "milestone2"]);
            ("tasks", PyList [PyStr "task1"; PyStr "task2"])]]);
     ("estimated_time", PyStr "3-6 months")].

(** A text that can stand between the quotes of a JSON text as it is: no
    quote, no backslash, no control character. *)
Definition plain (s : string) : bool :=
  Py.forallb_str
    (fun c => negb ((c =? "034")%char || (c =? "\")%char
                    || (Py.code c <? 32)%N)) s.

(** The example of the prompt after the closing quote of the roadmap
    name. *)
Definition example_rest : string :=
  Py.join nl
    [ ",";
      quoted "        'gap_analysis': 'analysis text here',";
      quoted "        'timeline': [";
      "            {";
      quoted "                'phase': 'Phase 1 (0-3 months)',";
      quoted "                'focus_areas': ['area1', 'area2'],";
      quoted "                'milestones': ['milestone1', 'milestone2'],";
      quoted "                'tasks': ['task1', 'task2']";
      "            }";
      "        ],";
      quoted "        'estimated_time': '3-6 months'";
      "    }" ].

(** The record the example gives for one of its focus areas. *)
Definition example_record (area : string) : TimelineRecord :=
  {| Task := PyStr area; Phase := PyStr "Phase 1 (0-3 months)";
     Start := 0; Finish := 3;
     Milestones := "milestone1" ++ nl ++ "milestone2" |}.


(** The payload of example scenario 1 of the specification. *)
Definition scenario1 : string :=
  quoted "{'roadmap_name':'X','gap_analysis':'g','timeline':[{'phase':'Phase 1 (0-3 months)','focus_areas':['SQL'],'milestones':['m1'],'tasks':['t1']}],'estimated_time':'3-6 months'}".

(** The value the payload of scenario 1 decodes to. *)
Definition scenario1_roadmap : pyval :=
  PyDict
    [("roadmap_name", PyStr "X"); ("gap_analysis", PyStr "g");
     ("timeline",
      PyList
        [PyDict
           [("phase", PyStr "Phase 1 (0-3 months)");
            ("focus_areas", PyList [PyStr "SQL"]);
            ("milestones", PyList [PyStr "m1"]);
            ("tasks", PyList [PyStr "t1"])]]);
     ("estimated_time", PyStr "3-6 months")].

(** A language model that answers every prompt with the same text. *)
Definition answers (raw : string) : string -> api_response :=
  fun _ => ApiText (Some raw).

(* ================================================================== *)
(** * Facts about text *)
(* ================================================================== *)

(** A property of one character, decided by running through the 256 of
    them. *)
Ltac each_char c :=
  destruct c as [[] [] [] [] [] [] [] []]; vm_compute; try reflexivity;
  try discriminate.

Section TextFacts.

Lemma append_nil_r (s : string) : s ++ "" = s.
Proof. induction s as [|c s IH]; simpl; [reflexivity | now rewrite IH]. Qed.

Lemma append_assoc (a b c : string) : (a ++ b) ++ c = a ++ (b ++ c).
Proof. induction a as [|x a IH]; simpl; [reflexivity | now rewrite IH]. Qed.

Lemma length_append (a b : string) :
  String.length (a ++ b) = String.length a + String.length b.
Proof. induction a as [|x a IH]; simpl; [reflexivity | now rewrite IH]. Qed.

Lemma contains_append (c : ascii) (a b : string) :
  contains c (a ++ b) = contains c a || contains c b.
Proof.
  induction a as [|x a IH]; simpl; [reflexivity|].
  now rewrite IH, orb_assoc.
Qed.

Lemma filter_append (f : ascii -> bool) (a b : string) :
  Py.filter f (a ++ b) = Py.filter f a ++ Py.filter f b.
Proof.
  induction a as [|x a IH]; simpl; [reflexivity|].
  destruct (f x); simpl; now rewrite IH.
Qed.

Lemma append_eq_nil (a b : string) : a ++ b = "" -> a = "" /\ b = "".
Proof. destruct a; simpl; [auto | discriminate]. Qed.

(** *** [split] *)

Lemma split_not_nil (c : ascii) (s : string) : Py.split c s <> [].
Proof.
  induction s as [|a s IH]; simpl; [discriminate|].
  destruct (a =? c)%char; [discriminate|].
  destruct (Py.split c s); [contradiction | discriminate].
Qed.

Lemma split_without (c : ascii) (s : string) :
  contains c s = false -> Py.split c s = [s].
Proof.
  induction s as [|a s IH]; simpl; [reflexivity|].
  intros H. apply orb_false_iff in H as [Ha Hs].
  rewrite Ha, (IH Hs). reflexivity.
Qed.

Lemma split_append (c : ascii) (x y : string) :
  Py.split c (x ++ String c y) = (Py.split c x ++ Py.split c y)%list.
Proof.
  induction x as [|a x IH]; simpl.
  - now rewrite Ascii.eqb_refl.
  - destruct (a =? c)%char; rewrite IH; [reflexivity|].
    pose proof (split_not_nil c x) as Hx.
    destruct (Py.split c x); [contradiction | reflexivity].
Qed.

(** The first piece is a prefix of the text. *)
Lemma split_head (c : ascii) (s : string) :
  exists p ps r, Py.split c s = p :: ps /\ s = p ++ r.
Proof.
  induction s as [|a s (p & ps & r & Hs & Hr)]; simpl.
  - exists "", [], "". auto.
  - destruct (a =? c)%char.
    + exists "", (Py.split c s), (String a s). auto.
    + rewrite Hs. exists (String a p), ps, r. simpl. now rewrite <- Hr.
Qed.

Lemma split_head_append (c : ascii) (x y : string) :
  contains c x = false ->
  exists p ps r,
    Py.split c (x ++ y) = (x ++ p) :: ps /\ y = p ++ r.
Proof.
  induction x as [|a x IH]; simpl; intros H.
  - destruct (split_head c y) as (p & ps & r & Hs & Hr).
    exists p, ps, r. auto.
  - apply orb_false_iff in H as [Ha Hx]. rewrite Ha.
    destruct (IH Hx) as (p & ps & r & Hs & Hr).
    rewrite Hs. exists p, ps, r. auto.
Qed.

(** *** Indexing *)

Lemma getitem_list_last {A : Type} (l : list A) (d : A) :
  l <> [] -> Py.getitem_list l (-1) = Ok (last l d).
Proof.
  intros Hl. unfold Py.getitem_list.
  destruct l as [|x l]; [contradiction|]. clear Hl.
  change (-1 <? 0)%Z with true. cbv iota.
  replace (-1 + Z.of_nat (List.length (x :: l)))%Z
    with (Z.of_nat (List.length l)) by (simpl List.length; lia).
  destruct (Z.ltb_spec (Z.of_nat (List.length l)) 0) as [H|_]; [lia|].
  rewrite Nat2Z.id.
  revert x. induction l as [|y l IH]; intros x; [reflexivity|].
  simpl List.length. simpl nth_error. simpl nth_error in IH.
  rewrite (IH y). reflexivity.
Qed.

Lemma getitem_list_head {A : Type} (x : A) (l : list A) :
  Py.getitem_list (x :: l) 0 = Ok x.
Proof. reflexivity. Qed.

Lemma last_append_cons {A : Type} (l : list A) (x : A) (m : list A) (d : A) :
  last (l ++ x :: m) d = last (x :: m) d.
Proof.
  induction l as [|y l IH]; [reflexivity|].
  change ((y :: l) ++ x :: m)%list with (y :: (l ++ x :: m))%list.
  rewrite <- IH. simpl. destruct (l ++ x :: m)%list eqn:E; [|reflexivity].
  destruct l; discriminate.
Qed.

End TextFacts.

(** Concatenations brought to one shape, and the lengths in [H] to sums. *)
Ltac right_nested :=
  repeat first [ rewrite append_assoc | progress cbn [append] ].

Ltac lengths H :=
  repeat first [ rewrite length_append in H
               | progress cbn [String.length] in H ].

(* ================================================================== *)
(** * The month range of a phase label *)
(* ================================================================== *)

Section MonthRange.

Lemma isdecimal_not_space (c : ascii) :
  Py.isdecimal c = true -> Py.int_space c = false.
Proof. each_char c. Qed.

Lemma isdecimal_solid (c : ascii) :
  Py.isdecimal c = true -> Py.isspace c = false.
Proof. each_char c. Qed.

Lemma isdecimal_isdigit (c : ascii) :
  Py.isdecimal c = true -> Py.isdigit c = true.
Proof. each_char c. Qed.

Lemma isdecimal_not_mark (c : ascii) :
  Py.isdecimal c = true ->
  (c =? "-")%char = false /\ (c =? "+")%char = false
  /\ (c =? "(")%char = false /\ (c =? ")")%char = false.
Proof. each_char c; intros _; repeat split. Qed.

Lemma rstrip_by_none (f : ascii -> bool) (s : string) :
  Py.forallb_str (fun c => negb (f c)) s = true -> Py.rstrip_by f s = s.
Proof.
  induction s as [|c s IH]; simpl; [reflexivity|].
  intros H. apply andb_true_iff in H as [Hc Hs].
  rewrite (IH Hs). apply negb_true_iff in Hc. rewrite Hc.
  now rewrite andb_false_r.
Qed.

Lemma lstrip_by_none (f : ascii -> bool) (s : string) :
  Py.forallb_str (fun c => negb (f c)) s = true -> Py.lstrip_by f s = s.
Proof.
  destruct s as [|c s]; simpl; [reflexivity|].
  intros H. apply andb_true_iff in H as [Hc _].
  apply negb_true_iff in Hc. now rewrite Hc.
Qed.

Lemma forallb_str_impl (f g : ascii -> bool) (s : string) :
  (forall c, f c = true -> g c = true) ->
  Py.forallb_str f s = true -> Py.forallb_str g s = true.
Proof.
  intros Hfg. induction s as [|c s IH]; simpl; [reflexivity|].
  intros H. apply andb_true_iff in H as [Hc Hs].
  now rewrite (Hfg c Hc), (IH Hs).
Qed.

(** [int] finds no whitespace to remove around digits. *)
Lemma strip_decimal (s : string) :
  Py.forallb_str Py.isdecimal s = true ->
  Py.rstrip_by Py.int_space (Py.lstrip_by Py.int_space s) = s.
Proof.
  intros H.
  assert (Py.forallb_str (fun c => negb (Py.int_space c)) s = true) as Hs.
  { revert H. apply forallb_str_impl. intros c Hc.
    now rewrite (isdecimal_not_space c Hc). }
  now rewrite (lstrip_by_none _ s Hs), (rstrip_by_none _ s Hs).
Qed.

Lemma digits_of_literal_decimal (s : string) (prev : bool) :
  Py.forallb_str Py.isdecimal s = true ->
  s <> "" \/ prev = true ->
  Py.digits_of_literal prev s = Some s.
Proof.
  revert prev. induction s as [|c s IH]; simpl; intros prev H Hne.
  - destruct Hne as [Hne | ->]; [contradiction | reflexivity].
  - apply andb_true_iff in H as [Hc Hs]. rewrite Hc.
    rewrite (IH true Hs); [reflexivity | now right].
Qed.

Lemma filter_decimal (s : string) :
  Py.forallb_str Py.isdecimal s = true -> Py.filter Py.isdigit s = s.
Proof.
  induction s as [|c s IH]; simpl; [reflexivity|].
  intros H. apply andb_true_iff in H as [Hc Hs].
  now rewrite (isdecimal_isdigit c Hc), (IH Hs).
Qed.

Lemma contains_decimal (c : ascii) (s : string) :
  Py.isdecimal c = false ->
  Py.forallb_str Py.isdecimal s = true -> contains c s = false.
Proof.
  intros Hc. induction s as [|a s IH]; simpl; [reflexivity|].
  intros H. apply andb_true_iff in H as [Ha Hs]. rewrite (IH Hs).
  destruct (Ascii.eqb_spec a c) as [->|_]; [congruence | reflexivity].
Qed.

Lemma over_int_limit (s : string) :
  (Py.int_max_str_digits <? N.of_nat (String.length s))%N
  = negb (within_int_limit s).
Proof. unfold within_int_limit. apply N.ltb_antisym. Qed.

(** [int] on a digit sequence is the number it denotes, up to the limit on
    the number of digits. *)
Lemma int_digit_sequence (s : string) :
  digit_sequence s = true ->
  Py.int s = if within_int_limit s then Ok (Py.decimal_value s)
             else Raise ValueError.
Proof.
  unfold digit_sequence. intros H. apply andb_true_iff in H as [Hne Hd].
  unfold Py.int. rewrite (strip_decimal s Hd).
  destruct s as [|c r]; [discriminate|].
  pose proof Hd as Hd'. cbn [Py.forallb_str] in Hd'.
  apply andb_true_iff in Hd' as [Hc _].
  destruct (isdecimal_not_mark c Hc) as (-> & -> & _).
  rewrite Hc, digits_of_literal_decimal by (auto; left; discriminate).
  rewrite over_int_limit, Z.mul_1_l.
  now destruct (within_int_limit (String c r)).
Qed.

(** [int] raises nothing but [ValueError]. *)
Lemma int_raises (s : string) (e : exn) :
  Py.int s = Raise e -> e = ValueError.
Proof.
  unfold Py.int.
  set (t := Py.rstrip_by Py.int_space (Py.lstrip_by Py.int_space s)).
  destruct (match t with
            | String c r =>
                if (c =? "-")%char then ((-1)%Z, r)
                else if (c =? "+")%char then (1%Z, r)
                else (1%Z, t)
            | EmptyString => (1%Z, t)
            end) as [sign body].
  destruct body as [|c r]; [congruence|].
  destruct (Py.isdecimal c); [|congruence].
  destruct (Py.digits_of_literal false (String c r)) as [ds|]; [|congruence].
  destruct (Py.int_max_str_digits <? N.of_nat (String.length ds))%N;
    congruence.
Qed.

Lemma int_empty : Py.int "" = Raise ValueError.
Proof. reflexivity. Qed.

(** *** Line 90 *)

(** The text between the last opening parenthesis and the closing one
    that follows it. *)
Lemma time_range_parenthesised (pre inner post : string) :
  contains "(" inner = false ->
  contains ")" inner = false ->
  contains "(" post = false ->
  time_range (PyStr (pre ++ "(" ++ inner ++ ")" ++ post)) = Ok inner.
Proof.
  intros Hi1 Hi2 Hp. unfold time_range.
  change (pre ++ "(" ++ inner ++ ")" ++ post)
    with (pre ++ String "(" (inner ++ String ")" post)).
  rewrite split_append.
  assert (contains "(" (inner ++ String ")" post) = false) as Hc.
  { rewrite contains_append, Hi1. simpl. exact Hp. }
  rewrite (split_without _ _ Hc).
  rewrite (getitem_list_last _ "")
    by (destruct (Py.split "(" pre); discriminate).
  rewrite last_append_cons. simpl last. simpl bind.
  rewrite split_append, (split_without _ _ Hi2). reflexivity.
Qed.


(** [time_range] raises nothing on text. *)
Lemma time_range_text (s : string) : exists t, time_range (PyStr s) = Ok t.
Proof.
  unfold time_range.
  rewrite (getitem_list_last _ "") by apply split_not_nil. simpl.
  pose proof (split_not_nil ")" (last (Py.split "(" s) "")) as H.
  destruct (Py.split ")" (last (Py.split "(" s) "")) as [|t l];
    [contradiction|].
  exists t. reflexivity.
Qed.

(** *** Lines 91-93 *)



Lemma start_end_range (x b u : string) :
  contains "-" x = false ->
  contains "-" b = false ->
  exists p r,
    u = p ++ r
    /\ start_end (x ++ "-" ++ b ++ u) =
       bind (Py.int (Py.filter Py.isdigit x)) (fun start =>
       bind (Py.int (Py.filter Py.isdigit (b ++ p))) (fun finish =>
       Ok (start, finish))).
Proof.
  intros Hx Hb. unfold start_end.
  change (x ++ "-" ++ b ++ u) with (x ++ String "-" (b ++ u)).
  rewrite split_append, (split_without _ _ Hx).
  destruct (split_head_append "-" b u Hb) as (p & ps & r & Hs & Hr).
  rewrite Hs. exists p, r. split; [exact Hr | reflexivity].
Qed.


Lemma start_end_raises (t : string) (e : exn) :
  start_end t = Raise e -> e = ValueError.
Proof.
  unfold start_end.
  destruct (firstn 2 (Py.split "-" t)) as [|a [|b [|c l]]]; try congruence.
  destruct (Py.int (Py.filter Py.isdigit a)) as [v|e1] eqn:E1; simpl.
  - destruct (Py.int (Py.filter Py.isdigit b)) as [w|e2] eqn:E2; simpl;
      [discriminate|].
    intros [= <-]. exact (int_raises _ _ E2).
  - intros [= <-]. exact (int_raises _ _ E1).
Qed.

(** *** Lines 89-96 *)


(** The [except] clause catches whatever the [try] can raise. *)
Lemma month_range_total (phase_name : pyval) :
  month_range phase_name = Ok (month_range_of phase_name).
Proof.
  unfold month_range_of, month_range.
  destruct (parse_range phase_name) as [r|e] eqn:E; [reflexivity|].
  unfold parse_range in E.
  destruct phase_name as [| | | |s| |];
    try (simpl in E; injection E as <-; reflexivity).
  destruct (time_range_text s) as [t Ht]. rewrite Ht in E. simpl in E.
  now rewrite (start_end_raises _ _ E).
Qed.

End MonthRange.

(* ================================================================== *)
(** * The month range as the specification gives it *)
(* ================================================================== *)

Section SpecifiedRange.

Lemma isdigit_plain (c : ascii) :
  Py.isdigit c = true ->
  Py.int_space c = false
  /\ (c =? "-")%char = false /\ (c =? "+")%char = false
  /\ (c =? "_")%char = false.
Proof. each_char c; intros _; repeat split. Qed.

Lemma forallb_filter (f : ascii -> bool) (s : string) :
  Py.forallb_str f (Py.filter f s) = true.
Proof.
  induction s as [|c s IH]; simpl; [reflexivity|].
  destruct (f c) eqn:Hc; [simpl; now rewrite Hc | exact IH].
Qed.

(** A digit that is no decimal digit spoils the literal. *)
Lemma digits_of_literal_spoiled (s : string) (prev : bool) :
  Py.forallb_str Py.isdigit s = true ->
  Py.forallb_str Py.isdecimal s = false ->
  Py.digits_of_literal prev s = None.
Proof.
  revert prev. induction s as [|c s IH]; intros prev Hd Hn; [discriminate|].
  cbn [Py.forallb_str] in Hd, Hn. apply andb_true_iff in Hd as [Hc Hs].
  cbn [Py.digits_of_literal].
  destruct (Py.isdecimal c) eqn:Hdec.
  - rewrite (IH true Hs Hn). reflexivity.
  - destruct (isdigit_plain c Hc) as (_ & _ & _ & ->). reflexivity.
Qed.

(** [int] on the digits [filter(str.isdigit, ...)] keeps: their number
    when there is one digit at least, all are decimal digits and there are
    no more of them than [int] takes; [ValueError] otherwise. *)
Lemma int_of_digits (s : string) :
  Py.forallb_str Py.isdigit s = true ->
  Py.int s = if digit_sequence s && within_int_limit s
             then Ok (Py.decimal_value s)
             else Raise ValueError.
Proof.
  intros Hd. destruct (digit_sequence s) eqn:Hseq.
  - rewrite (int_digit_sequence s Hseq). reflexivity.
  - cbn [andb].
    destruct s as [|c r]; [reflexivity|].
    unfold digit_sequence in Hseq. cbn [Py.is_empty negb andb] in Hseq.
    unfold Py.int.
    assert (Py.forallb_str (fun x => negb (Py.int_space x)) (String c r)
            = true) as Hsp.
    { revert Hd. apply forallb_str_impl. intros x Hx.
      now destruct (isdigit_plain x Hx) as (-> & _). }
    rewrite (lstrip_by_none _ _ Hsp), (rstrip_by_none _ _ Hsp).
    pose proof Hd as Hd'. cbn [Py.forallb_str] in Hd'.
    apply andb_true_iff in Hd' as [Hc _].
    destruct (isdigit_plain c Hc) as (_ & -> & -> & _).
    destruct (Py.isdecimal c); [|reflexivity].
    now rewrite (digits_of_literal_spoiled _ false Hd Hseq).
Qed.

(** *** Line 90 and the range text *)

Lemma split_contains (c : ascii) (s : string) :
  contains c s = true -> exists p q qs, Py.split c s = p :: q :: qs.
Proof.
  induction s as [|a s IH]; [discriminate|].
  cbn [contains Py.split]. intros H.
  pose proof (split_not_nil c s) as Hne.
  destruct (a =? c)%char.
  - destruct (Py.split c s) as [|q qs]; [contradiction|].
    now exists "", q, qs.
  - cbn [orb] in H. destruct (IH H) as (p & q & qs & ->).
    now exists (String a p), q, qs.
Qed.

Lemma last_split (c : ascii) (s : string) :
  last (Py.split c s) "" = Spec.after_last c s.
Proof.
  induction s as [|a s IH]; [reflexivity|].
  cbn [Py.split Spec.after_last].
  destruct (contains c s) eqn:Hc.
  - destruct (split_contains c s Hc) as (p & q & qs & E).
    rewrite <- IH, E. now destruct (a =? c)%char.
  - rewrite (split_without c s Hc). now destruct (a =? c)%char.
Qed.

Lemma head_split (c : ascii) (s : string) :
  exists ps, Py.split c s = Spec.before_first c s :: ps.
Proof.
  induction s as [|a s [ps IH]]; [now exists []|].
  cbn [Py.split Spec.before_first]. destruct (a =? c)%char.
  - now exists (Py.split c s).
  - rewrite IH. now exists ps.
Qed.

Lemma time_range_specified (s : string) :
  time_range (PyStr s) = Ok (Spec.range_text s).
Proof.
  unfold time_range, Spec.range_text.
  rewrite (getitem_list_last _ "") by apply split_not_nil.
  cbn [bind]. rewrite last_split.
  destruct (head_split ")" (Spec.after_last "(" s)) as [ps ->].
  apply getitem_list_head.
Qed.

(** *** Lines 91-93 and the two numbers *)

Lemma split_after_first (c : ascii) (s : string) :
  Py.split c s
  = match Spec.after_first c s with
    | Some rest => Spec.before_first c s :: Py.split c rest
    | None => [s]
    end.
Proof.
  induction s as [|a s IH]; [reflexivity|].
  cbn [Py.split Spec.after_first Spec.before_first].
  destruct (a =? c)%char; [reflexivity|].
  rewrite IH. now destruct (Spec.after_first c s).
Qed.

Lemma int_kept (piece : string) :
  Py.int (Py.filter Py.isdigit piece)
  = match Spec.number piece with
    | Some z => Ok z
    | None => Raise ValueError
    end.
Proof.
  rewrite int_of_digits by apply forallb_filter.
  unfold Spec.number, digit_sequence.
  destruct (Py.is_empty (Py.filter Py.isdigit piece)); [reflexivity|].
  destruct (Py.forallb_str Py.isdecimal (Py.filter Py.isdigit piece));
    [|reflexivity].
  now destruct (within_int_limit (Py.filter Py.isdigit piece)).
Qed.

Lemma start_end_specified (t : string) :
  start_end t
  = match Spec.pieces t with
    | Some (x, y) =>
        match Spec.number x, Spec.number y with
        | Some a, Some b => Ok (a, b)
        | _, _ => Raise ValueError
        end
    | None => Raise ValueError
    end.
Proof.
  unfold start_end, Spec.pieces. rewrite (split_after_first "-" t).
  destruct (Spec.after_first "-" t) as [rest|]; [|reflexivity].
  destruct (head_split "-" rest) as [ps ->]. cbn [firstn].
  rewrite !int_kept.
  destruct (Spec.number (Spec.before_first "-" t)); [|reflexivity].
  cbn [bind].
  now destruct (Spec.number (Spec.before_first "-" rest)).
Qed.

(** *** Lines 89-96: the code does steps 1 and 2 *)

Lemma month_range_specified (label : pyval) :
  month_range label = Ok (Spec.month_range label).
Proof.
  unfold month_range, parse_range.
  destruct label as [| | | |s| |]; try reflexivity.
  rewrite time_range_specified. cbn [bind Spec.month_range].
  rewrite start_end_specified. unfold Spec.months.
  destruct (Spec.pieces (Spec.range_text s)) as [[x y]|]; [|reflexivity].
  destruct (Spec.number x); [|reflexivity].
  now destruct (Spec.number y).
Qed.


End SpecifiedRange.

(* ================================================================== *)
(** * The decoder reads a value and nothing of what follows it *)
(* ================================================================== *)

Section DecoderFacts.

Lemma head_is_append (f : ascii -> bool) (a b : string) :
  a <> "" -> head_is f (a ++ b) = head_is f a.
Proof. destruct a; [contradiction | reflexivity]. Qed.

Lemma ends_solid_not_nil (s : string) : ends_solid s = true -> s <> "".
Proof. destruct s; [discriminate | discriminate]. Qed.

Lemma ends_solid_append (a b : string) :
  b <> "" -> ends_solid (a ++ b) = ends_solid b.
Proof.
  intros Hb. induction a as [|c a IH]; simpl; [reflexivity|].
  destruct (a ++ b) eqn:E; [|exact IH].
  apply append_eq_nil in E as [_ E]. contradiction.
Qed.

Lemma ends_solid_char (a : string) (c : ascii) :
  Py.isspace c = false -> ends_solid (a ++ String c "") = true.
Proof.
  intros Hc. rewrite ends_solid_append by discriminate. simpl. now rewrite Hc.
Qed.

Lemma rstrip_solid (s : string) : ends_solid s = true -> Py.rstrip_by Py.isspace s = s.
Proof.
  induction s as [|c s IH]; simpl; [reflexivity|].
  destruct s as [|d s'].
  - simpl. intros H. apply negb_true_iff in H. now rewrite H.
  - intros H. rewrite (IH H). reflexivity.
Qed.

Lemma rstrip_space (w : string) :
  Py.forallb_str Py.isspace w = true -> Py.rstrip_by Py.isspace w = "".
Proof.
  induction w as [|c w IH]; simpl; [reflexivity|].
  intros H. apply andb_true_iff in H as [Hc Hw]. now rewrite (IH Hw), Hc.
Qed.

Lemma rstrip_append_space (s w : string) :
  Py.forallb_str Py.isspace w = true -> Py.rstrip_by Py.isspace (s ++ w) = Py.rstrip_by Py.isspace s.
Proof.
  intros Hw. induction s as [|c s IH]; simpl.
  - now apply rstrip_space.
  - now rewrite IH.
Qed.

Lemma lstrip_append_space (w s : string) :
  Py.forallb_str Py.isspace w = true -> Py.lstrip_by Py.isspace (w ++ s) = Py.lstrip_by Py.isspace s.
Proof.
  induction w as [|c w IH]; simpl; [reflexivity|].
  intros H. apply andb_true_iff in H as [Hc Hw]. now rewrite Hc, (IH Hw).
Qed.

Lemma lstrip_head (s : string) :
  s <> "" -> head_is Py.isspace s = false -> Py.lstrip_by Py.isspace s = s.
Proof.
  destruct s as [|c s]; [contradiction|]. simpl. now intros _ ->.
Qed.

(** *** Whitespace of the decoder *)

Lemma is_ws_isspace (c : ascii) : Json.is_ws c = true -> Py.isspace c = true.
Proof. each_char c. Qed.

Lemma ws_is_space (w : string) :
  Py.forallb_str Json.is_ws w = true -> Py.forallb_str Py.isspace w = true.
Proof. apply forallb_str_impl, is_ws_isspace. Qed.

Lemma skip_ws_spec (s : string) :
  exists w,
    s = w ++ Json.skip_ws s
    /\ Py.forallb_str Json.is_ws w = true
    /\ head_is Json.is_ws (Json.skip_ws s) = false.
Proof.
  induction s as [|c s (w & Hs & Hw & Hh)]; simpl.
  - exists "". auto.
  - destruct (Json.is_ws c) eqn:Hc.
    + exists (String c w). simpl. rewrite Hc, Hw, <- Hs. auto.
    + exists "". simpl. auto.
Qed.

Lemma skip_ws_append (w s : string) :
  Py.forallb_str Json.is_ws w = true ->
  Json.skip_ws (w ++ s) = Json.skip_ws s.
Proof.
  induction w as [|c w IH]; simpl; [reflexivity|].
  intros H. apply andb_true_iff in H as [Hc Hw]. now rewrite Hc, (IH Hw).
Qed.

Lemma skip_ws_head (s : string) :
  head_is Json.is_ws s = false -> Json.skip_ws s = s.
Proof. destruct s as [|c s]; simpl; [reflexivity | now intros ->]. Qed.

Lemma skip_ws_all (w : string) :
  Py.forallb_str Json.is_ws w = true -> Json.skip_ws w = "".
Proof.
  induction w as [|c w IH]; simpl; [reflexivity|].
  intros H. apply andb_true_iff in H as [Hc Hw]. now rewrite Hc, (IH Hw).
Qed.

Lemma skip_ws_nil (s : string) :
  Json.skip_ws s = "" -> Py.forallb_str Json.is_ws s = true.
Proof.
  induction s as [|c s IH]; simpl; [reflexivity|].
  destruct (Json.is_ws c); [exact IH | discriminate].
Qed.

(** *** Text literals *)

Lemma cons_char_some c r str rest :
  Json.cons_char c r = Some (str, rest) ->
  exists str', r = Some (str', rest) /\ str = String c str'.
Proof.
  destruct r as [[str' rest']|]; simpl; [|discriminate].
  intros [= <- <-]. eauto.
Qed.

Lemma scanstring_tail_bounded (n : nat) :
  forall s str rest,
    String.length s <= n ->
    Json.scanstring s = Some (str, rest) ->
    exists body,
      s = body ++ rest
      /\ ends_solid body = true
      /\ forall t, Json.scanstring (body ++ t) = Some (str, t).
Proof.
  induction n as [|n IH]; intros s str rest Hlen H.
  - destruct s; [discriminate | simpl in Hlen; lia].
  - destruct s as [|c r]; [discriminate|]. simpl in Hlen.
    simpl in H.
    destruct (c =? "034")%char eqn:Hq.
    { injection H as <- <-. apply Ascii.eqb_eq in Hq as ->.
      exists (String "034" ""). repeat split. }
    destruct (c =? "\")%char eqn:Hb.
    { apply Ascii.eqb_eq in Hb as ->.
      destruct r as [|esc r1]; [discriminate|].
      destruct (esc =? "u")%char eqn:Hu.
      - apply Ascii.eqb_eq in Hu as ->.
        destruct r1 as [|h1 [|h2 [|h3 [|h4 r2]]]]; try discriminate.
        destruct (Json.decode_uXXXX h1 h2 h3 h4) as [uni|] eqn:Hd;
          [|discriminate].
        destruct (uni <? 256)%N eqn:Hlt; [|discriminate].
        apply cons_char_some in H as (str' & H & ->).
        apply IH in H as (body & -> & Hsolid & Ht);
          [|simpl in Hlen; lia].
        exists (String "\" (String "u"
                 (String h1 (String h2 (String h3 (String h4 body)))))).
        split; [reflexivity|]. split.
        { change (ends_solid (("\u" ++ String h1 (String h2 (String h3
                   (String h4 ""))))  ++ body) = true).
          rewrite ends_solid_append; [exact Hsolid|].
          now apply ends_solid_not_nil. }
        intros t. simpl. rewrite Hd, Hlt, Ht. reflexivity.
      - destruct (Json.BACKSLASH esc) as [ch|] eqn:He; [|discriminate].
        apply cons_char_some in H as (str' & H & ->).
        apply IH in H as (body & -> & Hsolid & Ht);
          [|simpl in Hlen; lia].
        exists (String "\" (String esc body)).
        split; [reflexivity|]. split.
        { change (ends_solid ((String "\" (String esc "")) ++ body) = true).
          rewrite ends_solid_append; [exact Hsolid|].
          now apply ends_solid_not_nil. }
        intros t. simpl. rewrite Hu, He, Ht. reflexivity. }
    destruct (Py.code c <? 32)%N eqn:Hctl; [discriminate|].
    apply cons_char_some in H as (str' & H & ->).
    apply IH in H as (body & -> & Hsolid & Ht); [|lia].
    exists (String c body).
    split; [reflexivity|]. split.
    { change (ends_solid ((String c "") ++ body) = true).
      rewrite ends_solid_append; [exact Hsolid|].
      now apply ends_solid_not_nil. }
    intros t. simpl. rewrite Hq, Hb, Hctl, Ht. reflexivity.
Qed.

Lemma scanstring_tail (s str rest : string) :
  Json.scanstring s = Some (str, rest) ->
  exists body,
    s = body ++ rest
    /\ ends_solid body = true
    /\ forall t, Json.scanstring (body ++ t) = Some (str, t).
Proof. apply (scanstring_tail_bounded (String.length s)). lia. Qed.

(** *** Numbers *)

Lemma span_digits_spec (s d r : string) :
  Json.span_digits s = (d, r) ->
  s = d ++ r
  /\ Py.forallb_str Py.isdecimal d = true
  /\ head_is Py.isdecimal r = false.
Proof.
  revert d r. induction s as [|c s IH]; simpl; intros d r H.
  - injection H as <- <-. auto.
  - destruct (Py.isdecimal c) eqn:Hc.
    + destruct (Json.span_digits s) as [d' t] eqn:E.
      injection H as <- <-.
      destruct (IH d' t eq_refl) as (-> & Hd & Ht).
      simpl. rewrite Hc, Hd. auto.
    + injection H as <- <-. simpl. auto.
Qed.

Lemma span_digits_append (d t : string) :
  Py.forallb_str Py.isdecimal d = true ->
  head_is Py.isdecimal t = false ->
  Json.span_digits (d ++ t) = (d, t).
Proof.
  intros Hd Ht. induction d as [|c d IH]; cbn [append Json.span_digits].
  - destruct t as [|c t]; [reflexivity|].
    cbn [head_is] in Ht. cbn [Json.span_digits]. now rewrite Ht.
  - cbn [Py.forallb_str] in Hd. apply andb_true_iff in Hd as [Hc Hd].
    now rewrite Hc, (IH Hd).
Qed.

Lemma decimal_ends_solid (c : ascii) (d : string) :
  Py.forallb_str Py.isdecimal (String c d) = true ->
  ends_solid (String c d) = true.
Proof.
  revert c. induction d as [|x d IH]; intros c H.
  - simpl in *. apply andb_true_iff in H as [Hc _].
    now rewrite (isdecimal_solid c Hc).
  - change (ends_solid (String x d) = true). apply IH.
    simpl in H. apply andb_true_iff in H as [_ H]. exact H.
Qed.

Lemma number_char_head (t : string) :
  head_is number_char t = false ->
  head_is Py.isdecimal t = false
  /\ head_is (fun c => (c =? ".")%char) t = false
  /\ head_is (fun c => (c =? "e")%char || (c =? "E")%char) t = false.
Proof.
  destruct t as [|c t]; simpl; [auto|]. unfold number_char.
  intros H. apply orb_false_iff in H as [H HE].
  apply orb_false_iff in H as [H He].
  apply orb_false_iff in H as [Hd Hp].
  now rewrite Hd, Hp, He, HE.
Qed.

Lemma match_integer_tail (s : string) (neg : bool) (i r : string) :
  Json.match_integer s = Some (neg, i, r) ->
  exists body,
    s = body ++ r
    /\ head_is number_start body = true
    /\ ends_solid body = true
    /\ forall t, head_is Py.isdecimal t = false ->
                 Json.match_integer (body ++ t) = Some (neg, i, t).
Proof.
  unfold Json.match_integer. intros H.
  assert (forall sign u,
    (match u with
     | String c r' =>
         if (c =? "0")%char then Some (sign, "0", r')
         else if Py.isdecimal c
         then let (d, t) := Json.span_digits r' in Some (sign, String c d, t)
         else None
     | "" => None
     end) = Some (neg, i, r) ->
    sign = neg /\
    exists body,
      u = body ++ r
      /\ head_is Py.isdecimal body = true
      /\ ends_solid body = true
      /\ forall t, head_is Py.isdecimal t = false ->
         (match body ++ t with
          | String c r' =>
              if (c =? "0")%char then Some (sign, "0", r')
              else if Py.isdecimal c
              then let (d, t) := Json.span_digits r' in
                   Some (sign, String c d, t)
              else None
          | "" => None
          end) = Some (neg, i, t)) as Hdigits.
  { intros sign u Hu. destruct u as [|c r']; [discriminate|].
    destruct (c =? "0")%char eqn:H0.
    - injection Hu as <- <- <-. apply Ascii.eqb_eq in H0 as ->.
      split; [reflexivity|]. exists "0". repeat split.
    - destruct (Py.isdecimal c) eqn:Hc; [|discriminate].
      destruct (Json.span_digits r') as [d t0] eqn:E.
      injection Hu as <- <- <-.
      destruct (span_digits_spec _ _ _ E) as (-> & Hd & _).
      split; [reflexivity|]. exists (String c d).
      split; [reflexivity|]. split; [exact Hc|]. split.
      { apply decimal_ends_solid. simpl. now rewrite Hc, Hd. }
      intros t Ht. cbn [append]. rewrite H0, Hc.
      now rewrite (span_digits_append d t Hd Ht). }
  destruct s as [|c r0]; [discriminate|].
  destruct (c =? "-")%char eqn:Hm.
  - apply Ascii.eqb_eq in Hm as ->.
    apply Hdigits in H as (_ & body & -> & Hh & He & Ht).
    exists (String "-" body). split; [reflexivity|]. split; [reflexivity|].
    split.
    { change (ends_solid ("-" ++ body) = true).
      rewrite ends_solid_append; [exact He | now apply ends_solid_not_nil]. }
    intros t Hd. simpl. exact (Ht t Hd).
  - apply (Hdigits false (String c r0)) in H as (_ & body & Hb & Hh & He & Ht).
    exists body. split; [exact Hb|]. split.
    { destruct body as [|x body]; [discriminate|]. simpl in *.
      unfold number_start. now rewrite Hh. }
    split; [exact He|].
    intros t Hd. specialize (Ht t Hd).
    destruct body as [|x body]; [discriminate|].
    injection Hb as <- _. simpl. rewrite Hm. exact Ht.
Qed.

Lemma match_frac_tail (s : string) (f : option string) (r : string) :
  Json.match_frac s = (f, r) ->
  exists body,
    s = body ++ r
    /\ (body = "" \/ (head_is (fun c => (c =? ".")%char) body = true
                      /\ ends_solid body = true))
    /\ forall t, head_is Py.isdecimal t = false ->
                 head_is (fun c => (c =? ".")%char) t = false ->
                 Json.match_frac (body ++ t) = (f, t).
Proof.
  unfold Json.match_frac.
  assert (forall t, head_is (fun c => (c =? ".")%char) t = false ->
            Json.match_frac t = (None, t)) as Hnone.
  { intros [|c t]; simpl; [reflexivity|]. now intros ->. }
  destruct s as [|c r0].
  { intros [= <- <-]. exists "". split; [reflexivity|]. split; [now left|].
    intros t _ Ht. now apply Hnone. }
  destruct (c =? ".")%char eqn:Hp.
  - apply Ascii.eqb_eq in Hp as ->.
    destruct (Json.span_digits r0) as [d t0] eqn:E.
    destruct (span_digits_spec _ _ _ E) as (-> & Hd & _).
    destruct d as [|x d].
    + intros [= <- <-]. exists "". split; [reflexivity|]. split; [now left|].
      intros t _ Ht. now apply Hnone.
    + intros [= <- <-]. exists (String "." (String x d)).
      split; [reflexivity|]. split.
      { right. split; [reflexivity|].
        change (ends_solid ("." ++ String x d) = true).
        rewrite ends_solid_append by discriminate.
        now apply decimal_ends_solid. }
      intros t Ht _.
      change (match Json.span_digits (String x d ++ t) with
              | ("", _) => (None, String "." (String x d ++ t))
              | (d0, t1) => (Some d0, t1)
              end = (Some (String x d), t)).
      now rewrite (span_digits_append _ t Hd Ht).
  - intros [= <- <-]. exists "". split; [reflexivity|]. split; [now left|].
    intros t _ Ht. now apply Hnone.
Qed.

Lemma match_exp_tail (s : string) (e : option (bool * string)) (r : string) :
  Json.match_exp s = (e, r) ->
  exists body,
    s = body ++ r
    /\ (body = ""
        \/ (head_is (fun c => (c =? "e")%char || (c =? "E")%char) body = true
            /\ ends_solid body = true))
    /\ forall t,
         head_is Py.isdecimal t = false ->
         head_is (fun c => (c =? "e")%char || (c =? "E")%char) t = false ->
         Json.match_exp (body ++ t) = (e, t).
Proof.
  assert (forall t,
            head_is (fun c => (c =? "e")%char || (c =? "E")%char) t = false ->
            Json.match_exp t = (None, t)) as Hnone.
  { intros [|c t]; simpl; [reflexivity|]. now intros ->. }
  assert (Json.match_exp s = (None, s) ->
          exists body,
            s = body ++ s
            /\ (body = ""
                \/ (head_is (fun c => (c =? "e")%char || (c =? "E")%char)
                            body = true
                    /\ ends_solid body = true))
            /\ forall t,
                 head_is Py.isdecimal t = false ->
                 head_is (fun c => (c =? "e")%char || (c =? "E")%char) t
                 = false ->
                 Json.match_exp (body ++ t) = (None, t)) as Hempty.
  { intros _. exists "". split; [reflexivity|]. split; [now left|].
    intros t _ Ht. now apply Hnone. }
  assert (forall c sign lead d t0,
            ((c =? "e")%char || (c =? "E")%char) = true ->
            Py.forallb_str Py.isdecimal d = true -> d <> "" ->
            (forall u, Json.match_exp (String c (lead ++ d ++ u)) =
                       match Json.span_digits (d ++ u) with
                       | ("", _) => (None, String c (lead ++ d ++ u))
                       | (d0, t1) => (Some (sign, d0), t1)
                       end) ->
            exists body,
              String c (lead ++ d ++ t0) = body ++ t0
              /\ (body = ""
                  \/ (head_is (fun c => (c =? "e")%char || (c =? "E")%char)
                              body = true
                      /\ ends_solid body = true))
              /\ forall t,
                   head_is Py.isdecimal t = false ->
                   head_is (fun c => (c =? "e")%char || (c =? "E")%char) t
                   = false ->
                   Json.match_exp (body ++ t) = (Some (sign, d), t)) as Hsome.
  { intros c sign lead d t0 Hc Hd Hne Hstep.
    exists (String c (lead ++ d)). split.
    { simpl. now rewrite append_assoc. }
    split.
    { right. split; [exact Hc|].
      change (ends_solid (String c "" ++ lead ++ d) = true).
      rewrite <- append_assoc, ends_solid_append by exact Hne.
      destruct d as [|x d]; [contradiction|]. now apply decimal_ends_solid. }
    intros t Ht _. simpl append. rewrite append_assoc, Hstep.
    rewrite (span_digits_append d t Hd Ht).
    destruct d; [contradiction | reflexivity]. }
  intros H. pose proof H as H'. unfold Json.match_exp in H'.
  destruct s as [|c r0].
  { injection H' as <- <-. now apply Hempty. }
  destruct ((c =? "e")%char || (c =? "E")%char) eqn:Hc.
  2:{ injection H' as <- <-. now apply Hempty. }
  destruct r0 as [|sg r'].
  { injection H' as <- <-. now apply Hempty. }
  destruct (sg =? "-")%char eqn:Hm.
  { apply Ascii.eqb_eq in Hm as ->.
    destruct (Json.span_digits r') as [d t0] eqn:E.
    destruct (span_digits_spec _ _ _ E) as (-> & Hd & _).
    destruct d as [|x d].
    - injection H' as <- <-. now apply Hempty.
    - injection H' as <- <-.
      apply (Hsome c true "-" (String x d) t0 Hc Hd); [discriminate|].
      intros u. unfold Json.match_exp. rewrite Hc. reflexivity. }
  destruct (sg =? "+")%char eqn:Hp.
  { apply Ascii.eqb_eq in Hp as ->.
    destruct (Json.span_digits r') as [d t0] eqn:E.
    destruct (span_digits_spec _ _ _ E) as (-> & Hd & _).
    destruct d as [|x d].
    - injection H' as <- <-. now apply Hempty.
    - injection H' as <- <-.
      apply (Hsome c false "+" (String x d) t0 Hc Hd); [discriminate|].
      intros u. unfold Json.match_exp. rewrite Hc. reflexivity. }
  destruct (Json.span_digits (String sg r')) as [d t0] eqn:E.
  destruct (span_digits_spec _ _ _ E) as (Hs & Hd & _).
  destruct d as [|x d].
  - injection H' as <- <-. now apply Hempty.
  - injection H' as <- <-. simpl in Hs. injection Hs as -> ->.
    apply (Hsome c false "" (String x d) t0 Hc Hd); [discriminate|].
    intros u. unfold Json.match_exp. rewrite Hc.
    cbn [append]. now rewrite Hm, Hp.
Qed.

Lemma match_number_tail (s : string) (n : Json.number) (r : string) :
  Json.match_number s = Some (n, r) ->
  exists body,
    s = body ++ r
    /\ head_is number_start body = true
    /\ ends_solid body = true
    /\ forall t, head_is number_char t = false ->
                 Json.match_number (body ++ t) = Some (n, t).
Proof.
  unfold Json.match_number.
  destruct (Json.match_integer s) as [[[neg i] r0]|] eqn:Ei; [|discriminate].
  destruct (Json.match_frac r0) as [f r1] eqn:Ef.
  destruct (Json.match_exp r1) as [e r2] eqn:Ee.
  intros [= <- <-].
  destruct (match_integer_tail _ _ _ _ Ei) as (bi & -> & Hhi & Hsi & Hti).
  destruct (match_frac_tail _ _ _ Ef) as (bf & -> & Hbf & Htf).
  destruct (match_exp_tail _ _ _ Ee) as (be & -> & Hbe & Hte).
  pose proof (ends_solid_not_nil _ Hsi) as Hni.
  exists (bi ++ bf ++ be).
  split; [now rewrite !append_assoc|].
  split; [now rewrite head_is_append|].
  split.
  { destruct Hbe as [-> | [_ Hbe]].
    - rewrite append_nil_r. destruct Hbf as [-> | [_ Hbf]].
      + now rewrite append_nil_r.
      + rewrite ends_solid_append; [exact Hbf | now apply ends_solid_not_nil].
    - rewrite <- append_assoc, ends_solid_append;
        [exact Hbe | now apply ends_solid_not_nil]. }
  intros t Ht.
  destruct (number_char_head t Ht) as (Htd & Htp & Hte').
  assert (head_is Py.isdecimal (be ++ t) = false
          /\ head_is (fun c => (c =? ".")%char) (be ++ t) = false)
    as [Hed Hep].
  { destruct Hbe as [-> | [Hbe _]]; [auto|].
    destruct be as [|c be]; [discriminate|]. simpl in *.
    apply orb_true_iff in Hbe as [Hc | Hc]; apply Ascii.eqb_eq in Hc as ->;
      auto. }
  assert (head_is Py.isdecimal (bf ++ be ++ t) = false) as Hfd.
  { destruct Hbf as [-> | [Hbf _]]; [exact Hed|].
    destruct bf as [|c bf]; [discriminate|]. simpl in *.
    apply Ascii.eqb_eq in Hbf as ->. reflexivity. }
  rewrite !append_assoc.
  rewrite (Hti _ Hfd), (Htf _ Hed Hep), (Hte _ Htd Hte').
  reflexivity.
Qed.

(** *** Constants *)

Lemma after_prefix_spec (p s r : string) :
  Json.after_prefix p s = Some r -> s = p ++ r.
Proof.
  revert s. induction p as [|a p IH]; intros s; simpl.
  - now intros [= ->].
  - destruct s as [|b s]; [discriminate|].
    destruct (Ascii.eqb_spec a b) as [->|_]; [|discriminate].
    intros H. now rewrite (IH _ H).
Qed.


Lemma after_prefix_other (f : ascii -> bool) (p s : string) :
  head_is f s = true -> head_is f p = false -> p <> "" ->
  Json.after_prefix p s = None.
Proof.
  destruct p as [|a p]; [contradiction|].
  destruct s as [|b s]; [discriminate|]. simpl.
  intros Hb Ha _. destruct (Ascii.eqb_spec a b) as [->|_];
    [congruence | reflexivity].
Qed.

Lemma scan_atom_tail (s : string) (v : pyval) (rest : string) :
  Json.scan_atom s = Some (v, rest) ->
  exists body,
    s = body ++ rest
    /\ head_is Py.isspace body = false
    /\ head_is (fun c => (c =? "`")%char) body = false
    /\ ends_solid body = true
    /\ forall t, head_is number_char t = false ->
                 Json.scan_atom (body ++ t) = Some (v, t).
Proof.
  unfold Json.scan_atom.
  destruct (Json.after_prefix "null" s) as [r|] eqn:E1.
  { intros [= <- <-]. apply after_prefix_spec in E1 as ->.
    exists "null". repeat split. }
  destruct (Json.after_prefix "true" s) as [r|] eqn:E2.
  { intros [= <- <-]. apply after_prefix_spec in E2 as ->.
    exists "true". repeat split. }
  destruct (Json.after_prefix "false" s) as [r|] eqn:E3.
  { intros [= <- <-]. apply after_prefix_spec in E3 as ->.
    exists "false". repeat split. }
  destruct (Json.match_number s) as [[n r]|] eqn:E4.
  { intros [= <- <-].
    destruct (match_number_tail _ _ _ E4) as (body & -> & Hh & Hs & Ht).
    exists body. split; [reflexivity|].
    assert (body <> "") as Hne by now apply ends_solid_not_nil.
    destruct body as [|c body]; [contradiction|]. simpl in Hh.
    split; [|split; [|split; [exact Hs|]]].
    - simpl. revert Hh. clear. each_char c.
    - simpl. revert Hh. clear. each_char c.
    - intros t Hnum.
      rewrite !(after_prefix_other number_start) by
        (reflexivity || discriminate || exact Hh).
      now rewrite (Ht t Hnum). }
  destruct (Json.after_prefix "NaN" s) as [r|] eqn:E5.
  { intros [= <- <-]. apply after_prefix_spec in E5 as ->.
    exists "NaN". repeat split. }
  destruct (Json.after_prefix "Infinity" s) as [r|] eqn:E6.
  { intros [= <- <-]. apply after_prefix_spec in E6 as ->.
    exists "Infinity". repeat split. }
  destruct (Json.after_prefix "-Infinity" s) as [r|] eqn:E7; [|discriminate].
  intros [= <- <-]. apply after_prefix_spec in E7 as ->.
  exists "-Infinity". repeat split.
Qed.

(** *** Values *)

Lemma scan_once_S (n : nat) (s : string) :
  Json.scan_once (S n) s =
  match s with
  | EmptyString => None
  | String c r =>
      if (c =? "034")%char then
        match Json.scanstring r with
        | Some (str, r') => Some (PyStr str, r')
        | None => None
        end
      else if (c =? "{")%char then Json.JSONObject (Json.object_pairs n) r
      else if (c =? "[")%char then Json.JSONArray (Json.array_values n) r
      else Json.scan_atom s
  end.
Proof. reflexivity. Qed.

Lemma object_pairs_S (n : nat) (pairs : list (string * pyval)) (s : string) :
  Json.object_pairs (S n) pairs s =
  match Json.scanstring s with
  | None => None
  | Some (key, r) =>
      match Json.skip_ws r with
      | String c r1 =>
          if (c =? ":")%char then
            match Json.scan_once n (Json.skip_ws r1) with
            | None => None
            | Some (value, r2) =>
                match Json.skip_ws r2 with
                | String d r3 =>
                    if (d =? "}")%char
                    then Some (PyDict (Py.dict_of_pairs
                                         (pairs ++ [(key, value)])%list), r3)
                    else if (d =? ",")%char then
                      match Json.skip_ws r3 with
                      | String q r4 =>
                          if (q =? "034")%char
                          then Json.object_pairs n
                                 (pairs ++ [(key, value)])%list r4
                          else None
                      | EmptyString => None
                      end
                    else None
                | EmptyString => None
                end
            end
          else None
      | EmptyString => None
      end
  end.
Proof. reflexivity. Qed.

Lemma array_values_S (n : nat) (values : list pyval) (s : string) :
  Json.array_values (S n) values s =
  match Json.scan_once n s with
  | None => None
  | Some (value, r) =>
      match Json.skip_ws r with
      | String d r1 =>
          if (d =? "]")%char then Some (PyList (values ++ [value])%list, r1)
          else if (d =? ",")%char
          then Json.array_values n (values ++ [value])%list (Json.skip_ws r1)
          else None
      | EmptyString => None
      end
  end.
Proof. reflexivity. Qed.

(** Whitespace, then the character [c]. *)
Lemma skip_ws_char (r : string) (c : ascii) (r1 : string) :
  Json.skip_ws r = String c r1 ->
  exists w,
    r = w ++ String c r1
    /\ Py.forallb_str Json.is_ws w = true
    /\ forall t, Json.skip_ws (w ++ String c t) = String c t.
Proof.
  intros H. destruct (skip_ws_spec r) as (w & Hr & Hw & Hh).
  rewrite H in Hr, Hh. simpl in Hh.
  exists w. split; [exact Hr|]. split; [exact Hw|].
  intros t. rewrite (skip_ws_append _ _ Hw). simpl. now rewrite Hh.
Qed.

(** Whitespace, then a text that starts with a solid character. *)
Lemma skip_ws_body (r body rest : string) :
  Json.skip_ws r = body ++ rest ->
  body <> "" ->
  exists w,
    r = w ++ body ++ rest
    /\ forall t, Json.skip_ws (w ++ body ++ t) = body ++ t.
Proof.
  intros H Hne. destruct (skip_ws_spec r) as (w & Hr & Hw & Hh).
  rewrite H in Hr, Hh. rewrite head_is_append in Hh by exact Hne.
  exists w. split; [exact Hr|].
  intros t. rewrite (skip_ws_append _ _ Hw). apply skip_ws_head.
  now rewrite head_is_append.
Qed.

Lemma ends_solid_after (a b : string) :
  ends_solid b = true -> ends_solid (a ++ b) = true.
Proof.
  intros H. rewrite ends_solid_append; [exact H|].
  now apply ends_solid_not_nil.
Qed.

Lemma not_ws_number_char (c : ascii) :
  Json.is_ws c = true
  \/ (c =? "}")%char = true \/ (c =? "]")%char = true
  \/ (c =? ",")%char = true ->
  number_char c = false.
Proof.
  each_char c; intros [H | [H | [H | H]]]; discriminate.
Qed.

(** What follows a value inside an object or an array cannot continue a
    number. *)
Lemma delimiter_head (r : string) (d : ascii) (r1 : string) :
  Json.skip_ws r = String d r1 ->
  (d =? "}")%char = true \/ (d =? "]")%char = true \/ (d =? ",")%char = true ->
  forall w t,
    Py.forallb_str Json.is_ws w = true ->
    head_is number_char (w ++ String d t) = false.
Proof.
  intros _ Hd w t Hw. destruct w as [|c w]; simpl.
  - apply not_ws_number_char. now right.
  - simpl in Hw. apply andb_true_iff in Hw as [Hc _].
    apply not_ws_number_char. now left.
Qed.

Lemma ends_solid_cons (c : ascii) (b : string) :
  ends_solid b = true -> ends_solid (String c b) = true.
Proof. apply (ends_solid_after (String c "") b). Qed.

Lemma scan_once_step (n : nat) :
  object_pairs_reads n -> array_values_reads n -> scan_once_reads (S n).
Proof.
  intros IHp IHv s v rest H. rewrite scan_once_S in H.
  destruct s as [|c r]; [discriminate|].
  destruct (c =? "034")%char eqn:Hq.
  { apply Ascii.eqb_eq in Hq as ->.
    destruct (Json.scanstring r) as [[str r']|] eqn:E; [|discriminate].
    injection H as <- <-.
    destruct (scanstring_tail _ _ _ E) as (body & -> & Hs & Ht).
    exists (String "034" body).
    split; [reflexivity|]. split; [reflexivity|]. split; [reflexivity|].
    split; [now apply ends_solid_cons|].
    intros n' t Hn _. destruct n' as [|n']; [simpl in Hn; lia|].
    change (match Json.scanstring (body ++ t) with
            | Some (str0, r') => Some (PyStr str0, r')
            | None => None
            end = Some (PyStr str, t)).
    now rewrite Ht. }
  destruct (c =? "{")%char eqn:Ho.
  { apply Ascii.eqb_eq in Ho as ->. unfold Json.JSONObject in H.
    destruct (Json.skip_ws r) as [|c1 r1] eqn:E; [discriminate|].
    destruct (skip_ws_char _ _ _ E) as (w & -> & Hw & Hskip).
    destruct (c1 =? "}")%char eqn:Hclose.
    { apply Ascii.eqb_eq in Hclose as ->. injection H as <- <-.
      exists (String "{" (w ++ "}")).
      split; [simpl; now rewrite append_assoc|].
      split; [reflexivity|]. split; [reflexivity|].
      split; [apply (ends_solid_char (String "{" w) "}"); reflexivity|].
      intros n' t Hn _. destruct n' as [|n']; [simpl in Hn; lia|].
      change (Json.JSONObject (Json.object_pairs n') ((w ++ "}") ++ t)
              = Some (PyDict [], t)).
      unfold Json.JSONObject. rewrite append_assoc.
      change ("}" ++ t) with (String "}" t). now rewrite Hskip. }
    destruct (c1 =? "034")%char eqn:Hq1; [|discriminate].
    apply Ascii.eqb_eq in Hq1 as ->.
    apply IHp in H as (body & -> & Hs & Ht).
    exists (String "{" (w ++ String "034" body)).
    split; [simpl; now rewrite append_assoc|].
    split; [reflexivity|]. split; [reflexivity|].
    split.
    { apply ends_solid_cons, ends_solid_after. now apply ends_solid_cons. }
    intros n' t Hn _. destruct n' as [|n']; [simpl in Hn; lia|].
    change (Json.JSONObject (Json.object_pairs n')
              ((w ++ String "034" body) ++ t) = Some (v, t)).
    unfold Json.JSONObject. rewrite append_assoc.
    change (String "034" body ++ t) with (String "034" (body ++ t)).
    rewrite Hskip.
    change (Json.object_pairs n' [] (body ++ t) = Some (v, t)).
    apply Ht. simpl in Hn. rewrite length_append in Hn. simpl in Hn. lia. }
  destruct (c =? "[")%char eqn:Ha.
  { apply Ascii.eqb_eq in Ha as ->. unfold Json.JSONArray in H.
    destruct (Json.skip_ws r) as [|c1 r1] eqn:E; [discriminate|].
    destruct (skip_ws_char _ _ _ E) as (w & -> & Hw & Hskip).
    destruct (c1 =? "]")%char eqn:Hclose.
    { apply Ascii.eqb_eq in Hclose as ->. injection H as <- <-.
      exists (String "[" (w ++ "]")).
      split; [simpl; now rewrite append_assoc|].
      split; [reflexivity|]. split; [reflexivity|].
      split; [apply (ends_solid_char (String "[" w) "]"); reflexivity|].
      intros n' t Hn _. destruct n' as [|n']; [simpl in Hn; lia|].
      change (Json.JSONArray (Json.array_values n') ((w ++ "]") ++ t)
              = Some (PyList [], t)).
      unfold Json.JSONArray. rewrite append_assoc.
      change ("]" ++ t) with (String "]" t). now rewrite Hskip. }
    apply IHv in H as (body & Hb & Hs & Ht).
    destruct body as [|b0 body]; [discriminate|].
    injection Hb as <- ->.
    exists (String "[" (w ++ String c1 body)).
    split; [simpl; now rewrite append_assoc|].
    split; [reflexivity|]. split; [reflexivity|].
    split; [now apply ends_solid_cons, ends_solid_after|].
    intros n' t Hn _. destruct n' as [|n']; [simpl in Hn; lia|].
    change (Json.JSONArray (Json.array_values n')
              ((w ++ String c1 body) ++ t) = Some (v, t)).
    unfold Json.JSONArray. rewrite append_assoc.
    change (String c1 body ++ t) with (String c1 (body ++ t)).
    rewrite Hskip, Hclose.
    apply (Ht n' t). simpl in Hn. rewrite length_append in Hn. lia. }
  destruct (scan_atom_tail _ _ _ H) as (body & Hb & Hh1 & Hh2 & Hs & Ht).
  exists body. split; [exact Hb|]. split; [exact Hh1|].
  split; [exact Hh2|]. split; [exact Hs|].
  intros n' t Hn Hnum.
  destruct n' as [|n'];
    [destruct body; [discriminate | simpl in Hn; lia]|].
  destruct Hnum as [Hnum | ->].
  - destruct body as [|b0 body]; [discriminate|].
    injection Hb as <- _.
    rewrite scan_once_S. cbn [append]. rewrite Hq, Ho, Ha.
    exact (Ht t Hnum).
  - rewrite <- Hb, scan_once_S, Hq, Ho, Ha. exact H.
Qed.

Ltac solid :=
  repeat first [ reflexivity | assumption
               | apply ends_solid_cons | apply ends_solid_after ].

Lemma object_pairs_step (n : nat) :
  scan_once_reads n -> object_pairs_reads n -> object_pairs_reads (S n).
Proof.
  intros IHs IHp pairs s v rest H. rewrite object_pairs_S in H.
  destruct (Json.scanstring s) as [[key r]|] eqn:Ek; [|discriminate].
  destruct (scanstring_tail _ _ _ Ek) as (kb & -> & Hks & Hkt).
  destruct (Json.skip_ws r) as [|c r1] eqn:E1; [discriminate|].
  destruct (skip_ws_char _ _ _ E1) as (w1 & -> & Hw1 & Hskip1).
  destruct (c =? ":")%char eqn:Hc; [|discriminate].
  apply Ascii.eqb_eq in Hc as ->.
  destruct (Json.scan_once n (Json.skip_ws r1)) as [[value r2]|] eqn:Ev;
    [|discriminate].
  destruct (IHs _ _ _ Ev) as (vb & Hvb & _ & _ & Hvs & Hvt).
  destruct (skip_ws_body r1 vb r2 Hvb (ends_solid_not_nil _ Hvs))
    as (w2 & -> & Hskip2).
  destruct (Json.skip_ws r2) as [|d r3] eqn:E3; [discriminate|].
  destruct (skip_ws_char _ _ _ E3) as (w3 & -> & Hw3 & Hskip3).
  destruct (d =? "}")%char eqn:Hd.
  { apply Ascii.eqb_eq in Hd as ->. injection H as <- <-.
    exists (kb ++ w1 ++ String ":" (w2 ++ vb ++ w3 ++ "}")).
    split; [now right_nested|]. split; [solid|].
    intros n' t Hn. lengths Hn.
    destruct n' as [|n']; [lia|].
    rewrite object_pairs_S. right_nested.
    rewrite Hkt, Hskip1, Ascii.eqb_refl, Hskip2.
    rewrite (Hvt n' (w3 ++ String "}" t)); [| lia |].
    - now rewrite Hskip3, Ascii.eqb_refl.
    - left. apply (delimiter_head _ _ _ E3); [now left | exact Hw3]. }
  destruct (d =? ",")%char eqn:Hcomma; [|discriminate].
  apply Ascii.eqb_eq in Hcomma as ->.
  destruct (Json.skip_ws r3) as [|q r4] eqn:E4; [discriminate|].
  destruct (skip_ws_char _ _ _ E4) as (w4 & -> & Hw4 & Hskip4).
  destruct (q =? "034")%char eqn:Hq; [|discriminate].
  apply Ascii.eqb_eq in Hq as ->.
  apply IHp in H as (pb & -> & Hps & Hpt).
  exists (kb ++ w1 ++ String ":" (w2 ++ vb ++ w3
            ++ String "," (w4 ++ String "034" pb))).
  split; [now right_nested|]. split; [solid|].
  intros n' t Hn. lengths Hn.
  destruct n' as [|n']; [lia|].
  rewrite object_pairs_S. right_nested.
  rewrite Hkt, Hskip1, Ascii.eqb_refl, Hskip2.
  rewrite (Hvt n' (w3 ++ String "," (w4 ++ String "034" (pb ++ t))));
    [| lia |].
  - rewrite Hskip3, Hd, Ascii.eqb_refl, Hskip4, Ascii.eqb_refl.
    apply Hpt. lia.
  - left. apply (delimiter_head _ _ _ E3); [now right; right | exact Hw3].
Qed.

Lemma array_values_step (n : nat) :
  scan_once_reads n -> array_values_reads n -> array_values_reads (S n).
Proof.
  intros IHs IHv values s v rest H. rewrite array_values_S in H.
  destruct (Json.scan_once n s) as [[value r]|] eqn:Ev; [|discriminate].
  destruct (IHs _ _ _ Ev) as (vb & -> & _ & _ & Hvs & Hvt).
  destruct (Json.skip_ws r) as [|d r1] eqn:E1; [discriminate|].
  destruct (skip_ws_char _ _ _ E1) as (w1 & -> & Hw1 & Hskip1).
  destruct (d =? "]")%char eqn:Hd.
  { apply Ascii.eqb_eq in Hd as ->. injection H as <- <-.
    exists (vb ++ w1 ++ "]").
    split; [now right_nested|]. split; [solid|].
    intros n' t Hn. lengths Hn.
    destruct n' as [|n']; [lia|].
    rewrite array_values_S. right_nested.
    rewrite (Hvt n' (w1 ++ String "]" t)); [| lia |].
    - now rewrite Hskip1, Ascii.eqb_refl.
    - left. apply (delimiter_head _ _ _ E1); [now right; left | exact Hw1]. }
  destruct (d =? ",")%char eqn:Hcomma; [|discriminate].
  apply Ascii.eqb_eq in Hcomma as ->.
  apply IHv in H as (ab & Hab & Has & Hat).
  destruct (skip_ws_body r1 ab rest Hab (ends_solid_not_nil _ Has))
    as (w2 & -> & Hskip2).
  exists (vb ++ w1 ++ String "," (w2 ++ ab)).
  split; [now right_nested|]. split; [solid|].
  intros n' t Hn. lengths Hn.
  destruct n' as [|n']; [lia|].
  rewrite array_values_S. right_nested.
  rewrite (Hvt n' (w1 ++ String "," (w2 ++ ab ++ t))); [| lia |].
  - rewrite Hskip1, Hd, Ascii.eqb_refl, Hskip2. apply Hat. lia.
  - left. apply (delimiter_head _ _ _ E1); [now right; right | exact Hw1].
Qed.

(** Whatever the fuel, the three functions read a value and nothing of
    what follows it. *)
Lemma decoder_reads (n : nat) :
  scan_once_reads n /\ object_pairs_reads n /\ array_values_reads n.
Proof.
  induction n as [|n (IHs & IHp & IHv)].
  - unfold scan_once_reads, object_pairs_reads, array_values_reads.
    repeat split; intros * H; discriminate H.
  - split; [|split].
    + now apply scan_once_step.
    + now apply object_pairs_step.
    + now apply array_values_step.
Qed.

Lemma scan_once_tail (n : nat) : scan_once_reads n.
Proof. apply decoder_reads. Qed.

(** One unit of fuel per character is enough: whatever some fuel reads,
    the length of the text reads too. *)
Lemma scan_once_fuel (n : nat) (s : string) (v : pyval) (rest : string) :
  Json.scan_once n s = Some (v, rest) ->
  forall n', String.length s <= n' ->
  Json.scan_once n' s = Some (v, rest).
Proof.
  intros H n' Hn.
  destruct (scan_once_tail _ _ _ _ H) as (body & -> & _ & _ & _ & Ht).
  apply Ht; [|now right]. rewrite length_append in Hn. lia.
Qed.

(** *** [loads] *)

Lemma loads_fuel (n : nat) (s : string) (v : pyval) (r : string) :
  Json.scan_once n (Json.skip_ws s) = Some (v, r) ->
  Json.skip_ws r = "" ->
  Json.loads s = Some v.
Proof.
  intros H Hr. unfold Json.loads.
  now rewrite (scan_once_fuel _ _ _ _ H _ (le_n _)), Hr.
Qed.

Lemma head_space_ws (s : string) :
  head_is Py.isspace s = false -> head_is Json.is_ws s = false.
Proof.
  destruct s as [|c s]; simpl; [reflexivity|]. intros H.
  destruct (Json.is_ws c) eqn:E; [|reflexivity].
  now rewrite (is_ws_isspace c E) in H.
Qed.

(** A text that decodes is a value between whitespace of the decoder, and
    the value alone decodes to the same. *)
Lemma loads_payload (p : string) (v : pyval) :
  Json.loads p = Some v ->
  exists w1 body w2,
    p = w1 ++ body ++ w2
    /\ Py.forallb_str Json.is_ws w1 = true
    /\ Py.forallb_str Json.is_ws w2 = true
    /\ head_is Py.isspace body = false
    /\ head_is (fun c => (c =? "`")%char) body = false
    /\ ends_solid body = true
    /\ Json.loads body = Some v.
Proof.
  unfold Json.loads. intros H.
  destruct (skip_ws_spec p) as (w1 & Hp & Hw1 & _).
  destruct (Json.scan_once (String.length (Json.skip_ws p)) (Json.skip_ws p))
    as [[v' r]|] eqn:E; [|discriminate].
  destruct (Json.skip_ws r) eqn:Er; [|discriminate].
  injection H as ->.
  destruct (scan_once_tail _ _ _ _ E) as (body & Hb & Hh1 & Hh2 & Hs & Ht).
  exists w1, body, r. rewrite <- Hb.
  split; [exact Hp|]. split; [exact Hw1|].
  split; [now apply skip_ws_nil|].
  split; [exact Hh1|]. split; [exact Hh2|]. split; [exact Hs|].
  rewrite (skip_ws_head body) by now apply head_space_ws.
  specialize (Ht (String.length body) "" (le_n _) (or_introl eq_refl)).
  rewrite append_nil_r in Ht. now rewrite Ht.
Qed.

End DecoderFacts.

(* ================================================================== *)
(** * Cleaning the response text *)
(* ================================================================== *)

Section CleanFacts.

Lemma forallb_str_append (f : ascii -> bool) (a b : string) :
  Py.forallb_str f (a ++ b) = Py.forallb_str f a && Py.forallb_str f b.
Proof.
  induction a as [|c a IH]; simpl; [reflexivity|].
  now rewrite IH, andb_assoc.
Qed.

(** [strip] removes the whitespace around a text that starts and ends with
    solid characters, and only that. *)
Lemma strip_surrounded (a body b : string) :
  Py.forallb_str Py.isspace a = true ->
  Py.forallb_str Py.isspace b = true ->
  head_is Py.isspace body = false ->
  ends_solid body = true ->
  Py.strip (a ++ body ++ b) = body.
Proof.
  intros Ha Hb Hh Hs. unfold Py.strip.
  pose proof (ends_solid_not_nil _ Hs) as Hne.
  rewrite (lstrip_append_space _ _ Ha).
  rewrite lstrip_head.
  - now rewrite (rstrip_append_space _ _ Hb), rstrip_solid.
  - destruct body; [contradiction | discriminate].
  - now rewrite head_is_append.
Qed.

Lemma strip_solid (body : string) :
  head_is Py.isspace body = false ->
  ends_solid body = true ->
  Py.strip body = body.
Proof.
  intros Hh Hs.
  pose proof (strip_surrounded "" body "" eq_refl eq_refl Hh Hs) as H.
  simpl in H. now rewrite append_nil_r in H.
Qed.

Lemma startswith_other (s p : string) (c : ascii) :
  head_is (fun x => (x =? c)%char) s = false ->
  head_is (fun x => (x =? c)%char) p = true ->
  Py.startswith s p = false.
Proof.
  unfold Py.startswith. destruct p as [|a p]; [discriminate|].
  destruct s as [|b s]; [reflexivity|]. simpl.
  intros Hb Ha. apply Ascii.eqb_eq in Ha as ->.
  destruct (ascii_dec c b) as [->|_]; [|reflexivity].
  now rewrite Ascii.eqb_refl in Hb.
Qed.

Lemma substring_skip (a s : string) (m : nat) :
  substring (String.length a) m (a ++ s) = substring 0 m s.
Proof. induction a as [|c a IH]; simpl; [reflexivity | exact IH]. Qed.

Lemma substring_take (x b : string) :
  substring 0 (String.length x) (x ++ b) = x.
Proof.
  induction x as [|c x IH]; simpl.
  - destruct b; reflexivity.
  - now rewrite IH.
Qed.

(** [(a + x + b)[len(a):-len(b)]] is [x]. *)
Lemma slice_between (a x b : string) :
  b <> "" ->
  Py.slice (a ++ x ++ b)
           (Z.of_nat (String.length a)) (- Z.of_nat (String.length b)) = x.
Proof.
  intros Hb. unfold Py.slice, Py.slice_index.
  rewrite !length_append.
  assert (0 < String.length b) as Hlb by (destruct b; [contradiction | simpl; lia]).
  set (la := String.length a) in *. set (lx := String.length x) in *.
  set (lb := String.length b) in *.
  destruct (Z.ltb_spec (Z.of_nat la) 0) as [H|_]; [lia|].
  destruct (Z.ltb_spec (- Z.of_nat lb) 0) as [_|H]; [|lia].
  replace (Z.max 0 (Z.min (Z.of_nat (la + (lx + lb))) (Z.of_nat la)))
    with (Z.of_nat la) by lia.
  replace (Z.max 0 (Z.min (Z.of_nat (la + (lx + lb)))
                          (- Z.of_nat lb + Z.of_nat (la + (lx + lb)))))
    with (Z.of_nat (la + lx)) by lia.
  replace (Z.of_nat (la + lx) - Z.of_nat la)%Z with (Z.of_nat lx) by lia.
  rewrite !Nat2Z.id. subst la lx.
  now rewrite substring_skip, substring_take.
Qed.

(** The cleaned text of a payload, bare or between fences. *)
Lemma clean_bare (a body b : string) :
  Py.forallb_str Py.isspace a = true ->
  Py.forallb_str Py.isspace b = true ->
  head_is Py.isspace body = false ->
  head_is (fun c => (c =? "`")%char) body = false ->
  ends_solid body = true ->
  clean_response_text (a ++ body ++ b) = body.
Proof.
  intros Ha Hb Hh Hq Hs. unfold clean_response_text.
  rewrite (strip_surrounded a body b Ha Hb Hh Hs).
  rewrite (startswith_other body "```json" "`" Hq eq_refl).
  now rewrite (startswith_other body "```" "`" Hq eq_refl).
Qed.

Lemma clean_fenced (tag a body b : string) :
  tag = "```" \/ tag = "```json" ->
  Py.forallb_str Py.isspace a = true ->
  Py.forallb_str Py.isspace b = true ->
  head_is Py.isspace body = false ->
  ends_solid body = true ->
  clean_response_text (tag ++ (nl ++ a ++ body ++ b ++ nl) ++ "```") = body.
Proof.
  intros Htag Ha Hb Hh Hs. unfold clean_response_text.
  assert (Py.strip (nl ++ a ++ body ++ b ++ nl) = body) as Hinner.
  { replace (nl ++ a ++ body ++ b ++ nl)
      with ((nl ++ a) ++ body ++ (b ++ nl)) by now rewrite !append_assoc.
    apply strip_surrounded; try assumption.
    now rewrite forallb_str_append, Hb. }
  rewrite strip_solid.
  - destruct Htag as [-> | ->].
    + change (Py.startswith ("```" ++ (nl ++ a ++ body ++ b ++ nl) ++ "```")
                "```json") with false.
      change (Py.startswith ("```" ++ (nl ++ a ++ body ++ b ++ nl) ++ "```")
                "```") with true.
      cbv iota.
      rewrite (slice_between "```" _ "```") by discriminate. exact Hinner.
    + change (Py.startswith
                ("```json" ++ (nl ++ a ++ body ++ b ++ nl) ++ "```")
                "```json") with true.
      cbv iota.
      rewrite (slice_between "```json" _ "```") by discriminate. exact Hinner.
  - destruct Htag as [-> | ->]; reflexivity.
  - rewrite <- append_assoc. now apply ends_solid_after.
Qed.

(** After a leading fence marker the last three characters go, whatever
    they are. *)
Lemma clean_three_dropped (tag inner t : string) :
  tag = "```" \/ tag = "```json" ->
  String.length t = 3 ->
  ends_solid t = true ->
  clean_response_text (tag ++ (nl ++ inner) ++ t) = Py.strip (nl ++ inner).
Proof.
  intros Htag Hlen Hs. unfold clean_response_text.
  assert (t <> "") as Hne by now apply ends_solid_not_nil.
  rewrite strip_solid.
  - destruct Htag as [-> | ->].
    + change (Py.startswith ("```" ++ (nl ++ inner) ++ t) "```json")
        with false.
      change (Py.startswith ("```" ++ (nl ++ inner) ++ t) "```") with true.
      cbv iota.
      pose proof (slice_between "```" (nl ++ inner) t Hne) as H.
      rewrite Hlen in H.
      change (Py.slice ("```" ++ (nl ++ inner) ++ t) 3 (-3) = nl ++ inner)
        in H.
      now rewrite H.
    + change (Py.startswith ("```json" ++ (nl ++ inner) ++ t) "```json")
        with true.
      cbv iota.
      pose proof (slice_between "```json" (nl ++ inner) t Hne) as H.
      rewrite Hlen in H.
      change (Py.slice ("```json" ++ (nl ++ inner) ++ t) 7 (-3)
              = nl ++ inner) in H.
      now rewrite H.
  - destruct Htag as [-> | ->]; reflexivity.
  - now apply ends_solid_after, ends_solid_after.
Qed.

End CleanFacts.

(* ================================================================== *)
(** * The rows of the timeline *)
(* ================================================================== *)

Section TimelineFacts.

Lemma all_str_texts (ms : list string) : Py.all_str (map PyStr ms) = Ok ms.
Proof.
  induction ms as [|m ms IH]; simpl; [reflexivity|]. now rewrite IH.
Qed.

Lemma area_rows_carries (phase : pyval) (v : PhaseView) (start finish : Z)
    (areas : list pyval) :
  carries phase v ->
  area_rows phase (label v) start finish areas =
  Ok (map (fun area =>
             {| Task := area; Phase := label v; Start := start;
                Finish := finish;
                Milestones := Py.join nl (milestones v) |}) areas).
Proof.
  intros (d & -> & _ & _ & Hm).
  induction areas as [|area areas IH]; simpl; [reflexivity|].
  rewrite Hm. unfold Py.join_val. simpl.
  rewrite all_str_texts. simpl. now rewrite IH.
Qed.

Lemma phase_rows_carries (phase : pyval) (v : PhaseView) :
  carries phase v -> phase_rows phase = Ok (records_of v).
Proof.
  intros H. pose proof H as (d & -> & Hl & Hf & _).
  unfold phase_rows. simpl. rewrite Hl. simpl.
  rewrite month_range_specified. simpl. rewrite Hf. simpl.
  now apply area_rows_carries.
Qed.



(** Line 107: without records nothing is drawn. *)
Lemma plot_timeline_empty (roadmap_data : pyval) :
  gantt_data roadmap_data = Ok [] -> plot_timeline roadmap_data = Ok [].
Proof.
  intros H. unfold plot_timeline. rewrite H.
  now destruct (Py.truthy roadmap_data).
Qed.

Lemma dict_get_not_empty (d : pydict) (k : string) (x : pyval) :
  Py.dict_get d k = Some x -> Py.truthy (PyDict d) = true.
Proof. destruct d; [discriminate | reflexivity]. Qed.




End TimelineFacts.

(* ================================================================== *)
(** * The response normalizer *)
(* ================================================================== *)

(** Claim C1.  A payload [p] that [json.loads] decodes to [v] is recovered
    by [generate_roadmap] when the model answers [p] itself, [p] between
    generic fences or [p] between fences tagged [json]: the value returned
    is [v], nothing is reported, the cleaned text is the one of the bare
    payload, and cleaning it once more changes nothing. *)
Theorem fence_stripping_lossless
    (model : string -> api_response) (current_status target_role : string)
    (experience : Z) (p : string) (v : pyval) (raw : string) :
  Json.loads p = Some v ->
  raw = p
  \/ raw = "```" ++ nl ++ p ++ nl ++ "```"
  \/ raw = "```json" ++ nl ++ p ++ nl ++ "```" ->
  model (prompt current_status target_role experience) = ApiText (Some raw) ->
  generate_roadmap model Json.loads current_status target_role experience
  = (v, [])
  /\ clean_response_text raw = clean_response_text p
  /\ clean_response_text (clean_response_text raw) = clean_response_text raw.
Proof.
  intros Hp Hraw Hmodel.
  destruct (loads_payload p v Hp)
    as (w1 & body & w2 & -> & Hw1 & Hw2 & Hh & Hq & Hs & Hbody).
  apply ws_is_space in Hw1, Hw2.
  assert (clean_response_text (w1 ++ body ++ w2) = body) as Hbare
    by now apply clean_bare.
  assert (clean_response_text body = body) as Hidem.
  { pose proof (clean_bare "" body "" eq_refl eq_refl Hh Hq Hs) as H.
    simpl in H. now rewrite append_nil_r in H. }
  assert (clean_response_text raw = body) as Hclean.
  { destruct Hraw as [-> | [-> | ->]].
    - exact Hbare.
    - replace ("```" ++ nl ++ (w1 ++ body ++ w2) ++ nl ++ "```")
        with ("```" ++ (nl ++ w1 ++ body ++ w2 ++ nl) ++ "```")
        by now rewrite !append_assoc.
      apply clean_fenced; auto.
    - replace ("```json" ++ nl ++ (w1 ++ body ++ w2) ++ nl ++ "```")
        with ("```json" ++ (nl ++ w1 ++ body ++ w2 ++ nl) ++ "```")
        by now rewrite !append_assoc.
      apply clean_fenced; auto. }
  split; [|split].
  - unfold generate_roadmap. rewrite Hmodel.
    assert (Py.is_empty raw = false) as ->.
    { pose proof (ends_solid_not_nil _ Hs) as Hne.
      destruct Hraw as [-> | [-> | ->]]; [|reflexivity|reflexivity].
      destruct w1; [destruct body; [contradiction|] |]; reflexivity. }
    now rewrite Hclean, Hbody.
  - now rewrite Hclean, Hbare.
  - now rewrite Hclean, Hidem.
Qed.

Lemma fence_stripping_lossless_witness :
  generate_roadmap
    (answers ("```json" ++ nl ++ scenario1 ++ nl ++ "```")) Json.loads
    "SQL" "Data Engineer" 2
  = (scenario1_roadmap, [])
  /\ clean_response_text ("```json" ++ nl ++ scenario1 ++ nl ++ "```")
     = clean_response_text scenario1
  /\ clean_response_text
       (clean_response_text ("```json" ++ nl ++ scenario1 ++ nl ++ "```"))
     = clean_response_text ("```json" ++ nl ++ scenario1 ++ nl ++ "```").
Proof.
  apply (fence_stripping_lossless
           (answers ("```json" ++ nl ++ scenario1 ++ nl ++ "```"))
           "SQL" "Data Engineer" 2 scenario1 scenario1_roadmap).
  - vm_compute. reflexivity.
  - right. right. reflexivity.
  - reflexivity.
Defined.

(** Claim C2, at the input where the code departs from it.  The text
    starts with the tagged fence and has no closing fence; what follows the
    leading marker decodes, but [clean_response_text] also drops its last
    three characters, and the response is reported as malformed. *)
Theorem unclosed_fence_loses_payload :
  Py.strip ("```json" ++ nl ++ quoted "{'a': 1}")
  = "```json" ++ nl ++ quoted "{'a': 1}"
  /\ Json.loads (nl ++ quoted "{'a': 1}") = Some (PyDict [("a", PyInt 1)])
  /\ clean_response_text ("```json" ++ nl ++ quoted "{'a': 1}")
     = quoted "{'a':"
  /\ generate_roadmap (answers ("```json" ++ nl ++ quoted "{'a': 1}"))
       Json.loads "SQL" "Data Engineer" 2
     = MalformedResponse ("```json" ++ nl ++ quoted "{'a': 1}").
Proof. repeat split; vm_compute; reflexivity. Qed.

(** Claim C3, at the inputs where the code departs from it.  When the
    text starts with a fence marker, [clean_response_text] drops its last
    three characters whatever they are: if what stands between the marker
    and those three characters decodes, [generate_roadmap] returns that
    value and reports nothing, although the three characters never reached
    the decoder.  So a response that is not JSON, with or without its
    fence, can give a roadmap instead of [MalformedResponse]. *)
Theorem unclosed_fence_partial_roadmap
    (model : string -> api_response) (current_status target_role : string)
    (experience : Z) (tag p t : string) (v : pyval) :
  tag = "```" \/ tag = "```json" ->
  Json.loads p = Some v ->
  String.length t = 3 ->
  ends_solid t = true ->
  model (prompt current_status target_role experience)
  = ApiText (Some (tag ++ (nl ++ p) ++ t)) ->
  generate_roadmap model Json.loads current_status target_role experience
  = (v, []).
Proof.
  intros Htag Hp Hlen Hsolid Hmodel.
  destruct (loads_payload p v Hp)
    as (w1 & body & w2 & -> & Hw1 & Hw2 & Hh & _ & Hs & Hbody).
  apply ws_is_space in Hw1, Hw2.
  unfold generate_roadmap. rewrite Hmodel.
  assert (Py.is_empty (tag ++ (nl ++ w1 ++ body ++ w2) ++ t) = false) as ->
    by (destruct Htag as [-> | ->]; reflexivity).
  rewrite (clean_three_dropped tag _ t Htag Hlen Hsolid).
  replace (nl ++ w1 ++ body ++ w2) with ((nl ++ w1) ++ body ++ w2)
    by now rewrite !append_assoc.
  rewrite (strip_surrounded (nl ++ w1) body w2); try assumption.
  now rewrite Hbody.
Qed.

Lemma unclosed_fence_partial_roadmap_witness :
  Json.loads ("```json" ++ (nl ++ quoted "{'roadmap_name':'X'}")
              ++ quoted ",{'") = None
  /\ Spec.payload ("```json" ++ (nl ++ quoted "{'roadmap_name':'X'}")
                   ++ quoted ",{'")
     = quoted "{'roadmap_name':'X'},{'"
  /\ Json.loads (quoted "{'roadmap_name':'X'},{'") = None
  /\ generate_roadmap
       (answers ("```json" ++ (nl ++ quoted "{'roadmap_name':'X'}")
                 ++ quoted ",{'"))
       Json.loads "SQL" "Data Engineer" 2
     = (PyDict [("roadmap_name", PyStr "X")], [])
  /\ fst (generate_clicked
            (answers ("```json" ++ (nl ++ quoted "{'roadmap_name':'X'}")
                      ++ quoted ",{'"))
            Json.loads "SQL" "Data Engineer" 2 [])
     = [("roadmap", PyDict [("roadmap_name", PyStr "X")])].
Proof.
  split; [vm_compute; reflexivity|].
  split; [vm_compute; reflexivity|].
  split; [vm_compute; reflexivity|].
  assert (generate_roadmap
            (answers ("```json" ++ (nl ++ quoted "{'roadmap_name':'X'}")
                      ++ quoted ",{'"))
            Json.loads "SQL" "Data Engineer" 2
          = (PyDict [("roadmap_name", PyStr "X")], [])) as H.
  { apply (unclosed_fence_partial_roadmap _ "SQL" "Data Engineer" 2
             "```json" (quoted "{'roadmap_name':'X'}") (quoted ",{'"));
      [now right | vm_compute; reflexivity | reflexivity | reflexivity
      | reflexivity]. }
  split; [exact H|].
  unfold generate_clicked. rewrite H. reflexivity.
Defined.

(* ================================================================== *)
(** * The timeline extractor *)
(* ================================================================== *)

(** Claim C4, as amended.  A label that holds a range [(a-b units)], with
    [a] and [b] digit sequences and [units] a text without digit and
    without parenthesis, gets [a] and [b] as its months, whatever the text
    before the range and whatever the text after it that holds no opening
    parenthesis, as long as neither [a] nor [b] has more digits than [int]
    takes (4300); beyond that it gets the fallback. *)
Theorem month_range_well_formed (pre a b units post : string) :
  digit_sequence a = true ->
  digit_sequence b = true ->
  Py.filter Py.isdigit units = "" ->
  contains "(" units = false ->
  contains ")" units = false ->
  contains "(" post = false ->
  month_range (PyStr (pre ++ "(" ++ a ++ "-" ++ b ++ units ++ ")" ++ post))
  = Ok (if within_int_limit a && within_int_limit b
        then (Py.decimal_value a, Py.decimal_value b)
        else (0, 3)%Z).
Proof.
  intros Ha Hb Hu Hu1 Hu2 Hpost.
  pose proof Ha as Ha'. pose proof Hb as Hb'.
  unfold digit_sequence in Ha', Hb'.
  apply andb_true_iff in Ha' as [_ Hda], Hb' as [_ Hdb].
  assert (forall c, Py.isdecimal c = false ->
            contains c (a ++ "-" ++ b ++ units)
            = ("-" =? c)%char || contains c units) as Hin.
  { intros c Hc. rewrite contains_append. simpl. rewrite contains_append.
    now rewrite (contains_decimal c a Hc Hda), (contains_decimal c b Hc Hdb). }
  unfold month_range, parse_range.
  replace (pre ++ "(" ++ a ++ "-" ++ b ++ units ++ ")" ++ post)
    with (pre ++ "(" ++ (a ++ "-" ++ b ++ units) ++ ")" ++ post)
    by now right_nested.
  rewrite time_range_parenthesised;
    [| rewrite Hin by reflexivity; exact Hu1
     | rewrite Hin by reflexivity; exact Hu2
     | exact Hpost ].
  cbn [bind].
  destruct (start_end_range a b units
              (contains_decimal "-" a eq_refl Hda)
              (contains_decimal "-" b eq_refl Hdb)) as (p & r & Hpr & ->).
  rewrite Hpr, filter_append in Hu. apply append_eq_nil in Hu as [Hp _].
  rewrite filter_append, Hp, append_nil_r.
  rewrite (filter_decimal a Hda), (filter_decimal b Hdb).
  rewrite (int_digit_sequence a Ha), (int_digit_sequence b Hb).
  destruct (within_int_limit a); destruct (within_int_limit b); reflexivity.
Qed.

Lemma month_range_well_formed_witness :
  month_range (PyStr ("Stage 2: "
                      ++ "(" ++ "10" ++ "-" ++ "12" ++ " months" ++ ")"
                      ++ " - advanced"))
  = Ok (10, 12)%Z
  /\ month_range (PyStr ("Stage 2: "
                         ++ "(" ++ "10" ++ "-" ++ ones 4301 ++ " months" ++ ")"
                         ++ " - advanced"))
     = Ok (0, 3)%Z.
Proof.
  split.
  - exact (month_range_well_formed
             "Stage 2: " "10" "12" " months" " - advanced"
             eq_refl eq_refl eq_refl eq_refl eq_refl eq_refl).
  - apply (month_range_well_formed
             "Stage 2: " "10" (ones 4301) " months" " - advanced");
      vm_compute; reflexivity.
Defined.

(** Claim C4 as stated fails: text after the range that opens another
    parenthesis takes the place of the range, and the fallback is used. *)
Lemma month_range_later_parenthesis :
  digit_sequence "1" = true
  /\ digit_sequence "4" = true
  /\ month_range (PyStr ("Phase 1 "
                         ++ "(" ++ "1" ++ "-" ++ "4" ++ " months" ++ ")"
                         ++ " (core)"))
     = Ok (0, 3)%Z
  /\ Ok (0, 3)%Z <> Ok (Py.decimal_value "1", Py.decimal_value "4").
Proof. repeat split; try (vm_compute; reflexivity). discriminate. Qed.







(** Claim C7.  With a timeline of zero phases [gantt_data] is empty, and
    whenever [gantt_data] is empty [plot_timeline] returns without an
    exception and without a chart. *)
Theorem nothing_to_render :
  (forall d,
     Py.dict_get d "timeline" = Some (PyList []) ->
     gantt_data (PyDict d) = Ok [] /\ plot_timeline (PyDict d) = Ok [])
  /\ (forall roadmap_data,
        gantt_data roadmap_data = Ok [] ->
        plot_timeline roadmap_data = Ok []).
Proof.
  split; [|exact plot_timeline_empty].
  intros d Ht.
  assert (gantt_data (PyDict d) = Ok []) as Hg
    by (unfold gantt_data; simpl; now rewrite Ht).
  split; [exact Hg | now apply plot_timeline_empty].
Qed.

Lemma nothing_to_render_witness :
  (gantt_data (PyDict [("roadmap_name", PyStr "X"); ("timeline", PyList [])])
   = Ok []
   /\ plot_timeline
        (PyDict [("roadmap_name", PyStr "X"); ("timeline", PyList [])])
      = Ok [])
  /\ plot_timeline
       (PyDict [("timeline",
                 PyList [PyDict [("phase", PyStr "Phase 1 (0-3 months)");
                                 ("focus_areas", PyList [])]])])
     = Ok [].
Proof.
  split.
  - apply (proj1 nothing_to_render). reflexivity.
  - apply (proj2 nothing_to_render). reflexivity.
Defined.

(** Claim C9.  A decoded object without the key [timeline] gives no record
    and no chart, and no exception; a phase without the key [phase] makes
    [plot_timeline] raise [KeyError]. *)
Theorem missing_timeline_key :
  (forall d,
     Py.dict_get d "timeline" = None ->
     gantt_data (PyDict d) = Ok [] /\ plot_timeline (PyDict d) = Ok [])
  /\ (forall d fields rest,
        Py.dict_get d "timeline" = Some (PyList (PyDict fields :: rest)) ->
        Py.dict_get fields "phase" = None ->
        plot_timeline (PyDict d) = Raise KeyError).
Proof.
  split.
  - intros d Ht.
    assert (gantt_data (PyDict d) = Ok []) as Hg
      by (unfold gantt_data; simpl; now rewrite Ht).
    split; [exact Hg|]. now apply plot_timeline_empty.
  - intros d fields rest Ht Hp. unfold plot_timeline.
    rewrite (dict_get_not_empty _ _ _ Ht). simpl.
    unfold gantt_data. simpl. rewrite Ht. simpl.
    unfold phase_rows. simpl. now rewrite Hp.
Qed.

Lemma missing_timeline_key_witness :
  (gantt_data (PyDict [("roadmap_name", PyStr "X")]) = Ok []
   /\ plot_timeline (PyDict [("roadmap_name", PyStr "X")]) = Ok [])
  /\ plot_timeline
       (PyDict [("timeline", PyList [PyDict [("focus_areas", PyList [])]])])
     = Raise KeyError.
Proof.
  split.
  - apply (proj1 missing_timeline_key). reflexivity.
  - apply (proj2 missing_timeline_key) with
      (fields := [("focus_areas", PyList [])]) (rest := []); reflexivity.
Defined.

(* ================================================================== *)
(** * The roadmap of the session *)
(* ================================================================== *)

(** Claim C8.  A generation that fails leaves [st.session_state] as it
    was, and with it the roadmap stored there or its absence; when the
    session state changes, the model answered a text whose cleaned form
    decoded, and the decoded value is what is stored. *)
Theorem failed_generation_keeps_roadmap
    (model : string -> api_response) (json_loads : string -> option pyval)
    (current_status target_role : string) (experience : Z)
    (session_state : pydict) :
  (failed (generate_roadmap model json_loads
             current_status target_role experience) ->
   fst (generate_clicked model json_loads
          current_status target_role experience session_state)
   = session_state)
  /\ (fst (generate_clicked model json_loads
             current_status target_role experience session_state)
      <> session_state ->
      exists raw roadmap,
        model (prompt current_status target_role experience)
        = ApiText (Some raw)
        /\ json_loads (clean_response_text raw) = Some roadmap
        /\ fst (generate_clicked model json_loads
                  current_status target_role experience session_state)
           = Py.dict_set session_state "roadmap" roadmap).
Proof.
  unfold generate_clicked. split.
  - intros Hf.
    destruct (negb (Py.is_empty current_status)
              && negb (Py.is_empty target_role)); [|reflexivity].
    destruct Hf as [H | [[raw H] | [msg H]]]; rewrite H; reflexivity.
  - assert (forall (P : Prop) (x : pydict), x <> x -> P) as same
      by (intros P x H; now contradiction H).
    destruct (negb (Py.is_empty current_status)
              && negb (Py.is_empty target_role)); [|apply same].
    unfold generate_roadmap.
    destruct (model (prompt current_status target_role experience))
      as [msg | [raw|]]; try apply same.
    destruct (Py.is_empty raw); [apply same|].
    destruct (json_loads (clean_response_text raw)) as [roadmap|] eqn:El;
      [|apply same].
    destruct (Py.truthy roadmap); [|apply same].
    intros _. exists raw, roadmap. repeat split. exact El.
Qed.

Lemma failed_generation_keeps_roadmap_witness :
  fst (generate_clicked (answers "not json at all") Json.loads
         "SQL" "Data Engineer" 2 [("roadmap", scenario1_roadmap)])
  = [("roadmap", scenario1_roadmap)].
Proof.
  apply (proj1 (failed_generation_keeps_roadmap
                  (answers "not json at all") Json.loads
                  "SQL" "Data Engineer" 2 [("roadmap", scenario1_roadmap)])).
  right. left. exists "not json at all". vm_compute. reflexivity.
Defined.

(** Claim C10.  When the cleaned text decodes to a value that counts as
    false, [generate_roadmap] returns that value and reports nothing, and
    [st.session_state] stays as it was. *)
Theorem falsy_roadmap_not_stored
    (model : string -> api_response) (json_loads : string -> option pyval)
    (current_status target_role : string) (experience : Z)
    (session_state : pydict) (raw : string) (v : pyval) :
  model (prompt current_status target_role experience) = ApiText (Some raw) ->
  raw <> "" ->
  json_loads (clean_response_text raw) = Some v ->
  Py.truthy v = false ->
  generate_roadmap model json_loads current_status target_role experience
  = (v, [])
  /\ fst (generate_clicked model json_loads
            current_status target_role experience session_state)
     = session_state.
Proof.
  intros Hm Hne Hl Hv.
  assert (generate_roadmap model json_loads
            current_status target_role experience = (v, [])) as Hg.
  { unfold generate_roadmap. rewrite Hm.
    destruct raw; [contradiction|]. simpl. now rewrite Hl. }
  split; [exact Hg|].
  unfold generate_clicked. rewrite Hg, Hv.
  now destruct (negb (Py.is_empty current_status)
                && negb (Py.is_empty target_role)).
Qed.

Lemma falsy_roadmap_not_stored_witness :
  (generate_roadmap (answers "{}") Json.loads "SQL" "Data Engineer" 2
   = (PyDict [], [])
   /\ fst (generate_clicked (answers "{}") Json.loads
             "SQL" "Data Engineer" 2 [("roadmap", scenario1_roadmap)])
      = [("roadmap", scenario1_roadmap)])
  /\ (generate_roadmap (answers "null") Json.loads "SQL" "Data Engineer" 2
      = (PyNone, [])
      /\ fst (generate_clicked (answers "null") Json.loads
                "SQL" "Data Engineer" 2 [])
         = []).
Proof.
  split.
  - apply (falsy_roadmap_not_stored (answers "{}") Json.loads
             "SQL" "Data Engineer" 2 [("roadmap", scenario1_roadmap)] "{}");
      [reflexivity | discriminate | vm_compute; reflexivity | reflexivity].
  - apply (falsy_roadmap_not_stored (answers "null") Json.loads
             "SQL" "Data Engineer" 2 [] "null");
      [reflexivity | discriminate | vm_compute; reflexivity | reflexivity].
Defined.

(* ================================================================== *)
(** * More on the cleaning of the response text *)
(* ================================================================== *)

Section StripFacts.

Lemma lstrip_by_head (f : ascii -> bool) (s : string) :
  head_is f (Py.lstrip_by f s) = false.
Proof.
  induction s as [|c s IH]; simpl; [reflexivity|].
  destruct (f c) eqn:Hc; [exact IH | simpl; exact Hc].
Qed.

Lemma rstrip_by_head (f : ascii -> bool) (s : string) :
  head_is f s = false -> head_is f (Py.rstrip_by f s) = false.
Proof.
  destruct s as [|c s]; simpl; [reflexivity|]. intros Hc.
  rewrite Hc, andb_false_r. exact Hc.
Qed.

Lemma rstrip_by_keeps (f : ascii -> bool) (c : ascii) (s : string) :
  f c = false ->
  Py.rstrip_by f (String c s) = String c (Py.rstrip_by f s).
Proof. intros Hc. simpl. now rewrite Hc, andb_false_r. Qed.

Lemma rstrip_ends_solid (s : string) :
  Py.rstrip_by Py.isspace s = ""
  \/ ends_solid (Py.rstrip_by Py.isspace s) = true.
Proof.
  induction s as [|c s IH]; simpl; [now left|].
  destruct (Py.rstrip_by Py.isspace s) as [|d r] eqn:E; simpl.
  - destruct (Py.isspace c) eqn:Hc; [now left|]. right. simpl. now rewrite Hc.
  - right. destruct IH as [IH | IH]; [discriminate | exact IH].
Qed.

(** [strip] leaves nothing for a second [strip] to remove. *)
Lemma strip_stripped (s : string) : Py.strip (Py.strip s) = Py.strip s.
Proof.
  assert (head_is Py.isspace (Py.strip s) = false) as Hh
    by apply rstrip_by_head, lstrip_by_head.
  destruct (rstrip_ends_solid (Py.lstrip_by Py.isspace s)) as [H | H].
  - unfold Py.strip at 2 3. now rewrite H.
  - now apply strip_solid.
Qed.

Lemma lstrip_by_part (f : ascii -> bool) (s : string) :
  exists a, s = a ++ Py.lstrip_by f s.
Proof.
  induction s as [|c s [a IH]]; simpl; [now exists ""|].
  destruct (f c).
  - exists (String c a). simpl. now rewrite <- IH.
  - now exists "".
Qed.

Lemma rstrip_by_part (f : ascii -> bool) (s : string) :
  exists b, s = Py.rstrip_by f s ++ b.
Proof.
  induction s as [|c s [b IH]]; simpl; [now exists ""|].
  destruct (Py.is_empty (Py.rstrip_by f s) && f c).
  - now exists (String c s).
  - exists b. simpl. now rewrite <- IH.
Qed.

Lemma strip_part (s : string) : exists a b, s = a ++ Py.strip s ++ b.
Proof.
  destruct (lstrip_by_part Py.isspace s) as [a Ha].
  destruct (rstrip_by_part Py.isspace (Py.lstrip_by Py.isspace s)) as [b Hb].
  exists a, b. unfold Py.strip. now rewrite <- Hb.
Qed.

Lemma substring_0_part (m : nat) (s : string) :
  exists b, s = substring 0 m s ++ b.
Proof.
  revert m. induction s as [|c s IH]; intros m.
  - exists "". now destruct m.
  - destruct m as [|m]; simpl.
    + now exists (String c s).
    + destruct (IH m) as [b Hb]. exists b. now rewrite <- Hb.
Qed.

Lemma substring_part (n m : nat) (s : string) :
  exists a b, s = a ++ substring n m s ++ b.
Proof.
  revert n. induction s as [|c s IH]; intros n.
  - exists "", "". now destruct n, m.
  - destruct n as [|n].
    + destruct (substring_0_part m (String c s)) as [b Hb]. now exists "", b.
    + destruct (IH n) as (a & b & H). exists (String c a), b.
      simpl. now rewrite <- H.
Qed.

Lemma slice_part (s : string) (start stop : Z) :
  exists a b, s = a ++ Py.slice s start stop ++ b.
Proof. apply substring_part. Qed.

(** A part of a part is a part. *)
Lemma part_of_part (s t u a b c d : string) :
  s = a ++ t ++ b -> t = c ++ u ++ d -> s = (a ++ c) ++ u ++ (d ++ b).
Proof. intros -> ->. now rewrite !append_assoc. Qed.

End StripFacts.

(** Extra X1.  The text [clean_response_text] hands to the decoder never
    starts or ends with whitespace: stripping it again changes nothing. *)
Theorem clean_response_text_stripped (text : string) :
  Py.strip (clean_response_text text) = clean_response_text text.
Proof.
  unfold clean_response_text.
  destruct (Py.startswith (Py.strip text) "```json");
    [apply strip_stripped|].
  destruct (Py.startswith (Py.strip text) "```"); apply strip_stripped.
Qed.

(** Extra X2.  Cleaning only removes text at both ends: the cleaned text is
    a contiguous part of the response, never longer than it. *)
Theorem clean_response_text_inside (text : string) :
  (exists a b, text = a ++ clean_response_text text ++ b)
  /\ String.length (clean_response_text text) <= String.length text.
Proof.
  assert (exists a b, text = a ++ clean_response_text text ++ b) as H.
  { unfold clean_response_text.
    destruct (strip_part text) as (a & b & Ht).
    assert (forall start stop,
              exists a' b',
                text = a' ++ Py.strip (Py.slice (Py.strip text) start stop)
                       ++ b') as Hfence.
    { intros start stop.
      destruct (slice_part (Py.strip text) start stop) as (c & d & Hs).
      destruct (strip_part (Py.slice (Py.strip text) start stop))
        as (e & f & Hu).
      pose proof (part_of_part _ _ _ _ _ _ _ Ht Hs) as H1.
      pose proof (part_of_part _ _ _ _ _ _ _ H1 Hu) as H2.
      eauto. }
    destruct (Py.startswith (Py.strip text) "```json"); [apply Hfence|].
    destruct (Py.startswith (Py.strip text) "```"); [apply Hfence|].
    eauto. }
  split; [exact H|].
  destruct H as (a & b & H). rewrite H at 2. rewrite !length_append. lia.
Qed.

Section RefusedFacts.

(** A value starts with one of few characters. *)
Lemma scan_once_head (n : nat) (s : string) (v : pyval) (r : string) :
  Json.scan_once n s = Some (v, r) -> head_is value_start s = true.
Proof.
  destruct n as [|n]; [discriminate|]. rewrite scan_once_S.
  destruct s as [|c r0]; [discriminate|].
  destruct (c =? "034")%char eqn:Hq;
    [apply Ascii.eqb_eq in Hq as ->; reflexivity|].
  destruct (c =? "{")%char eqn:Ho;
    [apply Ascii.eqb_eq in Ho as ->; reflexivity|].
  destruct (c =? "[")%char eqn:Ha;
    [apply Ascii.eqb_eq in Ha as ->; reflexivity|].
  unfold Json.scan_atom.
  assert (forall p x, Json.after_prefix (String x p) (String c r0) <> None ->
                      c = x) as Hlit.
  { intros p x H. cbn [Json.after_prefix] in H.
    destruct (x =? c)%char eqn:E;
      [apply Ascii.eqb_eq in E; now symmetry | now contradiction H]. }
  intros H.
  destruct (Json.after_prefix "null" (String c r0)) eqn:E1;
    [rewrite (Hlit "ull" "n"%char); [reflexivity | now rewrite E1]|].
  destruct (Json.after_prefix "true" (String c r0)) eqn:E2;
    [rewrite (Hlit "rue" "t"%char); [reflexivity | now rewrite E2]|].
  destruct (Json.after_prefix "false" (String c r0)) eqn:E3;
    [rewrite (Hlit "alse" "f"%char); [reflexivity | now rewrite E3]|].
  destruct (Json.match_number (String c r0)) as [[m r1]|] eqn:E4.
  { destruct (match_number_tail _ _ _ E4) as (body & Hb & Hh & _).
    destruct body as [|b0 body]; [discriminate|].
    injection Hb as <- _. simpl in Hh. simpl. unfold value_start.
    now rewrite Hh. }
  destruct (Json.after_prefix "NaN" (String c r0)) eqn:E5;
    [rewrite (Hlit "aN" "N"%char); [reflexivity | now rewrite E5]|].
  destruct (Json.after_prefix "Infinity" (String c r0)) eqn:E6;
    [rewrite (Hlit "nfinity" "I"%char); [reflexivity | now rewrite E6]|].
  destruct (Json.after_prefix "-Infinity" (String c r0)) eqn:E7;
    [rewrite (Hlit "Infinity" "-"%char); [reflexivity | now rewrite E7]|].
  discriminate.
Qed.

(** A text that starts with a solid character other than those is
    refused. *)
Lemma loads_refuses (s : string) :
  head_is Py.isspace s = false ->
  head_is value_start s = false ->
  Json.loads s = None.
Proof.
  intros Hs Hv. unfold Json.loads.
  rewrite (skip_ws_head s) by now apply head_space_ws.
  destruct (Json.scan_once (String.length s) s) as [[v r]|] eqn:E;
    [|reflexivity].
  rewrite (scan_once_head _ _ _ _ E) in Hv. discriminate.
Qed.

Lemma strip_head (s : string) : head_is Py.isspace (Py.strip s) = false.
Proof. apply rstrip_by_head, lstrip_by_head. Qed.

Lemma prefix_cons (a b : ascii) (p s : string) :
  prefix (String a p) (String b s) = (a =? b)%char && prefix p s.
Proof.
  simpl. destruct (ascii_dec a b) as [->|H].
  - now rewrite Ascii.eqb_refl.
  - apply Ascii.eqb_neq in H. now rewrite H.
Qed.

Lemma prefix_nil (s : string) : prefix "" s = true.
Proof. now destruct s. Qed.

(** A tag that does not start with [json], followed by a line feed, does
    not either. *)
Lemma tag_not_json (tag x : string) :
  Py.startswith tag "json" = false ->
  Py.startswith (tag ++ nl ++ x) "json" = false.
Proof.
  unfold Py.startswith, nl. intros H.
  destruct tag as [|a [|b [|c [|d t]]]]; cbn [append] in *;
    rewrite ?prefix_cons, ?prefix_nil in *;
    try destruct ("j" =? a)%char; try destruct ("s" =? b)%char;
    try destruct ("o" =? c)%char; try destruct ("n" =? d)%char;
    try reflexivity; discriminate.
Qed.

End RefusedFacts.

(** Extra X3.  A non-empty response whose first character after the
    leading whitespace, if there is one, is neither a backquote nor a
    character a JSON value can start with is reported as malformed, with
    the text as the model sent it: a blank response, or a sentence before
    the payload. *)
Theorem unfenced_prose_malformed
    (model : string -> api_response) (current_status target_role : string)
    (experience : Z) (raw : string) :
  model (prompt current_status target_role experience) = ApiText (Some raw) ->
  raw <> "" ->
  head_is (fun c => (c =? "`")%char) (Py.strip raw) = false ->
  head_is value_start (Py.strip raw) = false ->
  generate_roadmap model Json.loads current_status target_role experience
  = MalformedResponse raw.
Proof.
  intros Hm Hne Hq Hv. unfold generate_roadmap. rewrite Hm.
  destruct raw as [|c r]; [contradiction|]. cbn [Py.is_empty].
  unfold clean_response_text.
  rewrite (startswith_other _ "```json" "`" Hq eq_refl).
  rewrite (startswith_other _ "```" "`" Hq eq_refl).
  now rewrite (loads_refuses _ (strip_head _) Hv).
Qed.

Lemma unfenced_prose_malformed_witness :
  generate_roadmap
    (answers ("Here is your roadmap:" ++ nl ++ "```json" ++ nl ++ scenario1
              ++ nl ++ "```"))
    Json.loads "SQL" "Data Engineer" 2
  = MalformedResponse
      ("Here is your roadmap:" ++ nl ++ "```json" ++ nl ++ scenario1
       ++ nl ++ "```").
Proof.
  apply unfenced_prose_malformed;
    [reflexivity | discriminate | reflexivity | reflexivity].
Defined.

(** Extra X4.  A payload between fences whose opening fence carries a tag
    other than [json] (a tag that does not start with [json], with a first
    character that is solid and starts no JSON value, as in [JSON] or
    [javascript]) is reported as malformed, whatever the payload: the tag
    stays in front of the text given to the decoder. *)
Theorem other_fence_tag_malformed
    (model : string -> api_response) (current_status target_role : string)
    (experience : Z) (tag p : string) :
  tag <> "" ->
  Py.startswith tag "json" = false ->
  head_is Py.isspace tag = false ->
  head_is value_start tag = false ->
  model (prompt current_status target_role experience)
  = ApiText (Some ("```" ++ tag ++ nl ++ p ++ nl ++ "```")) ->
  generate_roadmap model Json.loads current_status target_role experience
  = MalformedResponse ("```" ++ tag ++ nl ++ p ++ nl ++ "```").
Proof.
  intros Hne Htag Hs Hv Hm. unfold generate_roadmap. rewrite Hm.
  change (Py.is_empty ("```" ++ tag ++ nl ++ p ++ nl ++ "```")) with false.
  cbv iota.
  assert (clean_response_text ("```" ++ tag ++ nl ++ p ++ nl ++ "```")
          = Py.strip (tag ++ nl ++ p ++ nl)) as ->.
  { unfold clean_response_text.
    rewrite strip_solid;
      [| reflexivity
       | rewrite <- !append_assoc; now apply ends_solid_after ].
    replace (Py.startswith ("```" ++ tag ++ nl ++ p ++ nl ++ "```")
               "```json")
      with (Py.startswith (tag ++ nl ++ (p ++ nl ++ "```")) "json")
      by reflexivity.
    rewrite (tag_not_json tag _ Htag).
    assert (Py.startswith ("```" ++ tag ++ nl ++ p ++ nl ++ "```") "```"
            = true) as ->
      by (unfold Py.startswith; cbn [append];
          now rewrite !prefix_cons, prefix_nil).
    replace ("```" ++ tag ++ nl ++ p ++ nl ++ "```")
      with ("```" ++ (tag ++ nl ++ p ++ nl) ++ "```")
      by now rewrite !append_assoc.
    now rewrite (slice_between "```" _ "```") by discriminate. }
  destruct tag as [|c tag]; [contradiction|]. simpl in Hs, Hv.
  rewrite loads_refuses; [reflexivity | apply strip_head |].
  unfold Py.strip. cbn [append Py.lstrip_by]. rewrite Hs.
  rewrite (rstrip_by_keeps _ _ _ Hs). exact Hv.
Qed.

Lemma other_fence_tag_malformed_witness :
  generate_roadmap
    (answers ("```" ++ "javascript" ++ nl ++ scenario1 ++ nl ++ "```"))
    Json.loads "SQL" "Data Engineer" 2
  = MalformedResponse
      ("```" ++ "javascript" ++ nl ++ scenario1 ++ nl ++ "```").
Proof.
  apply other_fence_tag_malformed;
    [discriminate | reflexivity | reflexivity | reflexivity | reflexivity].
Defined.

(* ================================================================== *)
(** * More on the month range *)
(* ================================================================== *)

Section DigitFacts.

Lemma digit_value_nonneg (c : ascii) :
  Py.isdecimal c = true -> (0 <=? Py.digit_value c)%Z = true.
Proof. each_char c. Qed.

Lemma decimal_value_from_nonneg (s : string) (acc : Z) :
  Py.forallb_str Py.isdecimal s = true ->
  (0 <= acc)%Z -> (0 <= Py.decimal_value_from acc s)%Z.
Proof.
  revert acc. induction s as [|c s IH]; intros acc Hs Hacc; [exact Hacc|].
  cbn [Py.forallb_str] in Hs. apply andb_true_iff in Hs as [Hc Hs].
  cbn [Py.decimal_value_from]. apply IH; [exact Hs|].
  pose proof (digit_value_nonneg c Hc) as H. apply Z.leb_le in H. lia.
Qed.

Lemma int_of_digits_nonneg (s : string) (z : Z) :
  Py.forallb_str Py.isdigit s = true -> Py.int s = Ok z -> (0 <= z)%Z.
Proof.
  intros Hd. rewrite (int_of_digits s Hd).
  destruct (digit_sequence s) eqn:Hseq; [|discriminate].
  destruct (within_int_limit s); [|discriminate].
  intros [= <-]. unfold digit_sequence in Hseq.
  apply andb_true_iff in Hseq as [_ Hdec].
  now apply decimal_value_from_nonneg.
Qed.

Lemma start_end_nonneg (t : string) (a b : Z) :
  start_end t = Ok (a, b) -> (0 <= a)%Z /\ (0 <= b)%Z.
Proof.
  unfold start_end.
  destruct (firstn 2 (Py.split "-" t)) as [|x [|y [|z l]]]; try discriminate.
  destruct (Py.int (Py.filter Py.isdigit x)) as [u|e] eqn:Ex; [|discriminate].
  destruct (Py.int (Py.filter Py.isdigit y)) as [w|e] eqn:Ey; [|discriminate].
  simpl. intros [= <- <-]. split.
  - exact (int_of_digits_nonneg _ _ (forallb_filter _ _) Ex).
  - exact (int_of_digits_nonneg _ _ (forallb_filter _ _) Ey).
Qed.

End DigitFacts.

(** Extra X5.  The months [month_range] gives are never negative, whatever
    the label: a sign in the label is not a digit and is dropped. *)
Theorem month_range_nonnegative (phase_name : pyval) (a b : Z) :
  month_range phase_name = Ok (a, b) -> (0 <= a)%Z /\ (0 <= b)%Z.
Proof.
  unfold month_range, parse_range.
  destruct (time_range phase_name) as [t|e] eqn:Et; simpl.
  - destruct (start_end t) as [[u w]|e] eqn:Es.
    + intros [= <- <-]. exact (start_end_nonneg _ _ _ Es).
    + rewrite (start_end_raises _ _ Es). intros [= <- <-]. lia.
  - destruct e; intros H; try discriminate; injection H as <- <-; lia.
Qed.

Lemma month_range_nonnegative_witness :
  (0 <= 2)%Z /\ (0 <= 5)%Z.
Proof.
  apply (month_range_nonnegative (PyStr "Phase 1 (+2-+5 months)"));
    reflexivity.
Defined.



(* ================================================================== *)
(** * More on the rows of the timeline *)
(* ================================================================== *)

Section RowFacts.

Lemma area_rows_joined (d : pydict) (phase_name milestones : pyval)
    (joined : string) (start finish : Z) (areas : list pyval) :
  Py.dict_get d "milestones" = Some milestones ->
  Py.join_val nl milestones = Ok joined ->
  area_rows (PyDict d) phase_name start finish areas =
  Ok (map (fun area =>
             {| Task := area; Phase := phase_name; Start := start;
                Finish := finish; Milestones := joined |}) areas).
Proof.
  intros Hm Hj. induction areas as [|area areas IH]; simpl; [reflexivity|].
  rewrite Hm. cbn [bind]. rewrite Hj. cbn [bind]. now rewrite IH.
Qed.

Lemma area_rows_raise (phase phase_name : pyval) (start finish : Z)
    (area : pyval) (areas : list pyval) (e : exn) :
  bind (Py.getitem phase "milestones") (Py.join_val nl) = Raise e ->
  area_rows phase phase_name start finish (area :: areas) = Raise e.
Proof.
  intros H. cbn [area_rows].
  destruct (Py.getitem phase "milestones") as [ms|e1]; cbn [bind] in *.
  - rewrite H. reflexivity.
  - injection H as ->. reflexivity.
Qed.

Lemma all_str_not_text (before : list pyval) (m : pyval)
    (after : list pyval) :
  (forall s, m <> PyStr s) ->
  Py.all_str (before ++ m :: after) = Raise TypeError.
Proof.
  intros Hm. induction before as [|x before IH]; simpl.
  - destruct m; try reflexivity. now contradiction (Hm s).
  - destruct x; try reflexivity. now rewrite IH.
Qed.

Lemma phase_rows_dict (d : pydict) (phase_name focus_areas : pyval)
    (areas : list pyval) :
  Py.dict_get d "phase" = Some phase_name ->
  Py.dict_get d "focus_areas" = Some focus_areas ->
  Py.iter focus_areas = Ok areas ->
  phase_rows (PyDict d)
  = area_rows (PyDict d) phase_name
      (fst (month_range_of phase_name)) (snd (month_range_of phase_name))
      areas.
Proof.
  intros Hp Hf Hi. unfold phase_rows. simpl. rewrite Hp. simpl.
  rewrite month_range_total. simpl. rewrite Hf. simpl. now rewrite Hi.
Qed.

Lemma phases_rows_raise (good : list pyval) (views : list PhaseView)
    (bad : pyval) (rest : list pyval) (e : exn) :
  Forall2 carries good views ->
  phase_rows bad = Raise e ->
  phases_rows (good ++ bad :: rest) = Raise e.
Proof.
  intros Hg Hb. induction Hg as [|phase v good views Hc _ IH]; simpl.
  - now rewrite Hb.
  - now rewrite (phase_rows_carries _ _ Hc), IH.
Qed.

End RowFacts.

(** Extra X7.  The key [milestones] is read once per focus area: a phase
    without it raises [KeyError] when it has a focus area and gives no
    record, and no exception, when it has none. *)
Theorem missing_milestones (d : pydict) (phase_name : pyval)
    (areas : list pyval) :
  Py.dict_get d "phase" = Some phase_name ->
  Py.dict_get d "focus_areas" = Some (PyList areas) ->
  Py.dict_get d "milestones" = None ->
  phase_rows (PyDict d)
  = match areas with
    | [] => Ok []
    | _ :: _ => Raise KeyError
    end.
Proof.
  intros Hp Hf Hm. rewrite (phase_rows_dict d _ _ areas Hp Hf eq_refl).
  destruct areas as [|area areas]; [reflexivity|].
  apply area_rows_raise. simpl. now rewrite Hm.
Qed.

Lemma missing_milestones_witness :
  phase_rows (PyDict [("phase", PyStr "Phase 1 (0-3 months)");
                      ("focus_areas", PyList [PyStr "SQL"])])
  = Raise KeyError.
Proof.
  apply (missing_milestones _ (PyStr "Phase 1 (0-3 months)") [PyStr "SQL"]);
    reflexivity.
Defined.

(** Extra X8.  A milestone that is not text (a number, [null], a nested
    list) makes a phase that has a focus area raise [TypeError]. *)
Theorem milestone_not_text (d : pydict) (phase_name area m : pyval)
    (areas before after : list pyval) :
  Py.dict_get d "phase" = Some phase_name ->
  Py.dict_get d "focus_areas" = Some (PyList (area :: areas)) ->
  Py.dict_get d "milestones" = Some (PyList (before ++ m :: after)) ->
  (forall s, m <> PyStr s) ->
  phase_rows (PyDict d) = Raise TypeError.
Proof.
  intros Hp Hf Hm Hnot.
  rewrite (phase_rows_dict d _ _ (area :: areas) Hp Hf eq_refl).
  apply area_rows_raise. simpl. rewrite Hm. cbn [bind].
  unfold Py.join_val. simpl. now rewrite (all_str_not_text _ _ _ Hnot).
Qed.

Lemma milestone_not_text_witness :
  phase_rows (PyDict [("phase", PyStr "Phase 1 (0-3 months)");
                      ("focus_areas", PyList [PyStr "SQL"]);
                      ("milestones", PyList [PyStr "m1"; PyInt 2])])
  = Raise TypeError.
Proof.
  apply (milestone_not_text _ (PyStr "Phase 1 (0-3 months)") (PyStr "SQL")
           (PyInt 2) [] [PyStr "m1"] []); try reflexivity.
  discriminate.
Defined.

(** Extra X9.  When [focus_areas] is a text and not a list, each of its
    characters becomes a task: the phase gets as many records as the text
    has characters. *)
Theorem focus_areas_text (d : pydict) (phase_name : pyval) (s : string)
    (ms : list string) :
  Py.dict_get d "phase" = Some phase_name ->
  Py.dict_get d "focus_areas" = Some (PyStr s) ->
  Py.dict_get d "milestones" = Some (PyList (map PyStr ms)) ->
  phase_rows (PyDict d)
  = Ok (map (fun area =>
               {| Task := area; Phase := phase_name;
                  Start := fst (month_range_of phase_name);
                  Finish := snd (month_range_of phase_name);
                  Milestones := Py.join nl ms |})
            (Py.chars s))
  /\ List.length (Py.chars s) = String.length s.
Proof.
  intros Hp Hf Hm. split.
  - rewrite (phase_rows_dict d _ _ (Py.chars s) Hp Hf eq_refl).
    apply (area_rows_joined d _ _ _ _ _ _ Hm).
    unfold Py.join_val. simpl. now rewrite all_str_texts.
  - clear. induction s as [|c s IH]; simpl; [reflexivity | now rewrite IH].
Qed.

Lemma focus_areas_text_witness :
  phase_rows (PyDict [("phase", PyStr "Later");
                      ("focus_areas", PyStr "SQL");
                      ("milestones", PyList [PyStr "m1"])])
  = Ok (map (fun area =>
               {| Task := area; Phase := PyStr "Later";
                  Start := fst (month_range_of (PyStr "Later"));
                  Finish := snd (month_range_of (PyStr "Later"));
                  Milestones := Py.join nl ["m1"] |})
            (Py.chars "SQL"))
  /\ List.length (Py.chars "SQL") = String.length "SQL".
Proof.
  apply (focus_areas_text _ (PyStr "Later") "SQL" ["m1"]); reflexivity.
Defined.

(** Extra X10.  The first phase that raises decides the outcome: the
    records of the phases before it are dropped, [plot_timeline] raises
    the same exception and draws no chart. *)
Theorem first_failing_phase (d : pydict) (good : list pyval)
    (views : list PhaseView) (bad : pyval) (rest : list pyval) (e : exn) :
  Py.dict_get d "timeline" = Some (PyList (good ++ bad :: rest)) ->
  Forall2 carries good views ->
  phase_rows bad = Raise e ->
  gantt_data (PyDict d) = Raise e /\ plot_timeline (PyDict d) = Raise e.
Proof.
  intros Ht Hg Hb.
  assert (gantt_data (PyDict d) = Raise e) as H.
  { unfold gantt_data. simpl. rewrite Ht. simpl.
    exact (phases_rows_raise _ _ _ _ _ Hg Hb). }
  split; [exact H|]. unfold plot_timeline.
  now rewrite (dict_get_not_empty _ _ _ Ht), H.
Qed.

Lemma first_failing_phase_witness :
  gantt_data
    (PyDict [("timeline",
              PyList ([PyDict [("phase", PyStr "Phase 1 (0-3 months)");
                               ("focus_areas", PyList [PyStr "SQL"]);
                               ("milestones", PyList [PyStr "m1"])]]
                      ++ PyDict [("focus_areas", PyList [])] :: []))])
  = Raise KeyError
  /\ plot_timeline
       (PyDict [("timeline",
                 PyList ([PyDict [("phase", PyStr "Phase 1 (0-3 months)");
                                  ("focus_areas", PyList [PyStr "SQL"]);
                                  ("milestones", PyList [PyStr "m1"])]]
                         ++ PyDict [("focus_areas", PyList [])] :: []))])
     = Raise KeyError.
Proof.
  apply (first_failing_phase _
           [PyDict [("phase", PyStr "Phase 1 (0-3 months)");
                    ("focus_areas", PyList [PyStr "SQL"]);
                    ("milestones", PyList [PyStr "m1"])]]
           [ {| label := PyStr "Phase 1 (0-3 months)";
                focusAreas := [PyStr "SQL"];
                milestones := ["m1"] |} ]
           (PyDict [("focus_areas", PyList [])]) [] KeyError);
    [reflexivity | | reflexivity].
  repeat constructor. eexists. repeat split; reflexivity.
Defined.

(** Extra X11.  A [timeline] that is present but is no list makes
    [plot_timeline] raise [TypeError]: at once when it cannot be iterated
    (so for [null], unlike a missing key), at its first item when it is a
    text or an object.  Only an empty text and an empty object, which have
    no item, give nothing to draw. *)
Theorem timeline_not_a_list (d : pydict) (v : pyval) :
  Py.dict_get d "timeline" = Some v ->
  (forall l, v <> PyList l) ->
  plot_timeline (PyDict d)
  = if scalar v || Py.truthy v then Raise TypeError else Ok [].
Proof.
  intros Ht Hl. unfold plot_timeline.
  rewrite (dict_get_not_empty _ _ _ Ht). cbn [negb].
  unfold gantt_data. simpl. rewrite Ht. cbn [bind].
  destruct v as [| | | |s|l|d']; try reflexivity.
  - destruct s; reflexivity.
  - now contradiction (Hl l).
  - destruct d' as [|[k x] d']; reflexivity.
Qed.

Lemma timeline_not_a_list_witness :
  plot_timeline (PyDict [("roadmap_name", PyStr "X"); ("timeline", PyNone)])
  = Raise TypeError.
Proof.
  apply (timeline_not_a_list _ PyNone); [reflexivity | discriminate].
Defined.

(** Extra X12.  Given anything but an object, [plot_timeline] returns at
    once when the value counts as false and raises [AttributeError]
    otherwise, for want of a method [get]. *)
Theorem plot_timeline_not_a_dict (roadmap_data : pyval) :
  is_dict roadmap_data = false ->
  plot_timeline roadmap_data
  = if Py.truthy roadmap_data then Raise AttributeError else Ok [].
Proof.
  unfold plot_timeline.
  destruct roadmap_data; try discriminate; intros _;
    destruct (Py.truthy _); reflexivity.
Qed.

Lemma plot_timeline_not_a_dict_witness :
  plot_timeline (PyList [PyInt 1]) = Raise AttributeError.
Proof. apply (plot_timeline_not_a_dict (PyList [PyInt 1])). reflexivity. Defined.

(* ================================================================== *)
(** * The session and the page *)
(* ================================================================== *)

Section SessionFacts.

Lemma dict_get_set_same (d : pydict) (k : string) (v : pyval) :
  Py.dict_get (Py.dict_set d k v) k = Some v.
Proof.
  induction d as [|[k' v'] d IH]; simpl.
  - now rewrite String.eqb_refl.
  - destruct (String.eqb_spec k' k) as [->|Hk]; simpl.
    + now rewrite String.eqb_refl.
    + apply String.eqb_neq in Hk. now rewrite Hk.
Qed.

Lemma dict_get_set_other (d : pydict) (k k' : string) (v : pyval) :
  k' <> k -> Py.dict_get (Py.dict_set d k v) k' = Py.dict_get d k'.
Proof.
  intros Hne. induction d as [|[k0 v0] d IH]; simpl.
  - destruct (String.eqb_spec k k') as [->|_]; [contradiction | reflexivity].
  - destruct (String.eqb_spec k0 k) as [->|Hk]; simpl.
    + destruct (String.eqb_spec k k') as [->|_]; [contradiction | reflexivity].
    + now rewrite IH.
Qed.

(** What [generate_clicked] leaves in the session: the state as it was,
    or the state with a roadmap that counts as true. *)
Lemma generate_clicked_state
    (model : string -> api_response) (json_loads : string -> option pyval)
    (current_status target_role : string) (experience : Z)
    (session_state : pydict) :
  fst (generate_clicked model json_loads
         current_status target_role experience session_state)
  = session_state
  \/ exists roadmap,
       Py.truthy roadmap = true
       /\ fst (generate_clicked model json_loads
                 current_status target_role experience session_state)
          = Py.dict_set session_state "roadmap" roadmap.
Proof.
  unfold generate_clicked.
  destruct (negb (Py.is_empty current_status)
            && negb (Py.is_empty target_role)); [|now left].
  destruct (generate_roadmap model json_loads
              current_status target_role experience) as [roadmap shown'].
  destruct (Py.truthy roadmap) eqn:Ht; [|now left].
  right. now exists roadmap.
Qed.

End SessionFacts.

(** Extra X14.  The button changes no entry of [st.session_state] other
    than [roadmap]. *)
Theorem session_other_keys_kept
    (model : string -> api_response) (json_loads : string -> option pyval)
    (current_status target_role : string) (experience : Z)
    (session_state : pydict) (k : string) :
  k <> "roadmap" ->
  Py.dict_get
    (fst (generate_clicked model json_loads
            current_status target_role experience session_state)) k
  = Py.dict_get session_state k.
Proof.
  intros Hk.
  destruct (generate_clicked_state model json_loads current_status
              target_role experience session_state)
    as [-> | (roadmap & _ & ->)]; [reflexivity|].
  now apply dict_get_set_other.
Qed.

Lemma session_other_keys_kept_witness :
  Py.dict_get
    (fst (generate_clicked (answers scenario1) Json.loads
            "SQL" "Data Engineer" 2 [("theme", PyStr "dark")])) "theme"
  = Py.dict_get [("theme", PyStr "dark")] "theme".
Proof. apply session_other_keys_kept. discriminate. Defined.

(** Extra X15.  The roadmap of the session always counts as true: if it
    does before the button is handled, it does after. *)
Theorem stored_roadmap_truthy
    (model : string -> api_response) (json_loads : string -> option pyval)
    (current_status target_role : string) (experience : Z)
    (session_state : pydict) (v : pyval) :
  (forall old, Py.dict_get session_state "roadmap" = Some old ->
               Py.truthy old = true) ->
  Py.dict_get
    (fst (generate_clicked model json_loads
            current_status target_role experience session_state)) "roadmap"
  = Some v ->
  Py.truthy v = true.
Proof.
  intros Hold.
  destruct (generate_clicked_state model json_loads current_status
              target_role experience session_state)
    as [-> | (roadmap & Ht & ->)]; [apply Hold|].
  rewrite dict_get_set_same. now intros [= <-].
Qed.

Lemma stored_roadmap_truthy_witness : Py.truthy scenario1_roadmap = true.
Proof.
  apply (stored_roadmap_truthy (answers scenario1) Json.loads
           "SQL" "Data Engineer" 2 []).
  - intros old H. discriminate H.
  - vm_compute. reflexivity.
Defined.

Section PageFacts.

Variable model : string -> api_response.
Variable youtube_search : string -> search_response.
Variable str_other : pyval -> string.

Lemma show_phase_listed (phase : pyval) (v : Listing) :
  listed phase v ->
  show_phase str_other phase = (listing_of str_other v, None).
Proof.
  intros (d & -> & Hp & Hf & Ht). unfold show_phase, listing_of. simpl.
  rewrite Hp, Hf. cbn [bind]. unfold Py.join_val. simpl.
  rewrite all_str_texts. cbn [bind]. now rewrite Ht.
Qed.

Lemma show_phases_listed (phases : list pyval) (views : list Listing) :
  Forall2 listed phases views ->
  show_phases str_other phases = (flat_map (listing_of str_other) views, None).
Proof.
  induction 1 as [|phase v phases views Hl _ IH]; simpl; [reflexivity|].
  now rewrite (show_phase_listed _ _ Hl), IH.
Qed.

Lemma quiet_map {A : Type} (f : A -> page_event) (l : list A) :
  (forall a, is_request (f a) = false) ->
  existsb is_request (map f l) = false.
Proof.
  intros Hf. induction l as [|a l IH]; simpl; [reflexivity|].
  now rewrite Hf, IH.
Qed.

Lemma quiet_and_then (p q : page) :
  existsb is_request (fst p) = false ->
  existsb is_request (fst q) = false ->
  existsb is_request (fst (and_then p q)) = false.
Proof.
  intros Hp Hq. unfold and_then. destruct (snd p); [exact Hp|].
  simpl. now rewrite existsb_app, Hp, Hq.
Qed.

Lemma show_phase_quiet (phase : pyval) :
  existsb is_request (fst (show_phase str_other phase)) = false.
Proof.
  unfold show_phase.
  destruct (Py.getitem phase "phase"); [|reflexivity].
  destruct (bind (Py.getitem phase "focus_areas") (Py.join_val ", "));
    [|reflexivity].
  destruct (bind (Py.getitem phase "tasks") Py.iter); [|reflexivity].
  cbn [fst]. rewrite existsb_app. cbn [app existsb is_request orb].
  now apply quiet_map.
Qed.

Lemma show_phases_quiet (phases : list pyval) :
  existsb is_request (fst (show_phases str_other phases)) = false.
Proof.
  induction phases as [|phase phases IH]; [reflexivity|].
  cbn [show_phases]. apply quiet_and_then; [apply show_phase_quiet | exact IH].
Qed.

(** The first tab sends no request. *)
Lemma show_roadmap_quiet (roadmap : pyval) :
  existsb is_request (fst (show_roadmap str_other roadmap)) = false.
Proof.
  unfold show_roadmap.
  destruct (Py.getitem roadmap "roadmap_name"); [|reflexivity].
  destruct (Py.getitem roadmap "gap_analysis"); [|reflexivity].
  destruct (plot_timeline roadmap) as [drawn|]; [|reflexivity].
  assert (existsb is_request
            ([st_subheader a;
              st_markdown
                (PyStr ("**Gap Analysis:** " ++ format_value str_other a0))]
             ++ map shown drawn ++ [st_expander "Detailed Timeline"])
          = false) as Hhead.
  { cbn [app existsb is_request orb]. rewrite existsb_app.
    rewrite quiet_map by reflexivity. reflexivity. }
  destruct (bind (Py.getitem roadmap "timeline") Py.iter); [|exact Hhead].
  apply quiet_and_then; [exact Hhead | apply show_phases_quiet].
Qed.

End PageFacts.

(** Extra X16.  The only exception that escapes the results section is
    one of the first tab; when one does, the page ends there and neither
    the project suggestions nor the video search is requested; when none
    does, both requests are sent. *)
Theorem roadmap_tab_failure_ends_page
    (model : string -> api_response)
    (youtube_search : string -> search_response)
    (str_other : pyval -> string) (roadmap : pyval)
    (current_status target_role : string) :
  snd (show_results model youtube_search str_other roadmap
         current_status target_role)
  = snd (show_roadmap str_other roadmap)
  /\ (snd (show_roadmap str_other roadmap) <> None ->
      existsb is_request
        (fst (show_results model youtube_search str_other roadmap
                current_status target_role))
      = false)
  /\ (snd (show_roadmap str_other roadmap) = None ->
      In (generate_content
            ("Suggest 3 hands-on projects for " ++ target_role
             ++ " considering: " ++ current_status))
         (fst (show_results model youtube_search str_other roadmap
                 current_status target_role))
      /\ In (YoutubeSearch (target_role ++ " learning resources"))
            (fst (show_results model youtube_search str_other roadmap
                    current_status target_role))).
Proof.
  unfold show_results, and_then. cbn [fst snd].
  pose proof (show_roadmap_quiet str_other roadmap) as Hq.
  destruct (snd (show_roadmap str_other roadmap)) as [e|].
  - split; [reflexivity|]. split; [|discriminate].
    intros _. cbn [fst existsb is_request orb]. exact Hq.
  - split; [reflexivity|]. split; [now intros H|]. intros _.
    cbn [fst]. split.
    + right. apply in_or_app. right. apply in_or_app. left.
      unfold show_projects. right. now left.
    + right. apply in_or_app. right. apply in_or_app. right.
      unfold show_resources. right. now left.
Qed.

Lemma roadmap_tab_failure_ends_page_witness :
  existsb is_request
    (fst (show_results (answers "ideas") no_results unnamed
            (PyDict [("roadmap_name", PyStr "X")]) "SQL" "Data Engineer"))
  = false.
Proof.
  apply (proj1 (proj2 (roadmap_tab_failure_ends_page
                         (answers "ideas") no_results unnamed
                         (PyDict [("roadmap_name", PyStr "X")])
                         "SQL" "Data Engineer"))).
  discriminate.
Defined.

(** Extra X17.  A response that decodes to a value that counts as true
    and is no object (an array, a text, a number) is stored as the
    roadmap, and the same run ends with [TypeError] right after the tabs
    are made: nothing of the page is shown. *)
Theorem stored_value_not_an_object
    (model : string -> api_response)
    (youtube_search : string -> search_response)
    (str_other : pyval -> string) (json_loads : string -> option pyval)
    (current_status target_role : string) (experience : Z)
    (session_state : pydict) (raw : string) (v : pyval) :
  current_status <> "" -> target_role <> "" ->
  model (prompt current_status target_role experience) = ApiText (Some raw) ->
  raw <> "" ->
  json_loads (clean_response_text raw) = Some v ->
  Py.truthy v = true ->
  is_dict v = false ->
  main model youtube_search str_other json_loads
    current_status target_role experience true session_state
  = (Py.dict_set session_state "roadmap" v,
     ([st_title "Career Path Planner";
       st_tabs ["Roadmap"; "Projects"; "Resources"]],
      Some TypeError)).
Proof.
  intros Hc Ht Hm Hraw Hl Hv Hd. unfold main, generate_clicked.
  destruct current_status; [contradiction|].
  destruct target_role; [contradiction|]. cbn [Py.is_empty negb andb].
  unfold generate_roadmap. rewrite Hm.
  destruct raw; [contradiction|]. cbn [Py.is_empty]. rewrite Hl, Hv.
  rewrite dict_get_set_same.
  destruct v; try discriminate; reflexivity.
Qed.

Lemma stored_value_not_an_object_witness :
  main (answers "[1, 2]") no_results unnamed Json.loads
    "SQL" "Data Engineer" 2 true []
  = (Py.dict_set [] "roadmap" (PyList [PyInt 1; PyInt 2]),
     ([st_title "Career Path Planner";
       st_tabs ["Roadmap"; "Projects"; "Resources"]],
      Some TypeError)).
Proof.
  apply (stored_value_not_an_object (answers "[1, 2]") no_results unnamed
           Json.loads "SQL" "Data Engineer" 2 [] "[1, 2]");
    try discriminate; try reflexivity.
Defined.

(** Extra X18.  A roadmap with a name and a gap analysis but without the
    key [timeline] gets its name and gap analysis shown and no chart, and
    then the detailed listing raises [KeyError]. *)
Theorem missing_timeline_listing
    (str_other : pyval -> string) (d : pydict) (name gap : pyval) :
  Py.dict_get d "roadmap_name" = Some name ->
  Py.dict_get d "gap_analysis" = Some gap ->
  Py.dict_get d "timeline" = None ->
  show_roadmap str_other (PyDict d)
  = ([st_subheader name;
      st_markdown (PyStr ("**Gap Analysis:** " ++ format_value str_other gap));
      st_expander "Detailed Timeline"],
     Some KeyError).
Proof.
  intros Hn Hg Ht. unfold show_roadmap. simpl. rewrite Hn, Hg.
  assert (plot_timeline (PyDict d) = Ok []) as ->.
  { apply plot_timeline_empty. unfold gantt_data. simpl. now rewrite Ht. }
  now rewrite Ht.
Qed.

Lemma missing_timeline_listing_witness :
  show_roadmap unnamed
    (PyDict [("roadmap_name", PyStr "X"); ("gap_analysis", PyStr "g")])
  = ([st_subheader (PyStr "X");
      st_markdown (PyStr ("**Gap Analysis:** "
                          ++ format_value unnamed (PyStr "g")));
      st_expander "Detailed Timeline"],
     Some KeyError).
Proof. apply missing_timeline_listing; reflexivity. Defined.

(** Extra X19.  For a roadmap with a name, a gap analysis and a timeline
    whose phases carry [phase], a list of texts as [focus_areas] and a
    list as [tasks], once [plot_timeline] has returned the first tab
    raises nothing: it shows the name, the gap analysis, what
    [plot_timeline] drew and, phase after phase, a heading, the focus
    areas joined by commas, and one line per task. *)
Theorem well_formed_roadmap_listed
    (str_other : pyval -> string) (d : pydict) (name gap : pyval)
    (phases : list pyval) (views : list Listing) (drawn : list ui_event) :
  Py.dict_get d "roadmap_name" = Some name ->
  Py.dict_get d "gap_analysis" = Some gap ->
  Py.dict_get d "timeline" = Some (PyList phases) ->
  Forall2 listed phases views ->
  plot_timeline (PyDict d) = Ok drawn ->
  show_roadmap str_other (PyDict d)
  = ([st_subheader name;
      st_markdown (PyStr ("**Gap Analysis:** " ++ format_value str_other gap))]
     ++ map shown drawn
     ++ [st_expander "Detailed Timeline"]
     ++ flat_map (listing_of str_other) views,
     None)%list.
Proof.
  intros Hn Hg Ht Hl Hp. unfold show_roadmap. rewrite Hp. simpl.
  rewrite Hn, Hg, Ht. cbn [bind Py.iter].
  rewrite (show_phases_listed _ _ _ Hl). unfold and_then. cbn [fst snd].
  cbn [app]. now rewrite <- app_assoc.
Qed.

Lemma well_formed_roadmap_listed_witness :
  show_roadmap unnamed scenario1_roadmap
  = ([st_subheader (PyStr "X");
      st_markdown (PyStr ("**Gap Analysis:** "
                          ++ format_value unnamed (PyStr "g")))]
     ++ map shown
          [st_plotly_chart
             [ {| Task := PyStr "SQL"; Phase := PyStr "Phase 1 (0-3 months)";
                  Start := 0; Finish := 3; Milestones := "m1" |} ]]
     ++ [st_expander "Detailed Timeline"]
     ++ flat_map (listing_of unnamed)
          [ {| heading := PyStr "Phase 1 (0-3 months)";
               areas := ["SQL"];
               tasks := [PyStr "t1"] |} ],
     None)%list.
Proof.
  eapply well_formed_roadmap_listed; try reflexivity.
  repeat constructor. eexists. repeat split; reflexivity.
Defined.

(** Extra X20.  A generation that succeeds is shown in the same run: the
    decoded roadmap is stored and the results section that follows is the
    one of that roadmap, whatever the session held before. *)
Theorem generated_roadmap_shown
    (model : string -> api_response)
    (youtube_search : string -> search_response)
    (str_other : pyval -> string) (json_loads : string -> option pyval)
    (current_status target_role : string) (experience : Z)
    (session_state : pydict) (raw : string) (v : pyval) :
  current_status <> "" -> target_role <> "" ->
  model (prompt current_status target_role experience) = ApiText (Some raw) ->
  raw <> "" ->
  json_loads (clean_response_text raw) = Some v ->
  Py.truthy v = true ->
  main model youtube_search str_other json_loads
    current_status target_role experience true session_state
  = (Py.dict_set session_state "roadmap" v,
     (st_title "Career Path Planner"
      :: fst (show_results model youtube_search str_other v
                current_status target_role),
      snd (show_results model youtube_search str_other v
             current_status target_role))).
Proof.
  intros Hc Ht Hm Hraw Hl Hv. unfold main, generate_clicked.
  destruct current_status; [contradiction|].
  destruct target_role; [contradiction|]. cbn [Py.is_empty negb andb].
  unfold generate_roadmap. rewrite Hm.
  destruct raw; [contradiction|]. cbn [Py.is_empty]. rewrite Hl, Hv.
  now rewrite dict_get_set_same.
Qed.

Lemma generated_roadmap_shown_witness :
  main (answers scenario1) no_results unnamed Json.loads
    "SQL" "Data Engineer" 2 true [("roadmap", PyDict [("roadmap_name", PyStr "old")])]
  = (Py.dict_set [("roadmap", PyDict [("roadmap_name", PyStr "old")])]
       "roadmap" scenario1_roadmap,
     (st_title "Career Path Planner"
      :: fst (show_results (answers scenario1) no_results unnamed
                scenario1_roadmap "SQL" "Data Engineer"),
      snd (show_results (answers scenario1) no_results unnamed
             scenario1_roadmap "SQL" "Data Engineer"))).
Proof.
  apply (generated_roadmap_shown (answers scenario1) no_results unnamed
           Json.loads "SQL" "Data Engineer" 2 _ scenario1);
    try discriminate; try reflexivity.
Defined.

(** Extra X21.  A generation that fails on the text the service
    returned, absent, empty or malformed, shows its messages and then, in
    the same run, the results section of the roadmap the session already
    held, which is left in place. *)
Theorem failed_generation_shows_previous
    (model : string -> api_response)
    (youtube_search : string -> search_response)
    (str_other : pyval -> string) (json_loads : string -> option pyval)
    (current_status target_role : string) (experience : Z)
    (session_state : pydict) (old : pyval) (text : option string) :
  current_status <> "" -> target_role <> "" ->
  model (prompt current_status target_role experience) = ApiText text ->
  text = None \/ text = Some ""
  \/ (exists raw, text = Some raw
                  /\ json_loads (clean_response_text raw) = None) ->
  Py.dict_get session_state "roadmap" = Some old ->
  main model youtube_search str_other json_loads
    current_status target_role experience true session_state
  = (session_state,
     ((st_title "Career Path Planner"
       :: map shown
            (match text with
             | None | Some EmptyString =>
                 [st_error "Empty response from API"]
             | Some raw =>
                 [st_error "Failed to parse JSON response. Raw response:";
                  st_code raw]
             end))
      ++ fst (show_results model youtube_search str_other old
                current_status target_role),
      snd (show_results model youtube_search str_other old
             current_status target_role)))%list.
Proof.
  intros Hc Ht Hm Hf Hold. unfold main, generate_clicked.
  destruct current_status; [contradiction|].
  destruct target_role; [contradiction|]. cbn [Py.is_empty negb andb].
  unfold generate_roadmap. rewrite Hm.
  destruct Hf as [-> | [-> | (raw & -> & Hl)]].
  - cbn. now rewrite Hold.
  - cbn. now rewrite Hold.
  - destruct raw as [|c raw]; cbn [Py.is_empty].
    + cbn. now rewrite Hold.
    + rewrite Hl. cbn. now rewrite Hold.
Qed.

Lemma failed_generation_shows_previous_witness :
  main (answers "not json at all") no_results unnamed Json.loads
    "SQL" "Data Engineer" 2 true [("roadmap", scenario1_roadmap)]
  = ([("roadmap", scenario1_roadmap)],
     ((st_title "Career Path Planner"
       :: map shown
            [st_error "Failed to parse JSON response. Raw response:";
             st_code "not json at all"])
      ++ fst (show_results (answers "not json at all") no_results unnamed
                scenario1_roadmap "SQL" "Data Engineer"),
      snd (show_results (answers "not json at all") no_results unnamed
             scenario1_roadmap "SQL" "Data Engineer")))%list.
Proof.
  apply (failed_generation_shows_previous
           (answers "not json at all") no_results unnamed Json.loads
           "SQL" "Data Engineer" 2 [("roadmap", scenario1_roadmap)]
           scenario1_roadmap (Some "not json at all"));
    try discriminate; try reflexivity.
  right. right. exists "not json at all". split; [reflexivity|].
  vm_compute. reflexivity.
Defined.

(* ================================================================== *)
(** * The example in the prompt *)
(* ================================================================== *)

Section PromptFacts.

Lemma scanstring_plain (s rest : string) :
  plain s = true ->
  Json.scanstring (s ++ String "034" rest) = Some (s, rest).
Proof.
  unfold plain. induction s as [|c s IH]; intros H.
  - reflexivity.
  - cbn [Py.forallb_str] in H. apply andb_true_iff in H as [Hc Hs].
    apply negb_true_iff in Hc. apply orb_false_iff in Hc as [Hc Hctl].
    apply orb_false_iff in Hc as [Hq Hb].
    cbn [append Json.scanstring]. rewrite Hq, Hb, Hctl, (IH Hs). reflexivity.
Qed.

Lemma scan_once_object (n : nat) (r r' : string) :
  Json.skip_ws r = String "034" r' ->
  Json.scan_once (S n) (String "{" r) = Json.object_pairs n [] r'.
Proof.
  intros H. rewrite scan_once_S.
  change (Json.JSONObject (Json.object_pairs n) r
          = Json.object_pairs n [] r').
  unfold Json.JSONObject. now rewrite H.
Qed.

Lemma object_pairs_text (n : nat) (pairs : list (string * pyval))
    (s key r1 r1' T str r2 r3 r4 : string) :
  Json.scanstring s = Some (key, r1) ->
  Json.skip_ws r1 = String ":" r1' ->
  Json.skip_ws r1' = String "034" T ->
  Json.scanstring T = Some (str, r2) ->
  Json.skip_ws r2 = String "," r3 ->
  Json.skip_ws r3 = String "034" r4 ->
  Json.object_pairs (S (S n)) pairs s
  = Json.object_pairs (S n) (pairs ++ [(key, PyStr str)])%list r4.
Proof.
  intros H1 H2 H3 H4 H5 H6.
  rewrite object_pairs_S, H1, H2, Ascii.eqb_refl, H3, scan_once_S.
  rewrite Ascii.eqb_refl, H4, H5.
  change (("," =? "}")%char) with false. cbv iota.
  now rewrite Ascii.eqb_refl, H6, Ascii.eqb_refl.
Qed.

Lemma example_shape (target_role : string) :
  schema_example target_role
  = "    "
    ++ String "{"
         (nl ++ quoted "        'roadmap_name': '"
          ++ ("Roadmap for " ++ target_role) ++ String "034" example_rest).
Proof.
  unfold schema_example, example_rest, Py.join. cbn [concat].
  rewrite !append_assoc. reflexivity.
Qed.

Lemma prompt_shows_example (current_status target_role : string)
    (experience : Z) :
  prompt current_status target_role experience
  = (nl ++ "    Create a detailed JSON roadmap for transitioning from:"
     ++ nl ++ "    " ++ current_status
     ++ nl ++ "    To: " ++ target_role
     ++ nl ++ "    With " ++ str_of_int experience ++ " years experience."
     ++ nl ++ nl
     ++ "    IMPORTANT: You must return ONLY valid JSON with this exact structure:"
     ++ nl)
    ++ schema_example target_role ++ nl ++ "    ".
Proof.
  unfold prompt, schema_example, Py.join. cbn [concat].
  rewrite !append_assoc. reflexivity.
Qed.

(** The example decodes, whatever plain text stands for the name. *)
Lemma example_body_decodes (name T : string) :
  Json.scanstring T = Some (name, example_rest) ->
  Json.loads
    (String "{" (nl ++ quoted "        'roadmap_name': '" ++ T))
  = Some
      (PyDict
         [("roadmap_name", PyStr name);
          ("gap_analysis", PyStr "analysis text here");
          ("timeline",
           PyList
             [PyDict
                [("phase", PyStr "Phase 1 (0-3 months)");
                 ("focus_areas", PyList [PyStr "area1"; PyStr "area2"]);
                 ("milestones",
                  PyList [PyStr "milestone1"; PyStr "milestone2"]);
                 ("tasks", PyList [PyStr "task1"; PyStr "task2"])]]);
          ("estimated_time", PyStr "3-6 months")]).
Proof.
  intros HT. apply (loads_fuel 40 _ _ "").
  - change (Json.skip_ws
              (String "{" (nl ++ quoted "        'roadmap_name': '" ++ T)))
      with (String "{" (nl ++ quoted "        'roadmap_name': '" ++ T)).
    rewrite (scan_once_object 39 _ (quoted "roadmap_name': '" ++ T))
      by reflexivity.
    erewrite (object_pairs_text 37 [] _ "roadmap_name" _ _ T name);
      [ | reflexivity | reflexivity | reflexivity | exact HT
        | reflexivity | reflexivity ].
    vm_compute. reflexivity.
  - reflexivity.
Qed.

Lemma example_ends_solid (T : string) :
  ends_solid
    (String "{" (nl ++ quoted "        'roadmap_name': '"
                 ++ T ++ String "034" example_rest)) = true.
Proof.
  change (ends_solid
            ((String "{" (nl ++ quoted "        'roadmap_name': '"))
             ++ T ++ String "034" example_rest) = true).
  apply ends_solid_after, ends_solid_after. reflexivity.
Qed.

Lemma example_cleaned (target_role : string) :
  clean_response_text (schema_example target_role)
  = String "{"
      (nl ++ quoted "        'roadmap_name': '"
       ++ ("Roadmap for " ++ target_role) ++ String "034" example_rest).
Proof.
  rewrite example_shape.
  match goal with
  | |- clean_response_text (_ ++ ?body) = _ =>
      rewrite <- (append_nil_r body) at 1;
      apply (clean_bare "    " body "")
  end; try reflexivity.
  apply example_ends_solid.
Qed.

Lemma example_decodes (target_role : string) :
  plain target_role = true ->
  Json.loads (clean_response_text (schema_example target_role))
  = Some (example_roadmap target_role).
Proof.
  intros Hp. rewrite example_cleaned. unfold example_roadmap.
  apply example_body_decodes.
  apply scanstring_plain.
  unfold plain in *. cbn [append Py.forallb_str]. exact Hp.
Qed.

End PromptFacts.

(** Extra X22.  The example the prompt shows is itself an answer the
    program accepts.  For a target role without quote, backslash and
    control character: the prompt ends with the example (lines 40-52)
    followed by a line break and four spaces; when the model answers with
    that example, [generate_roadmap] returns the roadmap the example
    describes and reports nothing; and [plot_timeline] draws from it one
    chart of two records, one for each of the two focus areas, both from
    month 0 to month 3. *)
Theorem prompt_example_accepted
    (model : string -> api_response)
    (current_status target_role : string) (experience : Z) :
  plain target_role = true ->
  model (prompt current_status target_role experience)
  = ApiText (Some (schema_example target_role)) ->
  (exists instructions,
      prompt current_status target_role experience
      = instructions ++ schema_example target_role ++ nl ++ "    ")
  /\ generate_roadmap model Json.loads current_status target_role experience
     = (example_roadmap target_role, [])
  /\ plot_timeline (example_roadmap target_role)
     = Ok [st_plotly_chart [example_record "area1"; example_record "area2"]].
Proof.
  intros Hp Hm. split; [|split].
  - eexists. apply prompt_shows_example.
  - unfold generate_roadmap. rewrite Hm.
    assert (Py.is_empty (schema_example target_role) = false) as ->
      by reflexivity.
    now rewrite (example_decodes target_role Hp).
  - reflexivity.
Qed.

Lemma prompt_example_accepted_witness :
  let model := fun _ : string =>
                 ApiText (Some (schema_example "Data Scientist")) in
  generate_roadmap model Json.loads "Analyst" "Data Scientist" 2
  = (example_roadmap "Data Scientist", []).
Proof.
  intros model.
  exact (proj1 (proj2 (prompt_example_accepted model "Analyst"
                         "Data Scientist" 2 eq_refl eq_refl))).
Defined.

(* ================================================================== *)
(** * Where the code does what the specification words *)
(* ================================================================== *)

Section AsSpecified.






End AsSpecified.




